(** * LifeSynced: the calendar store of [shared_db.py] and [timezone_utils.py]

    A shallow embedding of [CalendarDatabase] (duplicate finder, merge-write
    engine, suppression store, event query) together with the time helpers
    it calls, and the properties of the specification stated over it; then
    the clean-up of duplicates of [cleanup_duplicates.py] and the command
    line tools, with further properties read off the code. *)

From Stdlib Require Import ZArith Lia Ascii String List Bool DecimalString Sorted Permutation.
From stdpp Require Import base option list gmap strings.

Local Open Scope string_scope.
Local Open Scope Z_scope.

(** ** Strings

    A Python [str] is a sequence of code points.  A [string] here is read as
    a sequence of code points below 256; [len], indexing, slicing, [split],
    [join] and the comparison of SQLite's BINARY collation (the order of the
    UTF-8 encodings, which is the order of the code points) all work code
    point by code point. *)

Module Str.

Definition code (c : ascii) : Z := Z.of_N (N_of_ascii c).

(** [c in s] for a one-character [c]. *)
Fixpoint contains (c : ascii) (s : string) : bool :=
  match s with
  | EmptyString => false
  | String a s' => Ascii.eqb a c || contains c s'
  end.

(** [s.split(sep)] for a one-character separator: never the empty list. *)
Fixpoint split (sep : ascii) (s : string) : list string :=
  match s with
  | EmptyString => [EmptyString]
  | String a s' =>
      if Ascii.eqb a sep then EmptyString :: split sep s'
      else match split sep s' with
           | [] => [String a EmptyString]
           | p :: ps => String a p :: ps
           end
  end.

(** [sep.join(parts)]. *)
Fixpoint join (sep : string) (parts : list string) : string :=
  match parts with
  | [] => EmptyString
  | [p] => p
  | p :: ps => p +:+ sep +:+ join sep ps
  end.

(** [str.isdigit] on one code point below 256: the decimal digits and the
    superscript digits U+00B2, U+00B3 and U+00B9, which Unicode also gives
    the Digit numeric type. *)
Definition isdigit_char (c : ascii) : bool :=
  ((48 <=? code c) && (code c <=? 57))
  || (code c =? 178) || (code c =? 179) || (code c =? 185).

Fixpoint all_digits (s : string) : bool :=
  match s with
  | EmptyString => true
  | String a s' => isdigit_char a && all_digits s'
  end.

(** [s.isdigit()]: false on the empty string. *)
Definition isdigit (s : string) : bool :=
  match s with
  | EmptyString => false
  | _ => all_digits s
  end.

(** [s[i:]] and [s[:n]]. *)
Fixpoint drop (n : nat) (s : string) : string :=
  match n, s with
  | O, _ => s
  | S n', String _ s' => drop n' s'
  | S _, EmptyString => EmptyString
  end.

Fixpoint take (n : nat) (s : string) : string :=
  match n, s with
  | S n', String a s' => String a (take n' s')
  | _, _ => EmptyString
  end.

(** [s.endswith(c)]. *)
Fixpoint endswith (c : ascii) (s : string) : bool :=
  match s with
  | EmptyString => false
  | String a EmptyString => Ascii.eqb a c
  | String _ s' => endswith c s'
  end.

(** [s.replace(c, r)]: every occurrence. *)
Fixpoint replace (c : ascii) (r : string) (s : string) : string :=
  match s with
  | EmptyString => EmptyString
  | String a s' =>
      if Ascii.eqb a c then r +:+ replace c r s' else String a (replace c r s')
  end.

(** The order of SQLite's BINARY collation on TEXT. *)
Fixpoint leb (s t : string) : bool :=
  match s, t with
  | EmptyString, _ => true
  | String _ _, EmptyString => false
  | String a s', String b t' =>
      if code a <? code b then true
      else if code b <? code a then false
      else leb s' t'
  end.

Definition ltb (s t : string) : bool := negb (leb t s).

End Str.

(** ** Base id of an occurrence id *)

(** The test on the last part: [len(last_part) == 15 and last_part[8] == 'T'
    and last_part[:8].isdigit() and last_part[9:].isdigit()]. *)
Definition is_timestamp (last_part : string) : bool :=
  (String.length last_part =? 15)%nat
  && bool_decide (String.get 8 last_part = Some "T"%char)
  && Str.isdigit (Str.take 8 last_part)
  && Str.isdigit (Str.drop 9 last_part).

(** [CalendarDatabase.get_base_id_from_event_id]. *)
Definition get_base_id_from_event_id (event_id : string) : string :=
  if Str.contains "_" event_id then
    let parts := Str.split "_" event_id in
    if (2 <=? length parts)%nat then
      let last_part := List.last parts EmptyString in
      if is_timestamp last_part
      then Str.join "_" (List.removelast parts)
      else event_id
    else event_id
  else event_id.

(** ** Exceptions

    Code that can raise returns a [result]; [try]/[except] is a match on it. *)

Inductive exn : Type :=
| OverflowError      (* datetime arithmetic leaves years 1..9999 *)
| AttributeError     (* a method of [str] or [dict] on another object *)
| TypeError          (* an operator on an operand of the wrong type *)
| InterfaceError.    (* sqlite3 cannot bind a parameter of this type *)

Inductive result (A : Type) : Type :=
| Return (a : A)
| Raise (e : exn).
Arguments Return {A} a.
Arguments Raise {A} e.

#[export] Instance result_ret : MRet result := fun A a => Return a.
#[export] Instance result_bind : MBind result := fun A B f m =>
  match m with
  | Return a => f a
  | Raise e => Raise e
  end.

(** ** Dates and times ([datetime], [timedelta])

    A [datetime] carries its calendar fields and, when aware, the UTC offset
    of its fixed-offset [tzinfo] in microseconds.  A [timedelta] is a number
    of microseconds.  The calendar arithmetic is that of the standard
    library's implementation ([_ymd2ord], [_ord2ymd], [datetime.__add__]). *)

Record datetime : Type := mk_datetime {
  year : Z; month : Z; day : Z;
  hour : Z; minute : Z; second : Z; microsecond : Z;
  tzinfo : option Z
}.

Definition MAXORDINAL : Z := 3652059.
Definition US_PER_SECOND : Z := 1000000.
Definition US_PER_DAY : Z := 86400 * US_PER_SECOND.

Definition is_leap (y : Z) : bool :=
  (y mod 4 =? 0) && (negb (y mod 100 =? 0) || (y mod 400 =? 0)).

Definition days_before_year (y : Z) : Z :=
  let y := y - 1 in y * 365 + y / 4 - y / 100 + y / 400.

Definition days_in_month (y m : Z) : Z :=
  if m =? 2 then (if is_leap y then 29 else 28)
  else if (m =? 4) || (m =? 6) || (m =? 9) || (m =? 11) then 30
  else 31.

Definition DAYS_BEFORE_MONTH (m : Z) : Z :=
  nth (Z.to_nat m) [0; 0; 31; 59; 90; 120; 151; 181; 212; 243; 273; 304; 334] 0.

Definition DAYS_IN_MONTH (m : Z) : Z :=
  nth (Z.to_nat m) [0; 31; 28; 31; 30; 31; 30; 31; 31; 30; 31; 30; 31] 0.

Definition days_before_month (y m : Z) : Z :=
  DAYS_BEFORE_MONTH m + (if (2 <? m) && is_leap y then 1 else 0).

Definition ymd2ord (y m d : Z) : Z :=
  days_before_year y + days_before_month y m + d.

Definition ord2ymd (n : Z) : Z * Z * Z :=
  let n := n - 1 in
  let n400 := n / 146097 in let n := n mod 146097 in
  let y := n400 * 400 + 1 in
  let n100 := n / 36524 in let n := n mod 36524 in
  let n4 := n / 1461 in let n := n mod 1461 in
  let n1 := n / 365 in let n := n mod 365 in
  let y := y + n100 * 100 + n4 * 4 + n1 in
  if (n1 =? 4) || (n100 =? 4) then (y - 1, 12, 31)
  else
    let leapyear := (n1 =? 3) && (negb (n4 =? 24) || (n100 =? 3)) in
    let m := Z.shiftr (n + 50) 5 in
    let preceding := DAYS_BEFORE_MONTH m + (if (2 <? m) && leapyear then 1 else 0) in
    if n <? preceding then
      let m := m - 1 in
      let preceding :=
        preceding - (DAYS_IN_MONTH m + (if (m =? 2) && leapyear then 1 else 0)) in
      (y, m, n - preceding + 1)
    else (y, m, n - preceding + 1).

(** The fields as one count of microseconds, day 1 being 0001-01-01. *)
Definition wall_us (dt : datetime) : Z :=
  ((ymd2ord (year dt) (month dt) (day dt) * 24 + hour dt) * 60 + minute dt) * 60
    * US_PER_SECOND
  + second dt * US_PER_SECOND + microsecond dt.

(** [dt + td] ([datetime.__add__]): the fields are rebuilt from the sum and
    the [tzinfo] is kept; a day outside 1..MAXORDINAL is an OverflowError. *)
Definition datetime_add (dt : datetime) (td : Z) : result datetime :=
  let total := wall_us dt + td in
  let days := total / US_PER_DAY in
  let rest := total mod US_PER_DAY in
  if (0 <? days) && (days <=? MAXORDINAL) then
    let '(y, m, d) := ord2ymd days in
    let secs := rest / US_PER_SECOND in
    Return (mk_datetime y m d (secs / 3600) (secs mod 3600 / 60) (secs mod 60)
              (rest mod US_PER_SECOND) (tzinfo dt))
  else Raise OverflowError.

(** [dt.replace(tzinfo=timezone.utc)]. *)
Definition replace_tzinfo_utc (dt : datetime) : datetime :=
  mk_datetime (year dt) (month dt) (day dt) (hour dt) (minute dt) (second dt)
    (microsecond dt) (Some 0).

(** [dt.astimezone(timezone.utc)] on an aware [dt]: [(dt - offset)] with the
    UTC [tzinfo]. *)
Definition astimezone_utc (dt : datetime) (offset : Z) : result datetime :=
  utc ← datetime_add dt (- offset);
  mret (replace_tzinfo_utc utc).

(** [(a - b)] of two aware datetimes, in microseconds. *)
Definition datetime_sub (a b : datetime) : Z :=
  (wall_us a - default 0 (tzinfo a)) - (wall_us b - default 0 (tzinfo b)).

Definition digit_char (n : Z) : ascii := ascii_of_N (Z.to_N (48 + n mod 10)).

(** ["%0wd" % n] for a non-negative [n] of at most [w] digits. *)
Fixpoint fmt (w : nat) (n : Z) : string :=
  match w with
  | O => EmptyString
  | S w' => fmt w' (n / 10) +:+ String (digit_char n) EmptyString
  end.

(** The offset suffix of [isoformat]: [+HH:MM], with [:SS] and [.ffffff]
    only when they are not zero. *)
Definition format_offset (off : Z) : string :=
  let sign := if off <? 0 then "-" else "+" in
  let a := Z.abs off in
  let hh := a / (3600 * US_PER_SECOND) in
  let r := a mod (3600 * US_PER_SECOND) in
  let mm := r / (60 * US_PER_SECOND) in
  let ss := r mod (60 * US_PER_SECOND) in
  sign +:+ fmt 2 hh +:+ ":" +:+ fmt 2 mm
  +:+ (if ss =? 0 then ""
       else ":" +:+ fmt 2 (ss / US_PER_SECOND)
            +:+ (if ss mod US_PER_SECOND =? 0 then ""
                 else "." +:+ fmt 6 (ss mod US_PER_SECOND))).

(** [date.isoformat()]. *)
Definition date_isoformat (y m d : Z) : string :=
  fmt 4 y +:+ "-" +:+ fmt 2 m +:+ "-" +:+ fmt 2 d.

(** [datetime.isoformat()]. *)
Definition isoformat (dt : datetime) : string :=
  date_isoformat (year dt) (month dt) (day dt)
  +:+ "T" +:+ fmt 2 (hour dt) +:+ ":" +:+ fmt 2 (minute dt) +:+ ":" +:+ fmt 2 (second dt)
  +:+ (if microsecond dt =? 0 then "" else "." +:+ fmt 6 (microsecond dt))
  +:+ match tzinfo dt with
      | None => ""
      | Some off => format_offset off
      end.

(** [timezone_utils.normalize_to_utc]. *)
Definition normalize_to_utc (dt : datetime) : result datetime :=
  match tzinfo dt with
  | None => Return (replace_tzinfo_utc dt)
  | Some off => astimezone_utc dt off
  end.

(** ** Python values and SQLite cells

    The values an event mapping or an argument can hold: [None], a [str], an
    [int], or any other object (a list, a dict, ...), of which only the truth
    value matters here and which sqlite3 refuses to bind. *)

Inductive value : Type :=
| VNone
| VStr (s : string)
| VInt (z : Z)
| VObj (nonempty : bool).

(** Truth value, as [if v:], [not v], [a and b], [a or b] test it. *)
Definition truthy (v : value) : bool :=
  match v with
  | VNone => false
  | VStr s => negb (String.eqb s "")
  | VInt z => negb (z =? 0)
  | VObj b => b
  end.

(** What the [is_all_day INTEGER] column can hold. *)
Inductive sql_value : Type :=
| SqlNull
| SqlText (s : string)
| SqlInt (z : Z).

Definition decimal (z : Z) : string := DecimalString.NilZero.string_of_int (Z.to_int z).

(** Binding a parameter that meets a TEXT column: [None] is NULL, an [int]
    takes the column's TEXT affinity, an unsupported object raises.  The
    ints are those of SQLite's 64-bit INTEGER; sqlite3 refuses a larger one,
    which no field of an event is declared to hold. *)
Definition bind_text (v : value) : result (option string) :=
  match v with
  | VNone => Return None
  | VStr s => Return (Some s)
  | VInt z => Return (Some (decimal z))
  | VObj _ => Raise InterfaceError
  end.

(** Binding the [is_all_day] parameter.  The value is stored as bound (the
    conversion of numeric-looking text by the INTEGER affinity is left out). *)
Definition bind_flag (v : value) : result sql_value :=
  match v with
  | VNone => Return SqlNull
  | VStr s => Return (SqlText s)
  | VInt z => Return (SqlInt z)
  | VObj _ => Raise InterfaceError
  end.

(** A fetched TEXT cell as a Python value. *)
Definition of_text (c : option string) : value :=
  match c with
  | None => VNone
  | Some s => VStr s
  end.

Definition of_flag (c : sql_value) : value :=
  match c with
  | SqlNull => VNone
  | SqlText s => VStr s
  | SqlInt z => VInt z
  end.

(** SQL [col = ?] on TEXT: NULL on either side is not true. *)
Definition sql_eq (col param : option string) : bool :=
  match col, param with
  | Some a, Some b => String.eqb a b
  | _, _ => false
  end.

(** SQL [col >= ?] and [col <= ?] on TEXT, BINARY collation. *)
Definition sql_ge (col param : option string) : bool :=
  match col, param with
  | Some a, Some b => Str.leb b a
  | _, _ => false
  end.

Definition sql_le (col param : option string) : bool :=
  match col, param with
  | Some a, Some b => Str.leb a b
  | _, _ => false
  end.

Definition sql_lt (col param : option string) : bool :=
  match col, param with
  | Some a, Some b => Str.ltb a b
  | _, _ => false
  end.

(** ** The store *)

(** A row of [appointments]; [row_id] is the TEXT primary key. *)
Record row : Type := mk_row {
  row_id : string;
  row_subject : option string;
  row_start_time : option string;
  row_end_time : option string;
  row_location : option string;
  row_organizer_email : option string;
  row_organizer_name : option string;
  row_attendees : option string;
  row_body_preview : option string;
  row_is_all_day : sql_value;
  row_source : option string;
  row_created_at : option string;
  row_updated_at : option string
}.

(** A row of [ignored_base_ids], keyed by [base_id]. *)
Record ignored_base : Type := mk_ignored_base {
  ib_subject : string;
  ib_ignored_at : string;
  ib_reason : string
}.

(** A row of [ignored_event_ids], keyed by [event_id]. *)
Record ignored_event : Type := mk_ignored_event {
  ie_subject : string;
  ie_start_time : string;
  ie_ignored_at : string;
  ie_reason : string
}.

(** The committed contents of the database file at [db_path].  The rows of
    [appointments] are kept in table order, which is the order a SELECT
    without ORDER BY is taken to return them in. *)
Record database : Type := mk_database {
  appointments : list row;
  ignored_base_ids : gmap string ignored_base;
  ignored_event_ids : gmap string ignored_event
}.

(** [SELECT ... FROM appointments WHERE id = ?] then [fetchone()]. *)
Definition select_by_id (rows : list row) (key : option string) : option row :=
  List.find (fun r => sql_eq (Some (row_id r)) key) rows.

(** Rows in ascending order of start_time (BINARY collation), rows with the
    same start_time in the order of the table: a stable insertion sort.  It
    is the order of ORDER BY start_time ASC, and the order in which the
    index idx_subject_source_time yields the rows of one subject and source. *)
Fixpoint insert_by_start_time (r : row) (sorted : list row) : list row :=
  match sorted with
  | [] => [r]
  | x :: rest =>
      if Str.leb (default "" (row_start_time r)) (default "" (row_start_time x))
      then r :: x :: rest
      else x :: insert_by_start_time r rest
  end.

Definition order_by_start_time (rows : list row) : list row :=
  List.fold_right insert_by_start_time [] rows.

(** ** Event mappings and deduplication rules *)

(** [event_data.get(key, default)]. *)
Definition get (event_data : gmap string value) (key : string) (dflt : value) : value :=
  default dflt (event_data !! key).

(** The three entries read from [deduplication_rules], each with the default
    that [.get] gives when the key is absent. *)
Record dedup_rules : Type := mk_rules {
  skip_same_source : bool;
  precedence : gmap string Z;
  rules_source : string
}.

(** [deduplication_rules or {}]. *)
Definition no_rules : dedup_rules := mk_rules false ∅ "".

(** [precedence.get(source, 0)]. *)
Definition precedence_get (rules : dedup_rules) (src : string) : Z :=
  default 0 (precedence rules !! src).

(** ** Time parsing and the duplicate finder *)

Section Engine.

(** [datetime.fromisoformat] of the running interpreter; [None] is its
    ValueError. *)
Variable fromisoformat : string -> option datetime.

(** [timezone_utils.parse_iso_datetime].  A falsy argument gives [None]; an
    argument that is not a [str] has no [endswith], and the AttributeError is
    caught. *)
Definition parse_iso_datetime (iso_str : value) : option datetime :=
  if negb (truthy iso_str) then None
  else match iso_str with
       | VStr s =>
           let s := if Str.endswith "Z" s then Str.replace "Z" "+00:00" s else s in
           match fromisoformat s with
           | Some dt =>
               Some (match tzinfo dt with
                     | None => replace_tzinfo_utc dt
                     | Some _ => dt
                     end)
           | None => None
           end
       | _ => None
       end.

(** [a == b] between a fetched id and the [exclude_id] argument. *)
Definition id_equals (rid : string) (v : value) : bool :=
  match v with
  | VStr s => String.eqb rid s
  | _ => false
  end.

(** [(organizer_email or '') == (row_org_email or '')]. *)
Definition organizer_matches (organizer_email : value) (row_org_email : option string) : bool :=
  let r := default "" row_org_email in
  if truthy organizer_email then
    match organizer_email with
    | VStr s => String.eqb s r
    | _ => false
    end
  else String.eqb "" r.

(** The loop over [cursor.fetchall()]. *)
Fixpoint scan_rows (start_utc : datetime) (organizer_email exclude_id : value)
    (rows : list row) : result (option string) :=
  match rows with
  | [] => Return None
  | r :: rest =>
      if id_equals (row_id r) exclude_id then
        scan_rows start_utc organizer_email exclude_id rest
      else
        match parse_iso_datetime (of_text (row_start_time r)) with
        | None => scan_rows start_utc organizer_email exclude_id rest
        | Some row_start_dt =>
            row_start_utc ← normalize_to_utc row_start_dt;
            let time_diff := Z.abs (datetime_sub start_utc row_start_utc) in
            if (time_diff <? 60 * US_PER_SECOND)
               && organizer_matches organizer_email (row_organizer_email r)
            then Return (Some (row_id r))
            else scan_rows start_utc organizer_email exclude_id rest
        end
  end.

(** The SELECT of [find_duplicate]: the rows it keeps. *)
Definition in_window (subject source lo hi : option string) (excl : option (option string))
    (r : row) : bool :=
  sql_eq (row_subject r) subject && sql_eq (row_source r) source
  && sql_ge (row_start_time r) lo && sql_le (row_start_time r) hi
  && match excl with
     | Some e => match e with
                 | Some x => negb (String.eqb (row_id r) x)
                 | None => false
                 end
     | None => true
     end.

(** The body of the [try] block of [find_duplicate].  The SELECT has no
    ORDER BY; SQLite answers it through idx_subject_source_time (subject,
    source, start_time), so [fetchall] lists the rows by start_time, and
    rows with the same start_time in the order of the table. *)
Definition find_duplicate_try (rows : list row)
    (subject start_time organizer_email source exclude_id : value)
    : result (option string) :=
  match parse_iso_datetime start_time with
  | None => Return None
  | Some start_dt =>
      start_utc ← normalize_to_utc start_dt;
      lo ← datetime_add start_utc (- (60 * US_PER_SECOND));
      hi ← datetime_add start_utc (60 * US_PER_SECOND);
      let time_window_start := isoformat lo in
      let time_window_end := isoformat hi in
      p_subject ← bind_text subject;
      p_source ← bind_text source;
      excl ← (if truthy exclude_id
              then e ← bind_text exclude_id; mret (Some e)
              else mret None);
      let fetched :=
        order_by_start_time
          (List.filter (in_window p_subject p_source (Some time_window_start)
                          (Some time_window_end) excl) rows) in
      scan_rows start_utc organizer_email exclude_id fetched
  end.

(** [CalendarDatabase.find_duplicate]: [except Exception] logs and returns
    [None].  [rows] is what its own connection to [db_path] reads. *)
Definition find_duplicate (rows : list row)
    (subject start_time organizer_email source exclude_id : value) : option string :=
  match find_duplicate_try rows subject start_time organizer_email source exclude_id with
  | Return r => r
  | Raise _ => None
  end.

(** ** The merge-write engine *)

(** The ten column values that UPDATE and INSERT bind from the event. *)
Record columns : Type := mk_columns {
  c_subject : option string;
  c_start_time : option string;
  c_end_time : option string;
  c_location : option string;
  c_organizer_email : option string;
  c_organizer_name : option string;
  c_attendees : option string;
  c_body_preview : option string;
  c_is_all_day : sql_value;
  c_source : option string
}.

(** The parameter tuple of both statements; binding any unsupported value
    makes [cursor.execute] raise. *)
Definition bind_columns (event_data : gmap string value) : result columns :=
  subject ← bind_text (get event_data "subject" (VStr ""));
  start_time ← bind_text (get event_data "start_time" (VStr ""));
  end_time ← bind_text (get event_data "end_time" (VStr ""));
  location ← bind_text (get event_data "location" (VStr ""));
  organizer_email ← bind_text (get event_data "organizer_email" (VStr ""));
  organizer_name ← bind_text (get event_data "organizer_name" (VStr ""));
  attendees ← bind_text (get event_data "attendees" (VStr "[]"));
  body_preview ← bind_text (get event_data "body_preview" (VStr ""));
  is_all_day ← bind_flag (get event_data "is_all_day" (VInt 0));
  source ← bind_text (get event_data "source" (VStr ""));
  mret (mk_columns subject start_time end_time location organizer_email
          organizer_name attendees body_preview is_all_day source).

(** What [UPDATE appointments SET ... , updated_at = ?] leaves in a row. *)
Definition updated_row (c : columns) (now : string) (r : row) : row :=
  mk_row (row_id r) (c_subject c) (c_start_time c) (c_end_time c) (c_location c)
    (c_organizer_email c) (c_organizer_name c) (c_attendees c) (c_body_preview c)
    (c_is_all_day c) (c_source c) (row_created_at r) (Some now).

(** The row of [INSERT INTO appointments ... VALUES (...)]. *)
Definition inserted_row (event_id : string) (c : columns) (now : string) : row :=
  mk_row event_id (c_subject c) (c_start_time c) (c_end_time c) (c_location c)
    (c_organizer_email c) (c_organizer_name c) (c_attendees c) (c_body_preview c)
    (c_is_all_day c) (c_source c) (Some now) (Some now).

(** [UPDATE appointments SET ... WHERE id = ?]. *)
Definition sql_update (rows : list row) (c : columns) (now : string) (key : option string)
    : list row :=
  List.map (fun r => if sql_eq (Some (row_id r)) key then updated_row c now r else r) rows.

(** The state of the loop: the rows as the writing connection sees them, and
    the two counters. *)
Definition loop_state : Type := list row * Z * Z.

(** One iteration of the loop of [save_appointments].  [committed] is the
    content of the database file, which is what the connection opened by
    [find_duplicate] reads: the writes of the loop are committed only by
    [conn.commit()] after it.  [continue] is [Return st]. *)
Definition process_event (committed : list row) (rules : dedup_rules) (now : string)
    (st : loop_state) (event_data : gmap string value) : result loop_state :=
  let '(rows, saved_count, updated_count) := st in
  let current_source := rules_source rules in
  if bool_decide (event_data = ∅) then Return st
  else
    let event_id := get event_data "id" VNone in
    if negb (truthy event_id) then Return st
    else
      key ← bind_text event_id;
      match key with
      | None => Return st  (* not reached: a truthy id never binds to NULL *)
      | Some event_key =>
          match select_by_id rows key with
          | Some existing =>
              let existing_source := row_source existing in
              let skip :=
                if truthy (VStr current_source) && truthy (of_text existing_source) then
                  let current_precedence := precedence_get rules current_source in
                  let existing_precedence :=
                    precedence_get rules (default "" existing_source) in
                  if current_precedence <? existing_precedence then true
                  else if existing_precedence <? current_precedence then false
                  else skip_same_source rules
                       && bool_decide (Some current_source = existing_source)
                else false in
              if skip then Return st
              else
                c ← bind_columns event_data;
                Return (sql_update rows c now key, saved_count, updated_count + 1)
          | None =>
              let insert :=
                c ← bind_columns event_data;
                Return ((rows ++ [inserted_row event_key c now])%list, saved_count + 1,
                        updated_count) in
              let duplicate_id :=
                find_duplicate committed
                  (get event_data "subject" (VStr ""))
                  (get event_data "start_time" (VStr ""))
                  (get event_data "organizer_email" (VStr ""))
                  (get event_data "source" (VStr ""))
                  event_id in
              if truthy (of_text duplicate_id) then
                let dup_source :=
                  match select_by_id rows duplicate_id with
                  | Some dup => row_source dup
                  | None => Some ""
                  end in
                if truthy (VStr current_source) && truthy (of_text dup_source) then
                  let current_precedence := precedence_get rules current_source in
                  let dup_precedence := precedence_get rules (default "" dup_source) in
                  if current_precedence <? dup_precedence then Return st
                  else if dup_precedence <? current_precedence then
                    c ← bind_columns event_data;
                    Return (sql_update rows c now duplicate_id, saved_count,
                            updated_count + 1)
                  else if skip_same_source rules
                          && bool_decide (Some current_source = dup_source)
                  then Return st
                  else insert
                else Return st
              else insert
          end
      end.

(** The [for] loop: an exception leaves it at once. *)
Fixpoint save_loop (committed : list row) (rules : dedup_rules) (now : string)
    (st : loop_state) (events : list (gmap string value)) : result loop_state :=
  match events with
  | [] => Return st
  | event_data :: rest =>
      st' ← process_event committed rules now st event_data;
      save_loop committed rules now st' rest
  end.

(** [CalendarDatabase.save_appointments].  [now] is the string of
    [datetime.now(timezone.utc).isoformat()].  Leaving the [with] block
    normally commits; leaving it by an exception rolls the transaction back
    and the exception reaches the caller. *)
Definition save_appointments (db : database) (events : list (gmap string value))
    (deduplication_rules : option dedup_rules) (now : string)
    : database * result (Z * Z) :=
  match events with
  | [] => (db, Return (0, 0))
  | _ =>
      let rules := default no_rules deduplication_rules in
      match save_loop (appointments db) rules now (appointments db, 0, 0) events with
      | Return (rows, saved_count, updated_count) =>
          (mk_database rows (ignored_base_ids db) (ignored_event_ids db),
           Return (saved_count, updated_count))
      | Raise e => (db, Raise e)
      end
  end.

End Engine.

(** ** The suppression store *)

(** [CalendarDatabase.get_ignored_base_ids]: the set of keys. *)
Definition get_ignored_base_ids (db : database) : gset string :=
  dom (ignored_base_ids db).

(** [CalendarDatabase.get_ignored_event_ids]. *)
Definition get_ignored_event_ids (db : database) : gset string :=
  dom (ignored_event_ids db).

(** [CalendarDatabase.add_ignored_base_id]: INSERT OR REPLACE; [now] is the
    current UTC time as a string. *)
Definition add_ignored_base_id (db : database) (base_id subject reason now : string)
    : database :=
  mk_database (appointments db)
    (<[base_id := mk_ignored_base subject now reason]> (ignored_base_ids db))
    (ignored_event_ids db).

(** [CalendarDatabase.remove_ignored_base_id]: DELETE ... WHERE base_id = ?. *)
Definition remove_ignored_base_id (db : database) (base_id : string) : database :=
  mk_database (appointments db) (delete base_id (ignored_base_ids db))
    (ignored_event_ids db).

(** [CalendarDatabase.add_ignored_event_id]. *)
Definition add_ignored_event_id (db : database)
    (event_id subject start_time reason now : string) : database :=
  mk_database (appointments db) (ignored_base_ids db)
    (<[event_id := mk_ignored_event subject start_time now reason]> (ignored_event_ids db)).

(** [CalendarDatabase.remove_ignored_event_id]. *)
Definition remove_ignored_event_id (db : database) (event_id : string) : database :=
  mk_database (appointments db) (ignored_base_ids db)
    (delete event_id (ignored_event_ids db)).

(** ** The event query *)

(** One dictionary of the list that [query_events] returns. *)
Record appointment : Type := mk_appointment {
  a_id : value;
  a_subject : value;
  a_start_time : value;
  a_end_time : value;
  a_location : value;
  a_organizer_email : value;
  a_organizer_name : value;
  a_attendees : value;
  a_body_preview : value;
  a_is_all_day : value;
  a_source : value
}.

(** [v or dflt]. *)
Definition py_or (v dflt : value) : value := if truthy v then v else dflt.

(** The dictionary built from a fetched row. *)
Definition appointment_of_row (r : row) : appointment :=
  mk_appointment
    (VStr (row_id r))
    (of_text (row_subject r))
    (of_text (row_start_time r))
    (of_text (row_end_time r))
    (py_or (of_text (row_location r)) (VStr ""))
    (py_or (of_text (row_organizer_email r)) (VStr ""))
    (py_or (of_text (row_organizer_name r)) (VStr ""))
    (py_or (of_text (row_attendees r)) (VStr "[]"))
    (py_or (of_text (row_body_preview r)) (VStr ""))
    (of_flag (row_is_all_day r))
    (py_or (of_text (row_source r)) (VStr "")).

(** [(now + timedelta(days=n)).date()] as a proleptic ordinal. *)
Definition date_after (now : datetime) (n : Z) : result Z :=
  dt ← datetime_add now (n * US_PER_DAY);
  mret (ymd2ord (year dt) (month dt) (day dt)).

(** [date + timedelta(days=n)] ([date.__add__]). *)
Definition date_add (ordinal n : Z) : result Z :=
  let o := ordinal + n in
  if (0 <? o) && (o <=? MAXORDINAL) then Return o else Raise OverflowError.

Definition ordinal_isoformat (ordinal : Z) : string :=
  let '(y, m, d) := ord2ymd ordinal in date_isoformat y m d.

(** The two date strings the query compares with. *)
Definition date_window (now : datetime) (days_back days_ahead : Z) : result (string * string) :=
  start_date ← date_after now (- days_back);
  end_date ← date_after now days_ahead;
  end_next ← date_add end_date 1;
  mret (ordinal_isoformat start_date, ordinal_isoformat end_next).

(** SQL [substr(start_time, 1, 10)]. *)
Definition substr_1_10 (c : option string) : option string := Str.take 10 <$> c.

(** The WHERE clause of the query; [source_param] is [None] when no source
    filter is appended. *)
Definition selected (start_date_str end_date_str : string)
    (source_param : option (option string)) (r : row) : bool :=
  sql_ge (substr_1_10 (row_start_time r)) (Some start_date_str)
  && sql_lt (substr_1_10 (row_start_time r)) (Some end_date_str)
  && match source_param with
     | Some p => sql_eq (row_source r) p
     | None => true
     end.

(** [if source: query += ' AND source = ?'], with the parameter bound. *)
Definition source_filter (source : value) : result (option (option string)) :=
  if truthy source then p ← bind_text source; mret (Some p) else mret None.

(** The test of the loop body: the row is kept. *)
Definition visible (ignored_base ignored_event : gset string) (r : row) : bool :=
  negb (bool_decide (row_id r ∈ ignored_event))
  && negb (bool_decide (get_base_id_from_event_id (row_id r) ∈ ignored_base)).

(** [CalendarDatabase.query_events]; [now] is [datetime.now(timezone.utc)]. *)
Definition query_events (db : database) (now : datetime) (days_back days_ahead : Z)
    (source : value) : result (list appointment) :=
  '(start_date_str, end_date_str) ← date_window now days_back days_ahead;
  let ignored_base := get_ignored_base_ids db in
  let ignored_event := get_ignored_event_ids db in
  source_param ← source_filter source;
  let rows :=
    order_by_start_time
      (List.filter (selected start_date_str end_date_str source_param) (appointments db)) in
  mret (List.map appointment_of_row (List.filter (visible ignored_base ignored_event) rows)).

(** ** A [fromisoformat] for the documented formats

    [YYYY-MM-DD], one separator character, [HH:MM:SS], then nothing or
    [+HH:MM] or [-HH:MM]: the formats listed by [parse_iso_datetime] (its [Z]
    form is rewritten before the call).  Every other string is refused. *)

Definition digit_value (c : ascii) : option Z :=
  if (48 <=? Str.code c) && (Str.code c <=? 57) then Some (Str.code c - 48) else None.

Fixpoint number_from (acc : Z) (s : string) : option Z :=
  match s with
  | EmptyString => Some acc
  | String c s' => d ← digit_value c; number_from (acc * 10 + d) s'
  end.

Definition number_at (s : string) (start len : nat) : option Z :=
  number_from 0 (String.substring start len s).

Definition char_at (s : string) (i : nat) (c : ascii) : bool :=
  bool_decide (String.get i s = Some c).

Definition parse_offset (rest : string) : option (option Z) :=
  match rest with
  | EmptyString => Some None
  | _ =>
      if (String.length rest =? 6)%nat && char_at rest 3 ":" then
        hh ← number_at rest 1 2;
        mm ← number_at rest 4 2;
        if (hh <=? 23) && (mm <=? 59) then
          let off := (hh * 3600 + mm * 60) * US_PER_SECOND in
          if char_at rest 0 "+" then Some (Some off)
          else if char_at rest 0 "-" then Some (Some (- off))
          else None
        else None
      else None
  end.

Definition iso8601_fromisoformat (s : string) : option datetime :=
  if (String.length s <? 19)%nat then None
  else if char_at s 4 "-" && char_at s 7 "-" && char_at s 13 ":" && char_at s 16 ":" then
    y ← number_at s 0 4;
    m ← number_at s 5 2;
    d ← number_at s 8 2;
    hh ← number_at s 11 2;
    mm ← number_at s 14 2;
    ss ← number_at s 17 2;
    tz ← parse_offset (Str.drop 19 s);
    if (1 <=? y) && (1 <=? m) && (m <=? 12) && (1 <=? d) && (d <=? days_in_month y m)
       && (hh <=? 23) && (mm <=? 59) && (ss <=? 59)
    then Some (mk_datetime y m d hh mm ss 0 tz)
    else None
  else None.

(** ** The rest of [timezone_utils.py] *)

(** A [datetime] object always has fields in these ranges: the constructor
    refuses any other. *)
Definition valid_date (y m d : Z) : Prop :=
  1 <= y ∧ 1 <= m <= 12 ∧ 1 <= d <= days_in_month y m.

Definition valid_datetime (dt : datetime) : Prop :=
  valid_date (year dt) (month dt) (day dt) ∧ year dt <= 9999
  ∧ 0 <= hour dt < 24 ∧ 0 <= minute dt < 60 ∧ 0 <= second dt < 60
  ∧ 0 <= microsecond dt < US_PER_SECOND.

(** The instant of an aware datetime, in microseconds of UTC; a naive one is
    read as UTC, as [normalize_to_utc] does. *)
Definition utc_us (dt : datetime) : Z := wall_us dt - default 0 (tzinfo dt).

(** The month and day that [_ord2ymd] derives from the day [n] of a year. *)
Definition month_part (n : Z) (leapyear : bool) : Z * Z :=
  let m := Z.shiftr (n + 50) 5 in
  let preceding := DAYS_BEFORE_MONTH m + (if (2 <? m) && leapyear then 1 else 0) in
  if n <? preceding then
    let m' := m - 1 in
    let preceding' :=
      preceding - (DAYS_IN_MONTH m' + (if (m' =? 2) && leapyear then 1 else 0)) in
    (m', n - preceding' + 1)
  else (m, n - preceding + 1).

(** The check that [month_part] is right on day [k] of a year: the month and
    the day are in range and lead back to [k]. *)
Definition month_part_ok (leapyear : bool) (k : nat) : bool :=
  let n := Z.of_nat k in
  let '(m, d) := month_part n leapyear in
  (1 <=? m) && (m <=? 12) && (1 <=? d)
  && (d <=? DAYS_IN_MONTH m + (if (m =? 2) && leapyear then 1 else 0))
  && (DAYS_BEFORE_MONTH m + (if (2 <? m) && leapyear then 1 else 0) + d =? n + 1).

(** [timezone_utils.format_iso_datetime]. *)
Definition format_iso_datetime (dt : datetime) (preserve_timezone : bool) : result string :=
  if preserve_timezone then Return (isoformat dt)
  else utc_dt ← normalize_to_utc dt; mret (isoformat utc_dt).

Section Tolerance.

(** [abs(td).total_seconds() < tolerance_seconds] for a [timedelta] of the
    given number of microseconds: a comparison of floats, taken as it is. *)
Variable seconds_lt : Z -> Z -> bool.

(** [timezone_utils.compare_datetimes]. *)
Definition compare_datetimes (dt1 dt2 : datetime) (tolerance_seconds : Z) : result bool :=
  dt1_utc ← normalize_to_utc dt1;
  dt2_utc ← normalize_to_utc dt2;
  mret (seconds_lt (Z.abs (datetime_sub dt1_utc dt2_utc)) tolerance_seconds).

End Tolerance.

(** [timezone_utils.get_date_range]; [now] is [datetime.now(timezone.utc)]. *)
Definition get_date_range (now : datetime) (days_back days_forward : Z)
    : result (datetime * datetime) :=
  start_date ← datetime_add now (- (days_back * US_PER_DAY));
  end_date ← datetime_add now (days_forward * US_PER_DAY);
  mret (start_date, end_date).

(** ** The rest of [shared_db.py] *)

(** Insertion into a list sorted by [le], after the elements that are not
    above the new one; and the stable sort built from it. *)
Fixpoint insert_by {A : Type} (le : A -> A -> bool) (x : A) (sorted : list A) : list A :=
  match sorted with
  | [] => [x]
  | y :: rest => if le x y then x :: y :: rest else y :: insert_by le x rest
  end.

Definition sort_by {A : Type} (le : A -> A -> bool) (l : list A) : list A :=
  List.fold_right (insert_by le) [] l.

Section Batch.
Variable fromisoformat : string -> option datetime.

(** [CalendarDatabase.save_appointments_batch]. *)
Definition save_appointments_batch (db : database) (events : list (gmap string value))
    (deduplication_rules : option dedup_rules) (now : string)
    : database * result (Z * Z) :=
  save_appointments fromisoformat db events deduplication_rules now.

End Batch.

(** One dictionary of [get_ignored_base_ids_list]: base_id, subject,
    ignored_at. *)
Record ignored_base_entry : Type := mk_ignored_base_entry {
  ibe_base_id : string;
  ibe_subject : string;
  ibe_ignored_at : string
}.

(** One dictionary of [get_ignored_event_ids_list]: event_id, subject,
    start_time, ignored_at. *)
Record ignored_event_entry : Type := mk_ignored_event_entry {
  iee_event_id : string;
  iee_subject : string;
  iee_start_time : string;
  iee_ignored_at : string
}.

(** [CalendarDatabase.get_ignored_base_ids_list]: ORDER BY ignored_at DESC. *)
Definition get_ignored_base_ids_list (db : database) : list ignored_base_entry :=
  sort_by (λ a b, Str.leb (ibe_ignored_at b) (ibe_ignored_at a))
    ((λ kv, mk_ignored_base_entry kv.1 (ib_subject kv.2) (ib_ignored_at kv.2))
       <$> map_to_list (ignored_base_ids db)).

(** [CalendarDatabase.get_ignored_event_ids_list]. *)
Definition get_ignored_event_ids_list (db : database) : list ignored_event_entry :=
  sort_by (λ a b, Str.leb (iee_ignored_at b) (iee_ignored_at a))
    ((λ kv, mk_ignored_event_entry kv.1 (ie_subject kv.2) (ie_start_time kv.2)
              (ie_ignored_at kv.2))
       <$> map_to_list (ignored_event_ids db)).

(** The text of a string value, for reading result dictionaries. *)
Definition text_of (v : value) : string :=
  match v with
  | VStr s => s
  | _ => ""
  end.

(** ** [cleanup_duplicates.py] *)

(** The key under which [main] looks for duplicates: subject, UTC start
    time as [isoformat] prints it, organizer email. *)
Definition dedup_key : Type := option string * string * string.

(** ORDER BY created_at ASC: NULL first, then the BINARY order. *)
Definition created_at_le (a b : row) : bool :=
  match row_created_at a, row_created_at b with
  | None, _ => true
  | Some _, None => false
  | Some x, Some y => Str.leb x y
  end.

(** A row with another source. *)
Definition with_source (r : row) (src : option string) : row :=
  mk_row (row_id r) (row_subject r) (row_start_time r) (row_end_time r) (row_location r)
    (row_organizer_email r) (row_organizer_name r) (row_attendees r) (row_body_preview r)
    (row_is_all_day r) src (row_created_at r) (row_updated_at r).

(** [UPDATE appointments SET source = 'ics' WHERE source IS NULL]. *)
Definition null_sources_to_ics (rows : list row) : list row :=
  List.map (λ r, match row_source r with
                 | None => with_source r (Some "ics")
                 | Some _ => r
                 end) rows.

(** [DELETE FROM appointments WHERE id = ?]. *)
Definition sql_delete (rows : list row) (event_id : string) : list row :=
  List.filter (λ r, negb (String.eqb (row_id r) event_id)) rows.

(** [SELECT DISTINCT source FROM appointments WHERE source IS NOT NULL].
    SQLite reads the sources from idx_source: they come in ascending order
    (BINARY collation). *)
Definition distinct_sources (rows : list row) : list string :=
  sort_by Str.leb (remove_dups (omap row_source rows)).

Section Cleanup.
Variable fromisoformat : string -> option datetime.

(** The key of one fetched event; [None] when its start time does not parse
    ([continue]).  [normalize_to_utc] is not guarded here. *)
Definition event_key (r : row) : result (option dedup_key) :=
  match parse_iso_datetime fromisoformat (of_text (row_start_time r)) with
  | None => Return None
  | Some start_dt =>
      start_utc ← normalize_to_utc start_dt;
      mret (Some (row_subject r, isoformat start_utc, default "" (row_organizer_email r)))
  end.

(** The loop over the events of one source: [seen] maps each key to the id
    that was met first, the result is [to_remove]. *)
Fixpoint scan_duplicates (seen : gmap dedup_key string) (events : list row)
    : result (list string) :=
  match events with
  | [] => Return []
  | r :: rest =>
      k ← event_key r;
      match k with
      | None => scan_duplicates seen rest
      | Some key =>
          match seen !! key with
          | Some _ => to_remove ← scan_duplicates seen rest; mret (row_id r :: to_remove)
          | None => scan_duplicates (<[key := row_id r]> seen) rest
          end
      end
  end.

(** One iteration of the loop over the sources: the rows after it and the
    number of DELETE statements. *)
Definition cleanup_source (rows : list row) (source : option string)
    : result (list row * Z) :=
  let rows := match source with
              | None => null_sources_to_ics rows
              | Some _ => rows
              end in
  let source := default "ics" source in
  let events :=
    sort_by created_at_le (List.filter (λ r, sql_eq (row_source r) (Some source)) rows) in
  to_remove ← scan_duplicates ∅ events;
  mret (List.fold_left sql_delete to_remove rows, Z.of_nat (length to_remove)).

(** The loop over the sources; [conn.commit()] ends every iteration, so an
    exception undoes the current iteration only. *)
Fixpoint cleanup_loop (committed : list row) (total_removed : Z)
    (sources : list (option string)) : list row * result Z :=
  match sources with
  | [] => (committed, Return total_removed)
  | source :: rest =>
      match cleanup_source committed source with
      | Return (rows, removed) => cleanup_loop rows (total_removed + removed) rest
      | Raise e => (committed, Raise e)
      end
  end.

(** [cleanup_duplicates.main]: the store it leaves and the total it prints. *)
Definition cleanup_duplicates_main (db : database) : database * result Z :=
  let sources := Some <$> distinct_sources (appointments db) in
  let sources := match sources with
                 | [] => []
                 | _ => (sources ++ [None])%list
                 end in
  let '(rows, total) := cleanup_loop (appointments db) 0 sources in
  (mk_database rows (ignored_base_ids db) (ignored_event_ids db), total).

(** The key of a row when [event_key] returns one. *)
Definition key_of (r : row) : option dedup_key :=
  match event_key r with
  | Return k => k
  | Raise _ => None
  end.

(** The keys of the stored rows of one source, in the order of the store. *)
Definition source_keys (rows : list row) (source : string) : list dedup_key :=
  omap key_of (List.filter (λ r, sql_eq (row_source r) (Some source)) rows).

End Cleanup.

(** ** The command line tools *)

(** What a tool prints: a line of text, or the JSON text of a list ([json.dumps]
    is not modelled, the list stands for its text). *)
Inductive printed : Type :=
| Text (line : string)
| JsonBaseIds (entries : list ignored_base_entry)
| JsonEventIds (entries : list ignored_event_entry).

(** [manage_ignored_base_ids.main]: the store after the run, what is
    printed, and the exit status ([sys.exit(1)] is 1, returning is 0).
    [argv] is [sys.argv]; [now] is the clock of [add_ignored_base_id]. *)
Definition manage_ignored_base_ids_main (db : database) (argv : list string) (now : string)
    : database * printed * Z :=
  match argv !! 1%nat with
  | None =>
      (db, Text "Usage: python3 manage_ignored_base_ids.py [list|add|remove] [args...]", 1)
  | Some command =>
      if String.eqb command "list" then
        (db, JsonBaseIds (get_ignored_base_ids_list db), 0)
      else if String.eqb command "add" then
        match argv !! 2%nat with
        | None =>
            (db, Text "Usage: python3 manage_ignored_base_ids.py add <base_id> [subject] [reason]", 1)
        | Some base_id =>
            let subject := default "" (argv !! 3%nat) in
            let reason := default "User ignored" (argv !! 4%nat) in
            (add_ignored_base_id db base_id subject reason now,
             Text ("Added " +:+ base_id +:+ " to ignored list"), 0)
        end
      else if String.eqb command "remove" then
        match argv !! 2%nat with
        | None =>
            (db, Text "Usage: python3 manage_ignored_base_ids.py remove <base_id>", 1)
        | Some base_id =>
            (remove_ignored_base_id db base_id,
             Text ("Removed " +:+ base_id +:+ " from ignored list"), 0)
        end
      else (db, Text ("Unknown command: " +:+ command), 1)
  end.

(** [manage_ignored_event_ids.main]. *)
Definition manage_ignored_event_ids_main (db : database) (argv : list string) (now : string)
    : database * printed * Z :=
  match argv !! 1%nat with
  | None =>
      (db, Text "Usage: python3 manage_ignored_event_ids.py [list|add|remove] [args...]", 1)
  | Some command =>
      if String.eqb command "list" then
        (db, JsonEventIds (get_ignored_event_ids_list db), 0)
      else if String.eqb command "add" then
        match argv !! 2%nat with
        | None =>
            (db, Text "Usage: python3 manage_ignored_event_ids.py add <event_id> [subject] [start_time] [reason]", 1)
        | Some event_id =>
            let subject := default "" (argv !! 3%nat) in
            let start_time := default "" (argv !! 4%nat) in
            let reason := default "User ignored" (argv !! 5%nat) in
            (add_ignored_event_id db event_id subject start_time reason now,
             Text ("Added " +:+ event_id +:+ " to ignored list"), 0)
        end
      else if String.eqb command "remove" then
        match argv !! 2%nat with
        | None =>
            (db, Text "Usage: python3 manage_ignored_event_ids.py remove <event_id>", 1)
        | Some event_id =>
            (remove_ignored_event_id db event_id,
             Text ("Removed " +:+ event_id +:+ " from ignored list"), 0)
        end
      else (db, Text ("Unknown command: " +:+ command), 1)
  end.

(** What [query_db_api.main] does: the events it prints on standard output
    (exit status 0), or the error it prints on standard error (exit status
    1). *)
Inductive api_error : Type :=
| DaysOutOfRange        (* 'days_ahead must be between 0 and 365' *)
| DatabaseNotFound      (* 'Database not found: ...' *)
| InvalidDays           (* 'Invalid days_ahead parameter: ...' *)
| QueryFailed (e : exn) (* 'Database query failed: ...' *).

Inductive api_outcome : Type :=
| Events (events : list appointment)
| Error (e : api_error).

Section Api.

(** [int(text)]; [None] is its ValueError. *)
Variable py_int : string -> option Z.

(** [query_db_api.main].  [db] is [None] when the file at DB_PATH does not
    exist; [now] is the clock of [query_events]. *)
Definition query_db_api_main (db : option database) (argv : list string) (now : datetime)
    : api_outcome :=
  match (match argv !! 1%nat with
         | Some text => py_int text
         | None => Some 30
         end) with
  | None => Error InvalidDays
  | Some days_ahead =>
      if (days_ahead <? 0) || (365 <? days_ahead) then Error DaysOutOfRange
      else match db with
           | None => Error DatabaseNotFound
           | Some db =>
               match query_events db now 0 days_ahead VNone with
               | Return events => Events events
               | Raise e => Error (QueryFailed e)
               end
           end
  end.

End Api.

(** ** Stores and events of the examples *)

Module Sample.

Definition empty_db : database := mk_database [] ∅ ∅.

(** Two write timestamps, as [datetime.now(timezone.utc).isoformat()] prints them. *)
Definition t0 : string := "2025-01-01T08:00:00.000001+00:00".
Definition t1 : string := "2025-06-01T12:00:00.123456+00:00".

(** The same meeting as two calendars report it, under different ids. *)
Definition ev_cal1 : gmap string value :=
  <["id" := VStr "a1"]> (<["subject" := VStr "Standup"]>
  (<["start_time" := VStr "2025-01-01T10:00:00Z"]>
  (<["organizer_email" := VStr "boss@example.com"]>
  (<["source" := VStr "cal1"]> ∅)))).

Definition ev_cal2 : gmap string value :=
  <["id" := VStr "b1"]> (<["subject" := VStr "Standup"]>
  (<["start_time" := VStr "2025-01-01T10:00:30Z"]>
  (<["organizer_email" := VStr "boss@example.com"]>
  (<["source" := VStr "cal2"]> ∅)))).

(** Rules of the two sync runs: equal priorities, [skip_same_source] false. *)
Definition precedence_tie : gmap string Z := <["cal1" := 1]> (<["cal2" := 1]> ∅).
Definition rules_cal1 : dedup_rules := mk_rules false precedence_tie "cal1".
Definition rules_cal2 : dedup_rules := mk_rules false precedence_tie "cal2".

(** The columns the two events bind. *)
Definition bound_cal1 : columns :=
  mk_columns (Some "Standup") (Some "2025-01-01T10:00:00Z") (Some "") (Some "")
    (Some "boss@example.com") (Some "") (Some "[]") (Some "") (SqlInt 0) (Some "cal1").
Definition bound_cal2 : columns :=
  mk_columns (Some "Standup") (Some "2025-01-01T10:00:30Z") (Some "") (Some "")
    (Some "boss@example.com") (Some "") (Some "[]") (Some "") (SqlInt 0) (Some "cal2").

(** Rules that rank cal2 above cal1, for a batch written as cal2. *)
Definition rules_cal2_wins : dedup_rules :=
  mk_rules false (<["cal1" := 1]> (<["cal2" := 2]> ∅)) "cal2".

(** A store holding the cal1 meeting. *)
Definition row_cal1 : row :=
  mk_row "a1" (Some "Standup") (Some "2025-01-01T10:00:00Z") (Some "") (Some "")
    (Some "boss@example.com") (Some "") (Some "[]") (Some "") (SqlInt 0) (Some "cal1")
    (Some t0) (Some t0).
Definition db_cal1 : database := mk_database [row_cal1] ∅ ∅.

(** The meeting again, under another id and with a room, carrying the source
    of the stored row. *)
Definition ev_again : gmap string value :=
  <["id" := VStr "a2"]> (<["subject" := VStr "Standup"]>
  (<["start_time" := VStr "2025-01-01T10:00:30Z"]>
  (<["organizer_email" := VStr "boss@example.com"]>
  (<["location" := VStr "Room 2"]>
  (<["source" := VStr "cal1"]> ∅))))).

(** The columns [ev_again] binds. *)
Definition bound_again : columns :=
  mk_columns (Some "Standup") (Some "2025-01-01T10:00:30Z") (Some "") (Some "Room 2")
    (Some "boss@example.com") (Some "") (Some "[]") (Some "") (SqlInt 0) (Some "cal1").

(** The stored meeting, reported again under its own id. *)
Definition ev_same_id : gmap string value :=
  <["id" := VStr "a1"]> (<["subject" := VStr "Standup (moved)"]>
  (<["start_time" := VStr "2025-01-01T11:00:00Z"]>
  (<["source" := VStr "cal1"]> ∅))).

(** A row without a source name, and the same meeting without a source key. *)
Definition row_legacy : row :=
  mk_row "legacy1" (Some "Standup") (Some "2025-01-01T10:00:00Z") (Some "") (Some "")
    (Some "boss@example.com") (Some "") (Some "[]") (Some "") (SqlInt 0) (Some "")
    (Some t0) (Some t0).
Definition db_legacy : database := mk_database [row_legacy] ∅ ∅.

Definition ev_no_source : gmap string value :=
  <["id" := VStr "a1"]> (<["subject" := VStr "Standup"]>
  (<["start_time" := VStr "2025-01-01T10:00:00Z"]>
  (<["organizer_email" := VStr "boss@example.com"]> ∅))).

(** An event whose attendees are a Python list, not its JSON text. *)
Definition ev_unbindable : gmap string value :=
  <["id" := VStr "x1"]> (<["subject" := VStr "Offsite"]>
  (<["start_time" := VStr "2025-02-01T09:00:00Z"]>
  (<["attendees" := VObj true]> ∅))).

(** A meeting stored with a Pacific offset, and the same meeting reported
    again under another id with the very same start time string. *)
Definition row_pst : row :=
  mk_row "p1" (Some "Standup") (Some "2025-01-01T02:00:00-08:00") (Some "") (Some "")
    (Some "boss@example.com") (Some "") (Some "[]") (Some "") (SqlInt 0) (Some "cal1")
    (Some t0) (Some t0).
Definition db_pst : database := mk_database [row_pst] ∅ ∅.

Definition ev_pst : gmap string value :=
  <["id" := VStr "p2"]> (<["subject" := VStr "Standup"]>
  (<["start_time" := VStr "2025-01-01T02:00:00-08:00"]>
  (<["organizer_email" := VStr "boss@example.com"]>
  (<["source" := VStr "cal1"]> ∅)))).

(** An event whose subject and is_all_day are present and [None]. *)
Definition ev_null : gmap string value :=
  <["id" := VStr "n1"]> (<["subject" := VNone]>
  (<["start_time" := VStr "2025-01-02T09:00:00Z"]>
  (<["is_all_day" := VNone]> ∅))).

(** One occurrence of a recurring series. *)
Definition row_occurrence : row :=
  mk_row "series1_20251201T150000" (Some "Review") (Some "2025-12-01T15:00:00Z")
    (Some "2025-12-01T16:00:00Z") (Some "") (Some "") (Some "") (Some "[]") (Some "")
    (SqlInt 0) (Some "cal1") (Some t0) (Some t0).
Definition db_series : database := mk_database [row_occurrence] ∅ ∅.

(** The clock of the queries: [datetime.now(timezone.utc)]. *)
Definition new_year : datetime := mk_datetime 2025 1 1 7 30 0 0 (Some 0).
Definition late_november : datetime := mk_datetime 2025 11 30 7 30 0 0 (Some 0).

End Sample.

(** A store for the clean-up: the cal1 meeting twice, once with a Pacific
    offset, and a row without a source. *)
Definition row_unsourced : row :=
  mk_row "u1" (Some "Retro") (Some "2025-01-02T10:00:00Z") (Some "") (Some "")
    (Some "") (Some "") (Some "[]") (Some "") (SqlInt 0) None
    (Some Sample.t0) (Some Sample.t0).
Definition db_duplicates : database :=
  mk_database [Sample.row_cal1; Sample.row_pst; row_unsourced] ∅ ∅.

(** A row whose start time is in year 1 east of Greenwich: its UTC value
    is before the first day that a datetime can hold. *)
Definition row_year_one : row :=
  mk_row "y1" (Some "Epoch") (Some "0001-01-01T00:00:00+01:00") (Some "") (Some "")
    (Some "") (Some "") (Some "[]") (Some "") (SqlInt 0) (Some "cal1")
    (Some Sample.t0) (Some Sample.t0).

(** Two o'clock at night at UTC-8, and the same instant in UTC. *)
Definition two_am_pacific : datetime := mk_datetime 2025 1 1 2 0 0 0 (Some (-28800000000)).
Definition ten_am_utc : datetime := mk_datetime 2025 1 1 10 0 0 0 (Some 0).

(** Rules of a batch written as cal1 when cal2 ranks above it. *)
Definition rules_cal1_loses : dedup_rules :=
  mk_rules false (<["cal1" := 1]> (<["cal2" := 2]> ∅)) "cal1".

(** [int] on the decimal texts of the examples. *)
Definition decimal_int (text : string) : option Z :=
  if String.eqb text "" then None else number_from 0 text.

(** An id whose last part has the shape of an occurrence timestamp but
    starts with the superscript two, U+00B2, in place of the digit 2. *)
Definition superscript_two : string := String (ascii_of_nat 178) "".
Definition id_superscript : string := "x_" +:+ superscript_two +:+ "0251201T150000".

(** ** The specification's words, for comparison with the code *)

(** The digits of [YYYYMMDD] and [HHMMSS]: the characters 0 to 9. *)
Definition decimal_digit (c : ascii) : bool := (48 <=? Str.code c) && (Str.code c <=? 57).

Fixpoint decimal_digits (s : string) : bool :=
  match s with
  | EmptyString => true
  | String a s' => decimal_digit a && decimal_digits s'
  end.

Definition is_digits (s : string) : Prop := decimal_digits s = true.

(** [_YYYYMMDDTHHMMSS] without its underscore: exactly 15 characters, 8
    digits, the letter T, 6 digits. *)
Definition occurrence_suffix (suffix : string) : Prop :=
  ∃ d t : string,
    suffix = d +:+ "T" +:+ t
    ∧ String.length d = 8%nat ∧ String.length t = 6%nat
    ∧ is_digits d ∧ is_digits t.

(** A row carries the field values of an event: every column that UPDATE
    and INSERT set holds what the event's value under the key of that
    column, or the default of the parameter tuple, is bound to. *)
Definition carries (event_data : gmap string value) (r : row) : Prop :=
  bind_text (get event_data "subject" (VStr "")) = Return (row_subject r)
  ∧ bind_text (get event_data "start_time" (VStr "")) = Return (row_start_time r)
  ∧ bind_text (get event_data "end_time" (VStr "")) = Return (row_end_time r)
  ∧ bind_text (get event_data "location" (VStr "")) = Return (row_location r)
  ∧ bind_text (get event_data "organizer_email" (VStr "")) = Return (row_organizer_email r)
  ∧ bind_text (get event_data "organizer_name" (VStr "")) = Return (row_organizer_name r)
  ∧ bind_text (get event_data "attendees" (VStr "[]")) = Return (row_attendees r)
  ∧ bind_text (get event_data "body_preview" (VStr "")) = Return (row_body_preview r)
  ∧ bind_flag (get event_data "is_all_day" (VInt 0)) = Return (row_is_all_day r)
  ∧ bind_text (get event_data "source" (VStr "")) = Return (row_source r).

(** * Properties *)

(** ** Strings *)

Module StrFacts.
Import Str.

Lemma app_cons a (s t : string) : String a s +:+ t = String a (s +:+ t).
Proof. reflexivity. Qed.

Lemma app_nil_l (t : string) : "" +:+ t = t.
Proof. reflexivity. Qed.

Ltac string_ind s :=
  induction s as [|? s ?]; rewrite ?app_nil_l, ?app_cons; simpl; [try done|].

Lemma app_assoc' (a b c : string) : (a +:+ b) +:+ c = a +:+ (b +:+ c).
Proof. string_ind a. rewrite ?app_cons. by f_equal. Qed.

Lemma app_nil_r' (a : string) : a +:+ "" = a.
Proof. string_ind a. by f_equal. Qed.

Lemma split_not_nil sep s : split sep s ≠ [].
Proof.
  destruct s as [|a s]; simpl; [done|].
  destruct (Ascii.eqb a sep); [done|]. by destruct (split sep s).
Qed.

Lemma contains_app c s t : contains c (s +:+ t) = contains c s || contains c t.
Proof. string_ind s. by rewrite IHs, orb_assoc. Qed.

Lemma split_no_sep sep s : contains sep s = false → split sep s = [s].
Proof.
  string_ind s. intros [Ha Hs]%orb_false_iff. by rewrite Ha, (IHs Hs).
Qed.

Lemma split_app_sep sep base suffix :
  contains sep suffix = false →
  split sep (base +:+ String sep suffix) = (split sep base ++ [suffix])%list.
Proof.
  intros Hs. string_ind base.
  - rewrite Ascii.eqb_refl. by rewrite (split_no_sep _ _ Hs).
  - destruct (Ascii.eqb _ sep); rewrite IHbase; [done|].
    pose proof (split_not_nil sep base). by destruct (split sep base).
Qed.

Lemma join_cons sep p ps :
  ps ≠ [] → join sep (p :: ps) = p +:+ sep +:+ join sep ps.
Proof. by destruct ps. Qed.

Lemma join_snoc sep ps p :
  ps ≠ [] → join sep (ps ++ [p])%list = join sep ps +:+ sep +:+ p.
Proof.
  induction ps as [|q ps IH]; [done|]. intros _.
  destruct ps as [|q' ps]; [done|].
  change ((q :: q' :: ps) ++ [p])%list with (q :: ((q' :: ps) ++ [p]))%list.
  rewrite join_cons by done. rewrite IH by done.
  rewrite (join_cons sep q (q' :: ps)) by done.
  by rewrite !app_assoc'.
Qed.

Lemma join_split sep s : join (String sep "") (split sep s) = s.
Proof.
  string_ind s.
  pose proof (split_not_nil sep s) as Hne.
  destruct (Ascii.eqb_spec a sep) as [->|Hne'].
  - rewrite join_cons by done. by rewrite IHs.
  - destruct (split sep s) as [|p ps]; [done|].
    destruct ps as [|p' ps]; simpl in *; rewrite ?app_cons; by rewrite <- IHs.
Qed.

Lemma take_drop n s : take n s +:+ drop n s = s.
Proof.
  revert s. induction n as [|n IH]; intros [|a s]; simpl; try done.
  by rewrite app_cons, IH.
Qed.

Lemma length_app s t : String.length (s +:+ t) = (String.length s + String.length t)%nat.
Proof. string_ind s. by rewrite IHs. Qed.

Lemma take_app s t : take (String.length s) (s +:+ t) = s.
Proof. string_ind s. by rewrite IHs. Qed.

Lemma drop_app s t : drop (String.length s) (s +:+ t) = t.
Proof. string_ind s. by destruct t. Qed.

Lemma get_app s t : String.get (String.length s) (s +:+ t) = String.get 0 t.
Proof. string_ind s. exact IHs. Qed.

Lemma take_app_eq n s t : String.length s = n → take n (s +:+ t) = s.
Proof. intros <-. apply take_app. Qed.

Lemma get_app_eq n s c t : String.length s = n → String.get n (s +:+ String c t) = Some c.
Proof. intros <-. by rewrite get_app. Qed.

Lemma drop_S_app_eq n s c t :
  String.length s = n → drop (S n) (s +:+ String c t) = t.
Proof. intros <-. string_ind s. by destruct t. Qed.

Lemma length_take n s : (n ≤ String.length s)%nat → String.length (take n s) = n.
Proof.
  revert s. induction n as [|n IH]; intros [|a s]; simpl; try done; try lia.
  intros H. rewrite IH; lia.
Qed.

Lemma length_drop n s : String.length (drop n s) = (String.length s - n)%nat.
Proof. revert s. induction n as [|n IH]; intros [|a s]; simpl; try done. Qed.

Lemma drop_get n s c :
  String.get n s = Some c → drop n s = String c (drop (S n) s).
Proof.
  revert s. induction n as [|n IH]; intros [|a s]; simpl; try done.
  - by intros [= ->].
  - intros H. by rewrite (IH _ H).
Qed.

Lemma all_digits_no_underscore s : all_digits s = true → contains "_" s = false.
Proof.
  string_ind s.
  intros [Ha Hs]%andb_true_iff. rewrite (IHs Hs), orb_false_r.
  destruct (Ascii.eqb_spec a "_") as [->|]; [|done].
  by vm_compute in Ha.
Qed.

Lemma isdigit_all_digits s : s ≠ "" → isdigit s = all_digits s.
Proof. by destruct s. Qed.

End StrFacts.

(** ** Base-id extraction *)

Section BaseId.
Import Str StrFacts.

Lemma decimal_digits_all_digits s : decimal_digits s = true → all_digits s = true.
Proof.
  string_ind s. intros [Ha Hs]%andb_true_iff. rewrite (IHs Hs), andb_true_r.
  unfold isdigit_char. unfold decimal_digit in Ha. by rewrite Ha.
Qed.

(** An occurrence suffix passes the test of the code and holds no
    underscore. *)
Lemma occurrence_suffix_test suffix :
  occurrence_suffix suffix → is_timestamp suffix = true ∧ contains "_" suffix = false.
Proof.
  intros (d & t & -> & Hd & Ht & Dd%decimal_digits_all_digits & Dt%decimal_digits_all_digits).
  change ("T" +:+ t) with (String "T" t).
  split.
  - unfold is_timestamp.
    rewrite (get_app_eq _ _ _ _ Hd), (take_app_eq _ _ _ Hd), (drop_S_app_eq _ _ _ _ Hd).
    rewrite length_app, Hd. simpl String.length. rewrite Ht. simpl.
    rewrite !isdigit_all_digits; [by rewrite Dd, Dt| |]; intros ->; done.
  - rewrite contains_app. simpl.
    by rewrite (all_digits_no_underscore _ Dd), (all_digits_no_underscore _ Dt).
Qed.

(** The first eight characters of an occurrence suffix are decimal digits. *)
Lemma occurrence_suffix_date suffix :
  occurrence_suffix suffix → decimal_digits (take 8 suffix) = true.
Proof. intros (d & t & -> & Hd & _ & Dd & _). by rewrite (take_app_eq _ _ _ Hd). Qed.

(** What the test of the code accepts: 8 characters, T and 6 characters, the
    characters being those [str.isdigit] accepts. *)
Lemma is_timestamp_shape s :
  is_timestamp s = true →
  ∃ d t : string,
    s = d +:+ "T" +:+ t ∧ String.length d = 8%nat ∧ String.length t = 6%nat
    ∧ all_digits d = true ∧ all_digits t = true.
Proof.
  unfold is_timestamp. intros H. repeat (apply andb_true_iff in H as [H ?]).
  apply Nat.eqb_eq in H. apply bool_decide_eq_true in H2.
  exists (take 8 s), (drop 9 s). repeat split.
  - rewrite <- (take_drop 8 s) at 1. f_equal. by rewrite (drop_get _ _ _ H2).
  - apply length_take. lia.
  - rewrite length_drop. lia.
  - destruct (take 8 s); done.
  - destruct (drop 9 s); done.
Qed.

Lemma split_decompose s :
  (2 ≤ length (split "_" s))%nat →
  s = join "_" (removelast (split "_" s)) +:+ "_" +:+ List.last (split "_" s) "".
Proof.
  intros Hlen. pose proof (join_split "_" s) as Hj.
  pose proof (split_not_nil "_" s) as Hne.
  rewrite (app_removelast_last "" Hne) in Hj at 1.
  rewrite join_snoc in Hj; [done|].
  intros E. rewrite (app_removelast_last "" Hne), E in Hlen. simpl in Hlen. lia.
Qed.

(** The part of the claim that holds of every id: an id that ends in an
    underscore and an occurrence suffix (8 decimal digits, T, 6 decimal
    digits) gives the part before that underscore. *)
Lemma occurrence_suffix_is_stripped event_id base suffix :
  event_id = base +:+ "_" +:+ suffix → occurrence_suffix suffix →
  get_base_id_from_event_id event_id = base.
Proof.
  intros -> Hs.
  destruct (occurrence_suffix_test _ Hs) as [Htest Hno].
  unfold get_base_id_from_event_id.
  rewrite contains_app. change (contains "_" ("_" +:+ suffix)) with true.
  rewrite orb_true_r.
  change ("_" +:+ suffix) with (String "_" suffix).
  rewrite (split_app_sep _ _ _ Hno).
  pose proof (split_not_nil "_" base) as Hne.
  assert ((2 <=? length (split "_" base ++ [suffix]))%nat = true) as ->.
  { apply Nat.leb_le. rewrite List.length_app. destruct (split "_" base); simpl; [done|lia]. }
  cbv zeta. rewrite last_last, Htest, removelast_last.
  apply join_split.
Qed.

(** What the code does with every id: it returns the id, or the id ends in
    an underscore and a part that passes its test, and it returns what is
    before that underscore. *)
Lemma get_base_id_cases event_id :
  get_base_id_from_event_id event_id = event_id
  ∨ ∃ base suffix : string,
      event_id = base +:+ "_" +:+ suffix ∧ is_timestamp suffix = true
      ∧ get_base_id_from_event_id event_id = base.
Proof.
  unfold get_base_id_from_event_id.
  destruct (contains "_" event_id); [|by left].
  destruct (2 <=? length (split "_" event_id))%nat eqn:Hlen; [|by left].
  cbv zeta.
  destruct (is_timestamp (List.last (split "_" event_id) "")) eqn:Htest; [|by left].
  right. apply Nat.leb_le in Hlen.
  eexists _, _. split; [apply (split_decompose _ Hlen)|]. done.
Qed.

(** The three ids of the specification. *)
Example get_base_id_examples :
  get_base_id_from_event_id "series1_20251201T150000" = "series1"
  ∧ get_base_id_from_event_id "plainevent" = "plainevent"
  ∧ get_base_id_from_event_id "abc_def" = "abc_def".
Proof. by vm_compute. Qed.

(** C7 fails on the code.  The id x_²0251201T150000 (its last part starts
    with the superscript two, U+00B2) does not end in an occurrence suffix:
    in no way of writing it as a part, an underscore and a rest is the rest
    8 digits, T and 6 digits.  The claim gives the full id for it; the code,
    whose test is [str.isdigit], returns x. *)
Theorem get_base_id_strips_superscript_suffix :
  (∀ base suffix : string,
      id_superscript = base +:+ "_" +:+ suffix → ¬ occurrence_suffix suffix)
  ∧ get_base_id_from_event_id id_superscript = "x"
  ∧ get_base_id_from_event_id id_superscript ≠ id_superscript.
Proof.
  split; [|split; [reflexivity|by vm_compute]].
  intros base suffix E Hs.
  destruct (occurrence_suffix_test _ Hs) as [_ Hno].
  assert (Hsplit : split "_" id_superscript = (split "_" base ++ [suffix])%list).
  { rewrite E. change ("_" +:+ suffix) with (String "_" suffix).
    by apply split_app_sep. }
  apply (f_equal (fun l => List.last l "")) in Hsplit.
  rewrite last_last in Hsplit.
  apply occurrence_suffix_date in Hs. rewrite <- Hsplit in Hs.
  by vm_compute in Hs.
Qed.

End BaseId.

(** ** The duplicate finder *)

Lemma bind_Return {A B} (m : result A) (f : A → result B) b :
  (m ≫= f) = Return b → ∃ a, m = Return a ∧ f a = Return b.
Proof. destruct m as [a|e]; [by exists a|done]. Qed.

Lemma bind_Return_l {A B} (a : A) (f : A → result B) : (Return a ≫= f) = f a.
Proof. reflexivity. Qed.

Lemma sql_eq_true col param : sql_eq col param = true → col = param ∧ ∃ s, col = Some s.
Proof.
  destruct col as [a|], param as [b|]; simpl; try done.
  intros ->%String.eqb_eq. split; [done|by exists b].
Qed.

Lemma NoDup_map_inj_In {A B} (f : A → B) l x y :
  NoDup (List.map f l) → In x l → In y l → f x = f y → x = y.
Proof.
  induction l as [|z l IH]; simpl; [done|].
  intros [Hz Hnd]%NoDup_cons [->|Hx] [->|Hy] Hxy; try done.
  - destruct Hz. rewrite list_elem_of_In, Hxy. by apply in_map.
  - destruct Hz. rewrite list_elem_of_In, <- Hxy. by apply in_map.
  - by apply IH.
Qed.

Lemma In_insert_by_start_time x r sorted :
  In x (insert_by_start_time r sorted) ↔ x = r ∨ In x sorted.
Proof.
  induction sorted as [|y sorted IH]; simpl; [intuition congruence|].
  destruct (Str.leb _ _); simpl; [intuition congruence|]. rewrite IH.
  intuition congruence.
Qed.

Lemma In_order_by_start_time x rows :
  In x (order_by_start_time rows) ↔ In x rows.
Proof.
  unfold order_by_start_time. induction rows as [|r rows IH]; simpl; [done|].
  rewrite In_insert_by_start_time, IH. intuition congruence.
Qed.

Section Finder.
Variable fromisoformat : string -> option datetime.

Lemma id_equals_false rid v : id_equals rid v = false → VStr rid ≠ v.
Proof.
  intros H E. subst v. simpl in H. by rewrite String.eqb_refl in H.
Qed.

(** What a row found by the loop satisfies. *)
Lemma scan_rows_Some start_utc organizer_email exclude_id rows d :
  scan_rows fromisoformat start_utc organizer_email exclude_id rows = Return (Some d) →
  ∃ r row_start_dt row_start_utc,
    In r rows ∧ row_id r = d
    ∧ id_equals (row_id r) exclude_id = false
    ∧ parse_iso_datetime fromisoformat (of_text (row_start_time r)) = Some row_start_dt
    ∧ normalize_to_utc row_start_dt = Return row_start_utc
    ∧ Z.abs (datetime_sub start_utc row_start_utc) < 60 * US_PER_SECOND
    ∧ organizer_matches organizer_email (row_organizer_email r) = true.
Proof.
  induction rows as [|r rest IH]; simpl; [done|].
  destruct (id_equals (row_id r) exclude_id) eqn:Hex.
  { intros H. destruct (IH H) as (r' & a & b & ? & ?). exists r', a, b. tauto. }
  destruct (parse_iso_datetime _ _) as [row_start_dt|] eqn:Hp; cycle 1.
  { intros H. destruct (IH H) as (r' & a & b & ? & ?). exists r', a, b. tauto. }
  intros (row_start_utc & Hn & H)%bind_Return.
  destruct (_ <? _) eqn:Hlt; simpl in H.
  - destruct (organizer_matches _ _) eqn:Hom.
    + injection H as <-. exists r, row_start_dt, row_start_utc.
      apply Z.ltb_lt in Hlt. tauto.
    + destruct (IH H) as (r' & a & b & ? & ?). exists r', a, b. tauto.
  - destruct (IH H) as (r' & a & b & ? & ?). exists r', a, b. tauto.
Qed.

(** What a row returned by [find_duplicate] satisfies: it is stored, its
    subject and source are the ones searched for, and it is not the
    excluded id. *)
Lemma find_duplicate_Some rows subject start_time organizer_email source exclude_id d :
  find_duplicate fromisoformat rows subject start_time organizer_email source exclude_id
    = Some d →
  ∃ r p_subject p_source,
    In r rows ∧ row_id r = d
    ∧ VStr (row_id r) ≠ exclude_id
    ∧ bind_text subject = Return p_subject ∧ sql_eq (row_subject r) p_subject = true
    ∧ bind_text source = Return p_source ∧ sql_eq (row_source r) p_source = true
    ∧ organizer_matches organizer_email (row_organizer_email r) = true.
Proof.
  unfold find_duplicate.
  destruct (find_duplicate_try _ _ _ _ _ _ _) as [res|e] eqn:Htry; [|done].
  intros ->. unfold find_duplicate_try in Htry.
  destruct (parse_iso_datetime _ start_time) as [start_dt|]; [|done].
  apply bind_Return in Htry as (start_utc & _ & Htry).
  apply bind_Return in Htry as (lo & _ & Htry).
  apply bind_Return in Htry as (hi & _ & Htry).
  apply bind_Return in Htry as (p_subject & Hsub & Htry).
  apply bind_Return in Htry as (p_source & Hsrc & Htry).
  apply bind_Return in Htry as (excl & _ & Htry).
  apply scan_rows_Some in Htry as (r & a & b & Hin & Hid & Hex & _ & _ & _ & Hom).
  apply In_order_by_start_time, filter_In in Hin as [Hin Hw].
  unfold in_window in Hw. repeat (apply andb_true_iff in Hw as [Hw ?]).
  exists r, p_subject, p_source.
  repeat split; try done. by apply id_equals_false.
Qed.

(** C10.  For every stored table and every combination of arguments,
    [find_duplicate] returns: an exception raised inside its [try] block
    never reaches the caller (the result is then none), and the result is
    either none or the id of a stored row that differs from [exclude_id]. *)
Theorem find_duplicate_total rows subject start_time organizer_email source exclude_id :
  (∀ e, find_duplicate_try fromisoformat rows subject start_time organizer_email
          source exclude_id = Raise e →
        find_duplicate fromisoformat rows subject start_time organizer_email
          source exclude_id = None)
  ∧ (find_duplicate fromisoformat rows subject start_time organizer_email
       source exclude_id = None
     ∨ ∃ r, In r rows
            ∧ find_duplicate fromisoformat rows subject start_time organizer_email
                source exclude_id = Some (row_id r)
            ∧ VStr (row_id r) ≠ exclude_id).
Proof.
  split.
  - intros e He. unfold find_duplicate. by rewrite He.
  - destruct (find_duplicate _ _ _ _ _ _ _) as [d|] eqn:Hd; [right|by left].
    apply find_duplicate_Some in Hd as (r & _ & _ & Hin & <- & Hne & _).
    by exists r.
Qed.

(** The finder never returns a row of another source. *)
Lemma find_duplicate_other_source rows subject start_time organizer_email source exclude_id p :
  bind_text source = Return p →
  (∀ r, In r rows → sql_eq (row_source r) p = false) →
  find_duplicate fromisoformat rows subject start_time organizer_email source exclude_id = None.
Proof.
  intros Hp Hall.
  destruct (find_duplicate _ _ _ _ _ _ _) as [d|] eqn:Hd; [|done].
  apply find_duplicate_Some in Hd as (r & ps & p' & Hin & _ & _ & _ & _ & Hp' & Hs & _).
  rewrite Hp in Hp'. injection Hp' as <-. by rewrite (Hall r Hin) in Hs.
Qed.

End Finder.

(** ** The merge-write engine *)

Section Writer.
Variable fromisoformat : string -> option datetime.

(** A truthy id never binds to NULL: the [None] branch on the bound key in
    [process_event] is not reached. *)
Lemma truthy_binds_to_text v key :
  truthy v = true → bind_text v = Return key → ∃ k, key = Some k.
Proof. destruct v; simpl; try done; intros _ [= <-]; by eexists. Qed.

(** The three outcomes of one iteration that does not raise: the state is
    left as it is, one UPDATE, or one INSERT of a new id. *)
Lemma process_event_cases committed rules now rows s u event_data st' :
  process_event fromisoformat committed rules now (rows, s, u) event_data = Return st' →
  st' = (rows, s, u)
  ∨ (∃ key c, bind_columns event_data = Return c
              ∧ st' = (sql_update rows c now (Some key), s, u + 1))
  ∨ (∃ k c, bind_columns event_data = Return c
            ∧ bind_text (get event_data "id" VNone) = Return (Some k)
            ∧ select_by_id rows (Some k) = None
            ∧ st' = ((rows ++ [inserted_row k c now])%list, s + 1, u)).
Proof.
  unfold process_event.
  case_bool_decide as Hempty; [intros [= <-]; by left|].
  destruct (truthy (get event_data "id" VNone)) eqn:Hid; simpl; [|intros [= <-]; by left].
  intros (key & Hkey & Hst)%bind_Return.
  destruct key as [k|]; [|injection Hst as <-; by left].
  destruct (select_by_id rows (Some k)) as [existing|] eqn:Hsel.
  - match type of Hst with (if ?b then _ else _) = _ => destruct b end.
    + injection Hst as <-; by left.
    + apply bind_Return in Hst as (c & Hc & [= <-]). right; left. by exists k, c.
  - cbv zeta in Hst.
    destruct (find_duplicate _ _ _ _ _ _ _) as [d|]; simpl in Hst.
    + repeat match type of Hst with
             | (if ?b then _ else _) = _ => destruct b
             end;
        try (injection Hst as <-; by left);
        try (apply bind_Return in Hst as (c & Hc & [= <-]);
             first [ right; left; by exists d, c | right; right; by exists k, c ]).
    + apply bind_Return in Hst as (c & Hc & [= <-]). right; right. by exists k, c.
Qed.

Lemma truthy_id_nonempty (event_data : gmap string value) :
  truthy (get event_data "id" VNone) = true → event_data ≠ ∅.
Proof. intros H ->. unfold get in H. by rewrite lookup_empty in H. Qed.

Lemma select_by_id_Some rows k r :
  select_by_id rows (Some k) = Some r → In r rows ∧ row_id r = k.
Proof.
  unfold select_by_id. intros H. apply find_some in H as [Hin He].
  split; [done|]. by apply String.eqb_eq in He.
Qed.

Lemma select_by_id_None rows k :
  select_by_id rows (Some k) = None → ∀ r, In r rows → row_id r ≠ k.
Proof.
  unfold select_by_id. intros H r Hin E.
  pose proof (find_none _ _ H r Hin) as Hf. simpl in Hf.
  by rewrite E, String.eqb_refl in Hf.
Qed.

Lemma find_map_preserving {A} (p : A → bool) (f : A → A) (l : list A) :
  (∀ x, p (f x) = p x) → List.find p (List.map f l) = f <$> List.find p l.
Proof.
  intros Hp. induction l as [|x l IH]; cbn [List.find List.map]; [done|].
  rewrite Hp. by destruct (p x).
Qed.

Lemma select_by_id_update rows c now key k :
  select_by_id (sql_update rows c now key) (Some k)
  = (λ r, if sql_eq (Some (row_id r)) key then updated_row c now r else r)
      <$> select_by_id rows (Some k).
Proof.
  unfold select_by_id, sql_update. apply find_map_preserving.
  intros r. by destruct (sql_eq (Some (row_id r)) key).
Qed.

Lemma sql_update_Forall2 rows c now key :
  Forall2 (λ r r', r' = if sql_eq (Some (row_id r)) key then updated_row c now r else r)
    rows (sql_update rows c now key).
Proof. unfold sql_update. induction rows; simpl; constructor; auto. Qed.

Lemma select_by_id_app_None rows k new :
  select_by_id rows (Some k) = None →
  select_by_id (rows ++ [new]) (Some k)
  = if String.eqb (row_id new) k then Some new else None.
Proof.
  unfold select_by_id. induction rows as [|r rows IH]; simpl; [done|].
  destruct (String.eqb (row_id r) k); [done|]. apply IH.
Qed.

(** An event whose id is new and for which the finder reports nothing is inserted. *)
Lemma process_event_insert committed rules now rows s u event_data k c :
  truthy (get event_data "id" VNone) = true →
  bind_text (get event_data "id" VNone) = Return (Some k) →
  select_by_id rows (Some k) = None →
  find_duplicate fromisoformat committed
    (get event_data "subject" (VStr "")) (get event_data "start_time" (VStr ""))
    (get event_data "organizer_email" (VStr "")) (get event_data "source" (VStr ""))
    (get event_data "id" VNone) = None →
  bind_columns event_data = Return c →
  process_event fromisoformat committed rules now (rows, s, u) event_data
  = Return ((rows ++ [inserted_row k c now])%list, s + 1, u).
Proof.
  intros Hid Hk Hsel Hdup Hc. unfold process_event.
  rewrite bool_decide_eq_false_2 by by apply truthy_id_nonempty.
  rewrite Hid, Hk. simpl. rewrite Hsel, Hdup. simpl. by rewrite Hc.
Qed.

(** An event whose id is new and which the finder matches with row [d]. *)
Lemma process_event_duplicate committed rules now rows s u event_data k d :
  truthy (get event_data "id" VNone) = true →
  bind_text (get event_data "id" VNone) = Return (Some k) →
  select_by_id rows (Some k) = None →
  find_duplicate fromisoformat committed
    (get event_data "subject" (VStr "")) (get event_data "start_time" (VStr ""))
    (get event_data "organizer_email" (VStr "")) (get event_data "source" (VStr ""))
    (get event_data "id" VNone) = Some d →
  d ≠ "" →
  process_event fromisoformat committed rules now (rows, s, u) event_data
  = let dup_source := match select_by_id rows (Some d) with
                      | Some dup => row_source dup
                      | None => Some ""
                      end in
    if truthy (VStr (rules_source rules)) && truthy (of_text dup_source) then
      if precedence_get rules (rules_source rules) <? precedence_get rules (default "" dup_source)
      then Return (rows, s, u)
      else if precedence_get rules (default "" dup_source) <? precedence_get rules (rules_source rules)
      then c ← bind_columns event_data;
           Return (sql_update rows c now (Some d), s, u + 1)
      else if skip_same_source rules && bool_decide (Some (rules_source rules) = dup_source)
      then Return (rows, s, u)
      else c ← bind_columns event_data;
           Return ((rows ++ [inserted_row k c now])%list, s + 1, u)
    else Return (rows, s, u).
Proof.
  intros Hid Hk Hsel Hdup Hd. unfold process_event.
  rewrite bool_decide_eq_false_2 by by apply truthy_id_nonempty.
  rewrite Hid, Hk. simpl. rewrite Hsel, Hdup. simpl.
  destruct (String.eqb_spec d "") as [->|_]; [done|]. reflexivity.
Qed.

(** The outcomes of one iteration that does not raise, with the row an
    UPDATE is aimed at: the row stored under the event's own id, or, when
    that id is not stored, the row stored under the id that the finder
    returned. *)
Lemma process_event_outcomes committed rules now rows s u event_data st' :
  process_event fromisoformat committed rules now (rows, s, u) event_data = Return st' →
  st' = (rows, s, u)
  ∨ (∃ k key c affected,
       bind_text (get event_data "id" VNone) = Return (Some k)
       ∧ bind_columns event_data = Return c
       ∧ (key = k
          ∨ select_by_id rows (Some k) = None
            ∧ find_duplicate fromisoformat committed
                (get event_data "subject" (VStr "")) (get event_data "start_time" (VStr ""))
                (get event_data "organizer_email" (VStr ""))
                (get event_data "source" (VStr "")) (get event_data "id" VNone) = Some key)
       ∧ select_by_id rows (Some key) = Some affected
       ∧ st' = (sql_update rows c now (Some key), s, u + 1))
  ∨ (∃ k c, bind_columns event_data = Return c
            ∧ bind_text (get event_data "id" VNone) = Return (Some k)
            ∧ select_by_id rows (Some k) = None
            ∧ st' = ((rows ++ [inserted_row k c now])%list, s + 1, u)).
Proof.
  unfold process_event.
  case_bool_decide as Hempty; [intros [= <-]; by left|].
  destruct (truthy (get event_data "id" VNone)) eqn:Hid; simpl; [|intros [= <-]; by left].
  intros (key & Hkey & Hst)%bind_Return.
  destruct key as [k|]; [|injection Hst as <-; by left].
  destruct (select_by_id rows (Some k)) as [existing|] eqn:Hsel.
  - match type of Hst with (if ?b then _ else _) = _ => destruct b end.
    + injection Hst as <-; by left.
    + apply bind_Return in Hst as (c & Hc & [= <-]). right; left.
      exists k, k, c, existing. auto.
  - cbv zeta in Hst.
    destruct (find_duplicate _ _ _ _ _ _ _) as [d|] eqn:Hdup; simpl in Hst.
    + destruct (select_by_id rows (Some d)) as [dup|] eqn:Hseld.
      * repeat match type of Hst with
               | (if ?b then _ else _) = _ => destruct b
               end;
          try (injection Hst as <-; by left);
          try (apply bind_Return in Hst as (c & Hc & [= <-]);
               first [ right; left; exists k, d, c, dup;
                       split; [done|]; split; [done|]; split; [by right|]; done
                     | right; right; by exists k, c ]).
      * simpl in Hst. rewrite andb_false_r in Hst.
        destruct (negb (d =? "")%string).
        -- injection Hst as <-; by left.
        -- apply bind_Return in Hst as (c & Hc & [= <-]). right; right. by exists k, c.
    + apply bind_Return in Hst as (c & Hc & [= <-]). right; right. by exists k, c.
Qed.

(** The rows that UPDATE and INSERT write from the bound columns carry the
    field values of the event. *)
Lemma bind_columns_carries event_data c now :
  bind_columns event_data = Return c →
  (∀ r, carries event_data (updated_row c now r))
  ∧ (∀ k, carries event_data (inserted_row k c now)).
Proof.
  unfold bind_columns. intros H.
  repeat (apply bind_Return in H as (? & ? & H)).
  injection H as <-. split; intros ?; unfold carries; simpl; repeat split; assumption.
Qed.

(** An UPDATE by id, when the rows with that id all become the same row. *)
Lemma sql_update_Forall2_row rows c now d updated :
  (∀ r, In r rows → row_id r = d → updated_row c now r = updated) →
  Forall2 (λ r r', r' = if String.eqb (row_id r) d then updated else r)
    rows (sql_update rows c now (Some d)).
Proof.
  unfold sql_update. induction rows as [|r rows IH]; intros H; simpl; constructor.
  - destruct (String.eqb_spec (row_id r) d) as [E|_]; [|done]. apply H; [by left|done].
  - apply IH. intros r' Hr'. apply H. by right.
Qed.

End Writer.

(** ** Saving one event, and batches *)

Section Saving.
Variable fromisoformat : string -> option datetime.

Lemma truthy_VStr s : s ≠ "" → truthy (VStr s) = true.
Proof. intros H. simpl. by destruct (String.eqb_spec s ""). Qed.

Lemma save_appointments_single db event_data rules now :
  save_appointments fromisoformat db [event_data] rules now
  = match process_event fromisoformat (appointments db) (default no_rules rules) now
            (appointments db, 0, 0) event_data with
    | Return (rows, saved_count, updated_count) =>
        (mk_database rows (ignored_base_ids db) (ignored_event_ids db),
         Return (saved_count, updated_count))
    | Raise e => (db, Raise e)
    end.
Proof.
  unfold save_appointments, save_loop.
  by destruct (process_event _ _ _ _ _ _) as [[[rows s] u]|e].
Qed.

Lemma save_loop_app committed rules now st evs1 evs2 :
  save_loop fromisoformat committed rules now st (evs1 ++ evs2)
  = st' ← save_loop fromisoformat committed rules now st evs1;
    save_loop fromisoformat committed rules now st' evs2.
Proof.
  revert st. induction evs1 as [|ev evs1 IH]; intros st; simpl; [done|].
  destruct (process_event _ _ _ _ _ _) as [st'|e]; simpl; [apply IH|done].
Qed.

(** C5, as the code has it.  The Duplicate Finder searches the rows of the
    candidate's own source, so the row it matches has the source that the
    candidate carries in its [source] field, and the override is between
    that source and the configured source of the batch.  In a store with
    unique ids, for a candidate whose id is not stored and which the Finder
    matches with the stored row [d], in a batch whose configured source has
    a strictly higher priority than the (non-empty) source of that row: the
    candidate's own source is the source of the row and not the source of
    the batch; [save_appointments] counts one update and no insert; the row
    found under [d] afterwards carries the candidate's field values (its
    source column therefore stays what it was), with the id and
    [created_at] of the duplicate and [updated_at] set to [now]; every other
    row is as it was, and no row with the candidate's own id exists. *)
Theorem precedence_override_updates_same_source_duplicate
    db rules now event_data k d dup dup_source c :
  NoDup (List.map row_id (appointments db)) →
  truthy (get event_data "id" VNone) = true →
  bind_text (get event_data "id" VNone) = Return (Some k) →
  select_by_id (appointments db) (Some k) = None →
  find_duplicate fromisoformat (appointments db)
    (get event_data "subject" (VStr "")) (get event_data "start_time" (VStr ""))
    (get event_data "organizer_email" (VStr "")) (get event_data "source" (VStr ""))
    (get event_data "id" VNone) = Some d →
  d ≠ "" →
  select_by_id (appointments db) (Some d) = Some dup →
  rules_source rules ≠ "" →
  row_source dup = Some dup_source → dup_source ≠ "" →
  precedence_get rules dup_source < precedence_get rules (rules_source rules) →
  bind_columns event_data = Return c →
  bind_text (get event_data "source" (VStr "")) = Return (Some dup_source)
  ∧ dup_source ≠ rules_source rules
  ∧ d ≠ k
  ∧ ∃ rows' updated,
      save_appointments fromisoformat db [event_data] (Some rules) now
      = (mk_database rows' (ignored_base_ids db) (ignored_event_ids db), Return (0, 1))
      ∧ select_by_id rows' (Some d) = Some updated
      ∧ carries event_data updated
      ∧ row_id updated = d
      ∧ row_created_at updated = row_created_at dup
      ∧ row_updated_at updated = Some now
      ∧ row_source updated = Some dup_source
      ∧ select_by_id rows' (Some k) = None
      ∧ Forall2 (λ r r', r' = if String.eqb (row_id r) d then updated else r)
          (appointments db) rows'.
Proof.
  intros Hnd Hid Hk Hsel Hdup Hd Hseld Hcur Hsrc Hds Hprec Hc.
  destruct (select_by_id_Some _ _ _ Hseld) as [Hin Hrid].
  assert (bind_text (get event_data "source" (VStr "")) = Return (Some dup_source)) as Hown.
  { pose proof Hdup as (r & ps & p & Hr & Hr_id & _ & _ & _ & Hp & Heq & _)%find_duplicate_Some.
    assert (r = dup) as -> by (eapply NoDup_map_inj_In; [exact Hnd|done|done|congruence]).
    apply sql_eq_true in Heq as [Heq _]. by rewrite Hp, <- Heq, Hsrc. }
  split; [exact Hown|]. split; [intros E; rewrite E in Hprec; lia|].
  split; [intros ->; by rewrite Hsel in Hseld|].
  destruct (bind_columns_carries _ _ now Hc) as [Hcarries _].
  exists (sql_update (appointments db) c now (Some d)), (updated_row c now dup).
  rewrite save_appointments_single. simpl default.
  rewrite (process_event_duplicate _ _ _ _ _ _ _ _ k d) by done.
  cbv zeta. rewrite Hseld, Hsrc. simpl default.
  rewrite (truthy_VStr _ Hcur). simpl of_text. rewrite (truthy_VStr _ Hds).
  simpl andb. cbv iota.
  rewrite (proj2 (Z.ltb_ge _ _)) by lia.
  rewrite (proj2 (Z.ltb_lt _ _)) by lia.
  rewrite Hc. simpl.
  split; [done|].
  split; [rewrite select_by_id_update, Hseld; simpl; by rewrite Hrid, String.eqb_refl|].
  split; [apply Hcarries|]. split; [done|]. split; [done|]. split; [done|].
  split.
  { destruct (Hcarries dup) as (_ & _ & _ & _ & _ & _ & _ & _ & _ & Hs).
    rewrite Hown in Hs. by injection Hs as <-. }
  split; [by rewrite select_by_id_update, Hsel|].
  apply sql_update_Forall2_row. intros r Hr Hr_id. f_equal.
  eapply NoDup_map_inj_In; [exact Hnd|done|done|congruence].
Qed.

Lemma database_eta db :
  mk_database (appointments db) (ignored_base_ids db) (ignored_event_ids db) = db.
Proof. by destruct db. Qed.

(** C3, as the code has it.  A candidate whose id is not stored and which
    the Duplicate Finder matches with the stored row [d]: when the batch's
    configured source is empty (or no rules are given), or the source of the
    duplicate is NULL or empty, [save_appointments] skips the candidate:
    nothing is written and nothing is counted. *)
Theorem empty_source_duplicate_is_skipped db rules now event_data k d :
  truthy (get event_data "id" VNone) = true →
  bind_text (get event_data "id" VNone) = Return (Some k) →
  select_by_id (appointments db) (Some k) = None →
  find_duplicate fromisoformat (appointments db)
    (get event_data "subject" (VStr "")) (get event_data "start_time" (VStr ""))
    (get event_data "organizer_email" (VStr "")) (get event_data "source" (VStr ""))
    (get event_data "id" VNone) = Some d →
  d ≠ "" →
  rules_source (default no_rules rules) = ""
  ∨ (∀ dup, select_by_id (appointments db) (Some d) = Some dup →
            row_source dup = None ∨ row_source dup = Some "") →
  save_appointments fromisoformat db [event_data] rules now = (db, Return (0, 0)).
Proof.
  intros Hid Hk Hsel Hdup Hd Hempty.
  rewrite save_appointments_single.
  rewrite (process_event_duplicate _ _ _ _ _ _ _ _ k d) by done.
  cbv zeta.
  assert (truthy (VStr (rules_source (default no_rules rules)))
          && truthy (of_text match select_by_id (appointments db) (Some d) with
                             | Some dup => row_source dup
                             | None => Some ""
                             end) = false) as ->.
  { destruct Hempty as [->|Hdupsrc]; [done|].
    apply andb_false_iff. right.
    destruct (select_by_id (appointments db) (Some d)) as [dup|]; [|done].
    by destruct (Hdupsrc dup eq_refl) as [-> | ->]. }
  by rewrite database_eta.
Qed.

(** C9.  One iteration of the loop that does not raise leaves the rows and
    both counters as they were, or counts one update, or counts one insert.
    When it counts an update, the write is aimed at a stored row: the row
    under the candidate's own id (exact-id match) or, when that id is not
    stored, the row under the id that the Duplicate Finder returned.  That
    row is stored before and after the write; the write leaves its id and
    its [created_at] as they were and sets its [updated_at] to [now]; every
    row keeps its id and its [created_at], and the rows under other ids are
    unchanged.  When the iteration counts an insert, one row with the
    candidate's id, not stored before, is appended, with
    [created_at = updated_at = now]: [created_at] is assigned there only. *)
Theorem update_keeps_id_and_created_at
    committed rules now rows s u event_data rows' s' u' :
  process_event fromisoformat committed rules now (rows, s, u) event_data
    = Return (rows', s', u') →
  (rows' = rows ∧ s' = s ∧ u' = u)
  ∨ (s' = s ∧ u' = u + 1
     ∧ ∃ k key affected affected',
         bind_text (get event_data "id" VNone) = Return (Some k)
         ∧ (key = k
            ∨ select_by_id rows (Some k) = None
              ∧ find_duplicate fromisoformat committed
                  (get event_data "subject" (VStr ""))
                  (get event_data "start_time" (VStr ""))
                  (get event_data "organizer_email" (VStr ""))
                  (get event_data "source" (VStr "")) (get event_data "id" VNone)
                = Some key)
         ∧ select_by_id rows (Some key) = Some affected
         ∧ select_by_id rows' (Some key) = Some affected'
         ∧ row_id affected = key
         ∧ row_id affected' = key
         ∧ row_created_at affected' = row_created_at affected
         ∧ row_updated_at affected' = Some now
         ∧ carries event_data affected'
         ∧ Forall2 (λ r r', row_id r' = row_id r
                            ∧ row_created_at r' = row_created_at r
                            ∧ if String.eqb (row_id r) key
                              then row_updated_at r' = Some now
                              else r' = r) rows rows')
  ∨ (s' = s + 1 ∧ u' = u
     ∧ ∃ k new,
         bind_text (get event_data "id" VNone) = Return (Some k)
         ∧ rows' = (rows ++ [new])%list
         ∧ row_id new = k
         ∧ select_by_id rows (Some k) = None
         ∧ row_created_at new = Some now
         ∧ row_updated_at new = Some now
         ∧ carries event_data new).
Proof.
  intros H. apply process_event_outcomes in H
    as [[= -> -> ->]
       | [(k & key & c & affected & Hk & Hc & Hkey & Haff & [= -> -> ->])
         | (k & c & Hc & Hk & Hsel & [= -> -> ->])]].
  - by left.
  - right; left. split; [done|]. split; [done|].
    destruct (select_by_id_Some _ _ _ Haff) as [_ Hrid].
    destruct (bind_columns_carries _ _ now Hc) as [Hcarries _].
    exists k, key, affected, (updated_row c now affected).
    split; [done|]. split; [done|]. split; [done|].
    split; [rewrite select_by_id_update, Haff; simpl; by rewrite Hrid, String.eqb_refl|].
    split; [done|]. split; [done|]. split; [done|]. split; [done|].
    split; [apply Hcarries|].
    eapply Forall2_impl; [apply (sql_update_Forall2 _ c now (Some key))|].
    intros r r' ->. simpl. by destruct (String.eqb (row_id r) key).
  - right; right. split; [done|]. split; [done|].
    destruct (bind_columns_carries _ _ now Hc) as [_ Hcarries].
    exists k, (inserted_row k c now).
    split; [done|]. split; [done|]. split; [done|]. split; [done|].
    split; [done|]. split; [done|]. apply Hcarries.
Qed.

(** The same over a whole batch: the rows stored before the call keep their
    place, id and [created_at], and are unchanged or have [updated_at = now];
    the rows after them are new and have [created_at = updated_at = now]. *)
Lemma save_loop_frame committed rules now rows0 evs st rows s u :
  (∃ kept added,
     fst (fst st) = (kept ++ added)%list
     ∧ Forall2 (λ r r', row_id r' = row_id r ∧ row_created_at r' = row_created_at r
                        ∧ (r' = r ∨ row_updated_at r' = Some now)) rows0 kept
     ∧ Forall (λ r, row_created_at r = Some now ∧ row_updated_at r = Some now) added) →
  save_loop fromisoformat committed rules now st evs = Return (rows, s, u) →
  ∃ kept added,
    rows = (kept ++ added)%list
    ∧ Forall2 (λ r r', row_id r' = row_id r ∧ row_created_at r' = row_created_at r
                       ∧ (r' = r ∨ row_updated_at r' = Some now)) rows0 kept
    ∧ Forall (λ r, row_created_at r = Some now ∧ row_updated_at r = Some now) added.
Proof.
  revert st. induction evs as [|ev evs IH]; intros [[rows1 s1] u1] Hinv Hloop.
  { simpl in Hloop. injection Hloop as <- <- <-. exact Hinv. }
  cbn [save_loop] in Hloop.
  apply bind_Return in Hloop as (st' & Hstep & Hloop).
  apply (IH st'); [|exact Hloop]. clear IH Hloop.
  destruct Hinv as (kept & added & Hrows & Hkept & Hadded). simpl in Hrows. subst rows1.
  apply process_event_cases in Hstep
    as [-> | [(key & c & _ & ->) | (k & c & _ & _ & _ & ->)]]; simpl.
  - by exists kept, added.
  - exists (sql_update kept c now (Some key)), (sql_update added c now (Some key)).
    split; [apply List.map_app|]. split.
    + clear Hadded. induction Hkept as [|r r' l l' (Hi & Hc & Hu) _ IHk]; simpl;
        constructor; [|exact IHk].
      destruct (String.eqb (row_id r') key); simpl; [rewrite Hi, Hc; auto|auto].
    + induction Hadded as [|r l [Hc Hu] _ IHa]; simpl; constructor; [|exact IHa].
      destruct (String.eqb (row_id r) key); simpl; auto.
  - exists kept, (added ++ [inserted_row k c now])%list.
    split; [by rewrite app_assoc|]. split; [done|].
    apply Forall_app. split; [done|]. by constructor.
Qed.

Lemma save_appointments_frame db evs rules now db' counts :
  save_appointments fromisoformat db evs rules now = (db', Return counts) →
  ∃ kept added,
    appointments db' = (kept ++ added)%list
    ∧ Forall2 (λ r r', row_id r' = row_id r ∧ row_created_at r' = row_created_at r
                       ∧ (r' = r ∨ row_updated_at r' = Some now)) (appointments db) kept
    ∧ Forall (λ r, row_created_at r = Some now ∧ row_updated_at r = Some now) added.
Proof.
  assert (Hid : Forall2 (λ r r', row_id r' = row_id r ∧ row_created_at r' = row_created_at r
                                 ∧ (r' = r ∨ row_updated_at r' = Some now))
                  (appointments db) (appointments db)).
  { induction (appointments db); constructor; auto. }
  unfold save_appointments. destruct evs as [|ev evs].
  { intros [= <- _]. exists (appointments db), []. by rewrite app_nil_r. }
  destruct (save_loop _ _ _ _ _ _) as [[[rows s] u]|e] eqn:Hloop; [|done].
  intros [= <- _]. simpl.
  eapply save_loop_frame; [|exact Hloop].
  exists (appointments db), []. simpl. rewrite app_nil_r. auto.
Qed.

Lemma bind_columns_source event_data c :
  bind_columns event_data = Return c →
  bind_text (get event_data "source" (VStr "")) = Return (c_source c).
Proof.
  unfold bind_columns. intros H.
  repeat (apply bind_Return in H as (? & ? & H)).
  by injection H as <-.
Qed.

(** C1, as the code has it.  Two candidates with different new ids whose own
    sources [src1] and [src2] differ (such as "cal1" and "cal2"), saved into
    a store that has no row of either source: whatever the subjects, the
    start times, the precedence mapping and [skip_same_source] are, the
    Duplicate Finder searches only rows of the candidate's own source, so the
    second candidate is inserted and counted like the first, in two calls as
    in one batch, and both rows are stored. *)
Theorem candidates_of_different_sources_are_both_inserted
    db rules1 rules2 now1 now2 ev1 ev2 k1 k2 src1 src2 c1 c2 :
  truthy (get ev1 "id" VNone) = true → bind_text (get ev1 "id" VNone) = Return (Some k1) →
  truthy (get ev2 "id" VNone) = true → bind_text (get ev2 "id" VNone) = Return (Some k2) →
  k1 ≠ k2 →
  get ev1 "source" (VStr "") = VStr src1 →
  get ev2 "source" (VStr "") = VStr src2 →
  src1 ≠ src2 →
  select_by_id (appointments db) (Some k1) = None →
  select_by_id (appointments db) (Some k2) = None →
  (∀ r, In r (appointments db) → row_source r ≠ Some src1 ∧ row_source r ≠ Some src2) →
  bind_columns ev1 = Return c1 →
  bind_columns ev2 = Return c2 →
  let db1 := mk_database (appointments db ++ [inserted_row k1 c1 now1])%list
               (ignored_base_ids db) (ignored_event_ids db) in
  save_appointments fromisoformat db [ev1] rules1 now1 = (db1, Return (1, 0))
  ∧ save_appointments fromisoformat db1 [ev2] rules2 now2
    = (mk_database
         (appointments db ++ [inserted_row k1 c1 now1; inserted_row k2 c2 now2])%list
         (ignored_base_ids db) (ignored_event_ids db),
       Return (1, 0))
  ∧ save_appointments fromisoformat db [ev1; ev2] rules1 now1
    = (mk_database
         (appointments db ++ [inserted_row k1 c1 now1; inserted_row k2 c2 now1])%list
         (ignored_base_ids db) (ignored_event_ids db),
       Return (2, 0)).
Proof.
  intros Hid1 Hk1 Hid2 Hk2 Hne Hs1 Hs2 Hsrc Hsel1 Hsel2 Hrows Hc1 Hc2 db1.
  assert (Hneq : ∀ (o : option string) (s : string), o ≠ Some s → sql_eq o (Some s) = false).
  { intros [a|] s' Ho; [|done]. simpl. destruct (String.eqb_spec a s'); congruence. }
  assert (Hf1 : ∀ committed exclude,
             (∀ r, In r committed → row_source r ≠ Some src1) →
             find_duplicate fromisoformat committed (get ev1 "subject" (VStr ""))
               (get ev1 "start_time" (VStr "")) (get ev1 "organizer_email" (VStr ""))
               (get ev1 "source" (VStr "")) exclude = None).
  { intros committed exclude Hall.
    apply (find_duplicate_other_source _ _ _ _ _ _ _ (Some src1)); [by rewrite Hs1|].
    intros r Hin. apply Hneq, Hall, Hin. }
  assert (Hf2 : ∀ committed exclude,
             (∀ r, In r committed → row_source r ≠ Some src2) →
             find_duplicate fromisoformat committed (get ev2 "subject" (VStr ""))
               (get ev2 "start_time" (VStr "")) (get ev2 "organizer_email" (VStr ""))
               (get ev2 "source" (VStr "")) exclude = None).
  { intros committed exclude Hall.
    apply (find_duplicate_other_source _ _ _ _ _ _ _ (Some src2)); [by rewrite Hs2|].
    intros r Hin. apply Hneq, Hall, Hin. }
  assert (Hc1src : c_source c1 = Some src1).
  { apply bind_columns_source in Hc1. rewrite Hs1 in Hc1. by injection Hc1. }
  assert (Hsel2' : select_by_id (appointments db ++ [inserted_row k1 c1 now1]) (Some k2)
                   = None).
  { rewrite select_by_id_app_None by done. simpl.
    by destruct (String.eqb_spec k1 k2). }
  assert (Hstep1 : ∀ rules,
    process_event fromisoformat (appointments db) rules now1 (appointments db, 0, 0) ev1
    = Return ((appointments db ++ [inserted_row k1 c1 now1])%list, 1, 0)).
  { intros rules. rewrite (process_event_insert _ _ _ _ _ _ _ _ k1 c1); try done.
    apply Hf1. intros r Hin. apply (Hrows r Hin). }
  split; [|split].
  - rewrite save_appointments_single. by rewrite Hstep1.
  - rewrite save_appointments_single. subst db1. cbn [appointments].
    rewrite (process_event_insert _ _ _ _ _ _ _ _ k2 c2); try done.
    + cbn [ignored_base_ids ignored_event_ids]. by rewrite <- app_assoc.
    + apply Hf2. intros r [Hin|Hin]%in_app_or.
      * apply (Hrows r Hin).
      * destruct Hin as [<-|[]]. simpl. rewrite Hc1src. congruence.
  - unfold save_appointments. cbn [save_loop]. rewrite Hstep1, bind_Return_l.
    rewrite (process_event_insert _ _ _ _ _ _ _ _ k2 c2); try done.
    + rewrite bind_Return_l. by rewrite <- app_assoc.
    + apply Hf2. intros r Hin. apply (Hrows r Hin).
Qed.

(** C2, as the code has it.  When processing a candidate raises, after the
    candidates before it were processed without an exception, the loop stops
    there: [save_appointments] raises that exception to its caller, returns
    no counts, does not process the candidates after it, and the transaction
    is rolled back, so the store is as it was before the call. *)
Theorem failure_aborts_and_rolls_back db before event_data after rules now st e :
  save_loop fromisoformat (appointments db) (default no_rules rules) now
    (appointments db, 0, 0) before = Return st →
  process_event fromisoformat (appointments db) (default no_rules rules) now st event_data
    = Raise e →
  save_appointments fromisoformat db (before ++ event_data :: after) rules now
  = (db, Raise e).
Proof.
  intros Hbefore Hfail. unfold save_appointments.
  destruct (before ++ event_data :: after)%list eqn:E.
  { by destruct before. }
  rewrite <- E, save_loop_app, Hbefore. simpl. by rewrite Hfail.
Qed.

End Saving.

(** ** The event query and the suppression store *)

Section Query.

(** The rows behind the result of a query. *)
Lemma query_events_In db now days_back days_ahead source evs a :
  query_events db now days_back days_ahead source = Return evs →
  In a evs ↔
  ∃ lo hi sp r,
    date_window now days_back days_ahead = Return (lo, hi)
    ∧ source_filter source = Return sp
    ∧ In r (appointments db) ∧ selected lo hi sp r = true
    ∧ visible (get_ignored_base_ids db) (get_ignored_event_ids db) r = true
    ∧ a = appointment_of_row r.
Proof.
  unfold query_events. intros H.
  apply bind_Return in H as ([lo hi] & Hw & H).
  apply bind_Return in H as (sp & Hsp & [= <-]).
  rewrite in_map_iff. split.
  - intros (r & <- & Hin). apply filter_In in Hin as [Hin Hvis].
    apply In_order_by_start_time, filter_In in Hin as [Hin Hsel].
    by exists lo, hi, sp, r.
  - intros (lo' & hi' & sp' & r & Hw' & Hsp' & Hin & Hsel & Hvis & ->).
    rewrite Hw in Hw'. injection Hw' as <- <-.
    rewrite Hsp in Hsp'. injection Hsp' as <-.
    exists r. split; [done|]. apply filter_In. split; [|done].
    apply In_order_by_start_time, filter_In. done.
Qed.

Lemma selected_start_time lo hi sp r :
  selected lo hi sp r = true → ∃ s, row_start_time r = Some s.
Proof.
  unfold selected. intros H. repeat (apply andb_true_iff in H as [H _]).
  destruct (row_start_time r) as [s|]; [by exists s|done].
Qed.

(** C6, as the code has it.  Every appointment that [query_events] returns
    is built from a stored row: its id and start time are text; location,
    organizer email, organizer name, body preview and source are text, the
    empty string when the stored cell is NULL; attendees is text, "[]" when
    the stored cell is NULL or empty; subject, end time and is_all_day are
    the stored cells as they are, NULL included. *)
Theorem query_events_defaults db now days_back days_ahead source evs a :
  query_events db now days_back days_ahead source = Return evs →
  In a evs →
  ∃ r start,
    In r (appointments db)
    ∧ a_id a = VStr (row_id r)
    ∧ row_start_time r = Some start ∧ a_start_time a = VStr start
    ∧ a_location a = VStr (default "" (row_location r))
    ∧ a_organizer_email a = VStr (default "" (row_organizer_email r))
    ∧ a_organizer_name a = VStr (default "" (row_organizer_name r))
    ∧ a_body_preview a = VStr (default "" (row_body_preview r))
    ∧ a_source a = VStr (default "" (row_source r))
    ∧ a_attendees a = VStr (match row_attendees r with
                            | Some "" | None => "[]"
                            | Some s => s
                            end)
    ∧ a_subject a = of_text (row_subject r)
    ∧ a_end_time a = of_text (row_end_time r)
    ∧ a_is_all_day a = of_flag (row_is_all_day r).
Proof.
  intros Hq Hin.
  apply (query_events_In _ _ _ _ _ _ _ Hq) in Hin
    as (lo & hi & sp & r & _ & _ & Hin & Hsel & _ & ->).
  destruct (selected_start_time _ _ _ _ Hsel) as [start Hstart].
  exists r, start.
  assert (Hor : ∀ c, py_or (of_text c) (VStr "") = VStr (default "" c)).
  { intros [s|]; [|done]. unfold py_or. simpl.
    by destruct (String.eqb_spec s "") as [->|]. }
  unfold appointment_of_row; simpl. rewrite !Hor, Hstart.
  repeat split; try done.
  destruct (row_attendees r) as [s|]; [|done].
  unfold py_or. simpl. destruct (String.eqb_spec s "") as [->|]; [done|].
  destruct s; [done|]. done.
Qed.


End Query.

(** ** The claims at concrete stores and events *)

Section Examples.
Import Sample.

(** C1 fails as stated: with equal priorities and [skip_same_source] false,
    the cal2 candidate saved after the cal1 candidate is inserted and
    counted, and the store holds two rows for the meeting. *)
Lemma precedence_tie_second_candidate_is_inserted :
  let '(db1, r1) := save_appointments iso8601_fromisoformat empty_db [ev_cal1] (Some rules_cal1) t0 in
  let '(db2, r2) := save_appointments iso8601_fromisoformat db1 [ev_cal2] (Some rules_cal2) t1 in
  r1 = Return (1, 0) ∧ r2 = Return (1, 0)
  ∧ List.map row_id (appointments db2) = ["a1"; "b1"]
  ∧ ¬ (r2 = Return (0, 0) ∧ length (appointments db2) = 1%nat).
Proof. vm_compute. repeat split. intros [? ?]. discriminate. Qed.

(** The hypotheses of C1's theorem hold for the two sample events. *)
Lemma candidates_of_different_sources_witness :
  save_appointments iso8601_fromisoformat empty_db [ev_cal1] (Some rules_cal1) t0
    = (mk_database [inserted_row "a1" bound_cal1 t0] ∅ ∅, Return (1, 0))
  ∧ save_appointments iso8601_fromisoformat (mk_database [inserted_row "a1" bound_cal1 t0] ∅ ∅)
      [ev_cal2] (Some rules_cal2) t1
    = (mk_database [inserted_row "a1" bound_cal1 t0; inserted_row "b1" bound_cal2 t1] ∅ ∅,
       Return (1, 0))
  ∧ save_appointments iso8601_fromisoformat empty_db [ev_cal1; ev_cal2] (Some rules_cal1) t0
    = (mk_database [inserted_row "a1" bound_cal1 t0; inserted_row "b1" bound_cal2 t0] ∅ ∅,
       Return (2, 0)).
Proof.
  apply (candidates_of_different_sources_are_both_inserted iso8601_fromisoformat empty_db
           (Some rules_cal1) (Some rules_cal2) t0 t1 ev_cal1 ev_cal2
           "a1" "b1" "cal1" "cal2" bound_cal1 bound_cal2);
    try (vm_compute; reflexivity); try discriminate.
  intros r [].
Defined.

(** C2 fails as stated: the event that cannot be bound aborts the batch, the
    event after it is not processed, and nothing is stored; alone, that
    second event is inserted. *)
Lemma failing_candidate_aborts_the_rest :
  save_appointments iso8601_fromisoformat empty_db [ev_unbindable; ev_cal1] None t1
    = (empty_db, Raise InterfaceError)
  ∧ save_appointments iso8601_fromisoformat empty_db [ev_cal1] None t1
    = (mk_database [inserted_row "a1" bound_cal1 t1] ∅ ∅, Return (1, 0)).
Proof. split; vm_compute; reflexivity. Qed.

(** The hypotheses of C2's theorem: the first event is inserted, the second
    raises, and the insert is rolled back. *)
Lemma failure_aborts_and_rolls_back_witness :
  save_appointments iso8601_fromisoformat empty_db ([ev_cal1] ++ ev_unbindable :: [ev_cal2]) None t1
  = (empty_db, Raise InterfaceError).
Proof.
  apply (failure_aborts_and_rolls_back iso8601_fromisoformat empty_db [ev_cal1] ev_unbindable [ev_cal2]
           None t1 ([inserted_row "a1" bound_cal1 t1], 1, 0) InterfaceError);
    vm_compute; reflexivity.
Defined.

(** C3 fails as stated: no rules, no source on the candidate, an empty
    source on the stored duplicate; the candidate is skipped, the stored row
    is not updated and nothing is counted. *)
Lemma empty_source_duplicate_not_overwritten :
  find_duplicate iso8601_fromisoformat (appointments db_legacy)
    (get ev_no_source "subject" (VStr "")) (get ev_no_source "start_time" (VStr ""))
    (get ev_no_source "organizer_email" (VStr "")) (get ev_no_source "source" (VStr ""))
    (get ev_no_source "id" VNone) = Some "legacy1"
  ∧ save_appointments iso8601_fromisoformat db_legacy [ev_no_source] None t1 = (db_legacy, Return (0, 0))
  ∧ snd (save_appointments iso8601_fromisoformat db_legacy [ev_no_source] None t1) ≠ Return (0, 1).
Proof. repeat split; vm_compute; try reflexivity. discriminate. Qed.

(** The hypotheses of C3's theorem at that input. *)
Lemma empty_source_duplicate_is_skipped_witness :
  save_appointments iso8601_fromisoformat db_legacy [ev_no_source] None t1 = (db_legacy, Return (0, 0)).
Proof.
  apply (empty_source_duplicate_is_skipped iso8601_fromisoformat db_legacy None t1 ev_no_source
           "a1" "legacy1");
    try (vm_compute; reflexivity); try discriminate.
  left. reflexivity.
Defined.

(** C4 at a failing input.  The stored row has the subject, the source and
    the organizer searched for, is not the excluded id, and its start time
    is the very string searched for, so the UTC difference is 0 and the loop
    over that row alone returns it; but the SELECT compares the stored
    string with the window strings in UTC, drops the row, and
    [find_duplicate] returns none.  Saving the event then stores the meeting
    a second time. *)
Lemma find_duplicate_misses_offset_start_time :
  let start_utc := mk_datetime 2025 1 1 10 0 0 0 (Some 0) in
  sql_eq (row_subject row_pst) (Some "Standup") = true
  ∧ sql_eq (row_source row_pst) (Some "cal1") = true
  ∧ VStr (row_id row_pst) ≠ VStr "p2"
  ∧ (parse_iso_datetime iso8601_fromisoformat (VStr "2025-01-01T02:00:00-08:00") ≫= Some ∘ normalize_to_utc)
    = Some (Return start_utc)
  ∧ (parse_iso_datetime iso8601_fromisoformat (of_text (row_start_time row_pst)) ≫= Some ∘ normalize_to_utc)
    = Some (Return start_utc)
  ∧ Z.abs (datetime_sub start_utc start_utc) < 60 * US_PER_SECOND
  ∧ scan_rows iso8601_fromisoformat start_utc (VStr "boss@example.com") (VStr "p2") [row_pst]
    = Return (Some "p1")
  ∧ find_duplicate iso8601_fromisoformat [row_pst] (VStr "Standup") (VStr "2025-01-01T02:00:00-08:00")
      (VStr "boss@example.com") (VStr "cal1") (VStr "p2") = None
  ∧ snd (save_appointments iso8601_fromisoformat db_pst [ev_pst] None t1) = Return (1, 0).
Proof. vm_compute. repeat split; try reflexivity. discriminate. Qed.

(** C5 fails as stated: a cal2 candidate, in a batch written as cal2, which
    outranks cal1, meets the stored cal1 meeting: same subject, same
    organizer, thirty seconds later.  Searched for with the source cal1 the
    stored row is found; the finder, called with the candidate's own source
    cal2, returns nothing.  The candidate is inserted under its own id and
    counted as an insert, and the cal1 row is left as it was. *)
Lemma higher_priority_candidate_of_other_source_is_inserted :
  rules_source rules_cal2_wins = "cal2"
  ∧ precedence_get rules_cal2_wins "cal1" < precedence_get rules_cal2_wins "cal2"
  ∧ find_duplicate iso8601_fromisoformat (appointments db_cal1) (VStr "Standup")
      (VStr "2025-01-01T10:00:30Z") (VStr "boss@example.com") (VStr "cal1") (VStr "b1")
    = Some "a1"
  ∧ find_duplicate iso8601_fromisoformat (appointments db_cal1)
      (get ev_cal2 "subject" (VStr "")) (get ev_cal2 "start_time" (VStr ""))
      (get ev_cal2 "organizer_email" (VStr "")) (get ev_cal2 "source" (VStr ""))
      (get ev_cal2 "id" VNone)
    = None
  ∧ save_appointments iso8601_fromisoformat db_cal1 [ev_cal2] (Some rules_cal2_wins) t1
    = (mk_database [row_cal1; inserted_row "b1" bound_cal2 t1] ∅ ∅, Return (1, 0)).
Proof. vm_compute. repeat split; reflexivity. Qed.

(** The hypotheses of C5 at a concrete input: a candidate that carries the
    source cal1, in a batch written as cal2, which outranks cal1, updates
    the stored cal1 row under its id "a1". *)
Lemma precedence_override_witness :
  bind_text (get ev_again "source" (VStr "")) = Return (Some "cal1")
  ∧ "cal1" ≠ rules_source rules_cal2_wins
  ∧ "a1" ≠ "a2"
  ∧ ∃ rows' updated,
      save_appointments iso8601_fromisoformat db_cal1 [ev_again] (Some rules_cal2_wins) t1
      = (mk_database rows' (ignored_base_ids db_cal1) (ignored_event_ids db_cal1),
         Return (0, 1))
      ∧ select_by_id rows' (Some "a1") = Some updated
      ∧ carries ev_again updated
      ∧ row_id updated = "a1"
      ∧ row_created_at updated = row_created_at row_cal1
      ∧ row_updated_at updated = Some t1
      ∧ row_source updated = Some "cal1"
      ∧ select_by_id rows' (Some "a2") = None
      ∧ Forall2 (λ r r', r' = if String.eqb (row_id r) "a1" then updated else r)
          (appointments db_cal1) rows'.
Proof.
  apply (precedence_override_updates_same_source_duplicate iso8601_fromisoformat db_cal1
           rules_cal2_wins t1 ev_again "a2" "a1" row_cal1 "cal1" bound_again);
    try (vm_compute; reflexivity); try discriminate.
  apply (bool_decide_unpack _). vm_compute. reflexivity.
Defined.

(** C6 fails as stated: an event saved with a [None] subject and a [None]
    is_all_day comes back from the query with both still [None]. *)
Lemma query_returns_null_subject_and_flag :
  let db := fst (save_appointments iso8601_fromisoformat empty_db [ev_null] None t1) in
  ∃ a, query_events db new_year 0 30 VNone = Return [a]
       ∧ a_subject a = VNone ∧ a_is_all_day a = VNone
       ∧ a_subject a ≠ VStr "" ∧ a_is_all_day a ≠ VInt 0.
Proof.
  eexists. vm_compute. repeat split; discriminate.
Qed.

(** The hypotheses of C6's theorem at that query. *)
Lemma query_events_defaults_witness :
  let db := fst (save_appointments iso8601_fromisoformat empty_db [ev_null] None t1) in
  let a := mk_appointment (VStr "n1") VNone (VStr "2025-01-02T09:00:00Z") (VStr "")
             (VStr "") (VStr "") (VStr "") (VStr "[]") (VStr "") VNone (VStr "") in
  ∃ r start,
    In r (appointments db)
    ∧ a_id a = VStr (row_id r)
    ∧ row_start_time r = Some start ∧ a_start_time a = VStr start
    ∧ a_location a = VStr (default "" (row_location r))
    ∧ a_organizer_email a = VStr (default "" (row_organizer_email r))
    ∧ a_organizer_name a = VStr (default "" (row_organizer_name r))
    ∧ a_body_preview a = VStr (default "" (row_body_preview r))
    ∧ a_source a = VStr (default "" (row_source r))
    ∧ a_attendees a = VStr (match row_attendees r with
                            | Some "" | None => "[]"
                            | Some s => s
                            end)
    ∧ a_subject a = of_text (row_subject r)
    ∧ a_end_time a = of_text (row_end_time r)
    ∧ a_is_all_day a = of_flag (row_is_all_day r).
Proof.
  intros db a.
  apply (query_events_defaults db new_year 0 30 VNone [a] a).
  - vm_compute. reflexivity.
  - left. reflexivity.
Defined.


(** The hypothesis of C9 at two concrete iterations.  The first updates the
    stored row under the candidate's own id "a1"; the second, in a batch
    written as cal2, which outranks cal1, updates the row "a1" that the
    finder returned for the candidate "a2".  Both leave [created_at] at
    [t0] and set [updated_at] to [t1]. *)
Lemma update_keeps_id_and_created_at_witness :
  let moved := [mk_row "a1" (Some "Standup (moved)") (Some "2025-01-01T11:00:00Z")
                  (Some "") (Some "") (Some "") (Some "") (Some "[]") (Some "")
                  (SqlInt 0) (Some "cal1") (Some t0) (Some t1)] in
  let merged := [mk_row "a1" (Some "Standup") (Some "2025-01-01T10:00:30Z")
                   (Some "") (Some "Room 2") (Some "boss@example.com") (Some "")
                   (Some "[]") (Some "") (SqlInt 0) (Some "cal1") (Some t0) (Some t1)] in
  (∃ k key affected affected',
     bind_text (get ev_same_id "id" VNone) = Return (Some k)
     ∧ (key = k
        ∨ select_by_id [row_cal1] (Some k) = None
          ∧ find_duplicate iso8601_fromisoformat [row_cal1]
              (get ev_same_id "subject" (VStr "")) (get ev_same_id "start_time" (VStr ""))
              (get ev_same_id "organizer_email" (VStr ""))
              (get ev_same_id "source" (VStr "")) (get ev_same_id "id" VNone)
            = Some key)
     ∧ select_by_id [row_cal1] (Some key) = Some affected
     ∧ select_by_id moved (Some key) = Some affected'
     ∧ row_id affected = key
     ∧ row_id affected' = key
     ∧ row_created_at affected' = row_created_at affected
     ∧ row_updated_at affected' = Some t1
     ∧ carries ev_same_id affected'
     ∧ Forall2 (λ r r', row_id r' = row_id r
                        ∧ row_created_at r' = row_created_at r
                        ∧ if String.eqb (row_id r) key
                          then row_updated_at r' = Some t1
                          else r' = r) [row_cal1] moved)
  ∧ (∃ k key affected affected',
     bind_text (get ev_again "id" VNone) = Return (Some k)
     ∧ (key = k
        ∨ select_by_id [row_cal1] (Some k) = None
          ∧ find_duplicate iso8601_fromisoformat [row_cal1]
              (get ev_again "subject" (VStr "")) (get ev_again "start_time" (VStr ""))
              (get ev_again "organizer_email" (VStr ""))
              (get ev_again "source" (VStr "")) (get ev_again "id" VNone)
            = Some key)
     ∧ select_by_id [row_cal1] (Some key) = Some affected
     ∧ select_by_id merged (Some key) = Some affected'
     ∧ row_id affected = key
     ∧ row_id affected' = key
     ∧ row_created_at affected' = row_created_at affected
     ∧ row_updated_at affected' = Some t1
     ∧ carries ev_again affected'
     ∧ Forall2 (λ r r', row_id r' = row_id r
                        ∧ row_created_at r' = row_created_at r
                        ∧ if String.eqb (row_id r) key
                          then row_updated_at r' = Some t1
                          else r' = r) [row_cal1] merged).
Proof.
  intros moved merged. split.
  - destruct (update_keeps_id_and_created_at iso8601_fromisoformat [row_cal1] no_rules t1
                [row_cal1] 0 0 ev_same_id moved 0 1)
      as [(_ & _ & H) | [(_ & _ & H) | (H & _)]];
      [vm_compute; reflexivity | discriminate H | exact H | discriminate H].
  - destruct (update_keeps_id_and_created_at iso8601_fromisoformat [row_cal1]
                rules_cal2_wins t1 [row_cal1] 0 0 ev_again merged 0 1)
      as [(_ & _ & H) | [(_ & _ & H) | (H & _)]];
      [vm_compute; reflexivity | discriminate H | exact H | discriminate H].
Defined.

(** The hypothesis in C10 at a concrete input: a start time whose UTC value
    would fall before year 1 makes the [try] block raise, and the result is
    none. *)
Lemma find_duplicate_total_witness :
  find_duplicate_try iso8601_fromisoformat [row_cal1] (VStr "Standup") (VStr "0001-01-01T00:00:00+01:00")
    (VStr "") (VStr "cal1") VNone = Raise OverflowError
  ∧ find_duplicate iso8601_fromisoformat [row_cal1] (VStr "Standup") (VStr "0001-01-01T00:00:00+01:00")
      (VStr "") (VStr "cal1") VNone = None.
Proof.
  assert (H : find_duplicate_try iso8601_fromisoformat [row_cal1] (VStr "Standup")
                (VStr "0001-01-01T00:00:00+01:00") (VStr "") (VStr "cal1") VNone
              = Raise OverflowError) by (vm_compute; reflexivity).
  split; [exact H|].
  exact (proj1 (find_duplicate_total iso8601_fromisoformat [row_cal1] (VStr "Standup")
                  (VStr "0001-01-01T00:00:00+01:00") (VStr "") (VStr "cal1") VNone)
           OverflowError H).
Defined.

End Examples.

(** ** The calendar arithmetic *)

Section Calendar.

Lemma month_part_checked (leapyear : bool) :
  forallb (month_part_ok leapyear) (seq 0 (if leapyear then 366 else 365)%nat) = true.
Proof. destruct leapyear; vm_compute; reflexivity. Qed.

Lemma month_part_spec n (leapyear : bool) m d :
  0 <= n < 365 + (if leapyear then 1 else 0) →
  month_part n leapyear = (m, d) →
  1 <= m <= 12 ∧ 1 <= d <= DAYS_IN_MONTH m + (if (m =? 2) && leapyear then 1 else 0)
  ∧ DAYS_BEFORE_MONTH m + (if (2 <? m) && leapyear then 1 else 0) + d = n + 1.
Proof.
  intros Hn Hmd.
  pose proof (month_part_checked leapyear) as H.
  rewrite forallb_forall in H.
  specialize (H (Z.to_nat n)).
  assert (Hin : In (Z.to_nat n) (seq 0 (if leapyear then 366 else 365)%nat)).
  { apply in_seq. destruct leapyear; lia. }
  specialize (H Hin). unfold month_part_ok in H.
  rewrite Z2Nat.id in H by lia. rewrite Hmd in H.
  repeat (apply andb_true_iff in H as [H ?]).
  repeat match goal with
         | H : (_ <=? _) = true |- _ => apply Z.leb_le in H
         | H : (_ =? _) = true |- _ => apply Z.eqb_eq in H
         end.
  lia.
Qed.

Lemma days_before_year_cycle a b c e :
  0 <= a → 0 <= b <= 3 → 0 <= c <= 24 → 0 <= e <= 3 →
  days_before_year (400 * a + 100 * b + 4 * c + e + 1)
  = 146097 * a + 36524 * b + 1461 * c + 365 * e.
Proof.
  intros. unfold days_before_year. cbv zeta.
  replace (400 * a + 100 * b + 4 * c + e + 1 - 1) with (400 * a + 100 * b + 4 * c + e) by lia.
  Z.div_mod_to_equations. lia.
Qed.

Lemma is_leap_cycle a b c e :
  0 <= a → 0 <= b <= 3 → 0 <= c <= 24 → 0 <= e <= 3 →
  is_leap (400 * a + 100 * b + 4 * c + e + 1)
  = (e =? 3) && (negb (c =? 24) || (b =? 3)).
Proof.
  intros. unfold is_leap.
  destruct (e =? 3) eqn:He, (c =? 24) eqn:Hc, (b =? 3) eqn:Hb; simpl;
  repeat match goal with
         | H : (_ =? _) = true |- _ => apply Z.eqb_eq in H
         | H : (_ =? _) = false |- _ => apply Z.eqb_neq in H
         end;
  repeat match goal with
         | |- context [?x mod ?y =? 0] =>
             let E := fresh in destruct (x mod y =? 0) eqn:E;
             [apply Z.eqb_eq in E | apply Z.eqb_neq in E]
         end; simpl; try reflexivity; exfalso; Z.div_mod_to_equations; lia.
Qed.

Lemma days_in_month_table y m :
  1 <= m <= 12 →
  days_in_month y m = DAYS_IN_MONTH m + (if (m =? 2) && is_leap y then 1 else 0).
Proof.
  intros Hm. assert (m = 1 ∨ m = 2 ∨ m = 3 ∨ m = 4 ∨ m = 5 ∨ m = 6 ∨ m = 7 ∨ m = 8
                     ∨ m = 9 ∨ m = 10 ∨ m = 11 ∨ m = 12) as Hc by lia.
  unfold days_in_month.
  repeat (destruct Hc as [-> | Hc]; [by destruct (is_leap y)|]).
  subst. by destruct (is_leap y).
Qed.

Lemma ord2ymd_spec n y m d :
  1 <= n → ord2ymd n = (y, m, d) →
  1 <= y ∧ 1 <= m <= 12 ∧ 1 <= d <= days_in_month y m ∧ ymd2ord y m d = n.
Proof.
  intros Hn. unfold ord2ymd. cbv zeta.
  pose proof (Z.div_mod (n - 1) 146097 ltac:(lia)) as E1.
  pose proof (Z.mod_pos_bound (n - 1) 146097 ltac:(lia)) as B1.
  pose proof (Z.div_pos (n - 1) 146097 ltac:(lia) ltac:(lia)) as P1.
  set (a := (n - 1) / 146097) in *. set (r1 := (n - 1) mod 146097) in *.
  pose proof (Z.div_mod r1 36524 ltac:(lia)) as E2.
  pose proof (Z.mod_pos_bound r1 36524 ltac:(lia)) as B2.
  pose proof (Z.div_pos r1 36524 ltac:(lia) ltac:(lia)) as P2.
  set (b := r1 / 36524) in *. set (r2 := r1 mod 36524) in *.
  pose proof (Z.div_mod r2 1461 ltac:(lia)) as E3.
  pose proof (Z.mod_pos_bound r2 1461 ltac:(lia)) as B3.
  pose proof (Z.div_pos r2 1461 ltac:(lia) ltac:(lia)) as P3.
  set (c := r2 / 1461) in *. set (r3 := r2 mod 1461) in *.
  pose proof (Z.div_mod r3 365 ltac:(lia)) as E4.
  pose proof (Z.mod_pos_bound r3 365 ltac:(lia)) as B4.
  pose proof (Z.div_pos r3 365 ltac:(lia) ltac:(lia)) as P4.
  set (e := r3 / 365) in *. set (r4 := r3 mod 365) in *.
  clearbody a r1 b r2 c r3 e r4.
  destruct ((e =? 4) || (b =? 4)) eqn:Hsp.
  - intros [= <- <- <-].
    assert (Hcase : b = 4 ∨ (b <> 4 ∧ e = 4)).
    { destruct (Z.eqb_spec b 4); destruct (Z.eqb_spec e 4);
        simpl in Hsp; try discriminate; lia. }
    unfold ymd2ord, days_before_month.
    destruct Hcase as [Hb | [Hb He]].
    + replace (a * 400 + 1 + b * 100 + c * 4 + e - 1)
        with (400 * a + 100 * 3 + 4 * 24 + 3 + 1) by lia.
      rewrite days_in_month_table by lia.
      rewrite days_before_year_cycle, is_leap_cycle by lia.
      change (DAYS_BEFORE_MONTH 12) with 334. change (DAYS_IN_MONTH 12) with 31.
      simpl. lia.
    + replace (a * 400 + 1 + b * 100 + c * 4 + e - 1)
        with (400 * a + 100 * b + 4 * c + 3 + 1) by lia.
      assert (c <> 24) by lia.
      rewrite days_in_month_table by lia.
      rewrite days_before_year_cycle, is_leap_cycle by lia.
      change (DAYS_BEFORE_MONTH 12) with 334. change (DAYS_IN_MONTH 12) with 31.
      rewrite (proj2 (Z.eqb_neq c 24)) by done.
      simpl. lia.
  - apply orb_false_iff in Hsp as [He Hb].
    apply Z.eqb_neq in He, Hb.
    match goal with
    | |- (if ?cond then (_, ?m1, ?d1) else (_, ?m2, ?d2)) = _ → _ =>
        assert (Hmp : month_part r4 ((e =? 3) && (negb (c =? 24) || (b =? 3)))
                      = if cond then (m1, d1) else (m2, d2)) by reflexivity;
        destruct cond
    end; intros [= <- <- <-];
    (apply month_part_spec in Hmp as (Hm & Hd & Hsum);
       [|destruct ((e =? 3) && _); lia]);
    (replace (a * 400 + 1 + b * 100 + c * 4 + e)
       with (400 * a + 100 * b + 4 * c + e + 1) by lia);
    unfold ymd2ord, days_before_month;
    rewrite days_in_month_table by lia;
    rewrite days_before_year_cycle, is_leap_cycle by lia;
    lia.
Qed.

Lemma days_before_year_succ y :
  1 <= y → days_before_year (y + 1) = days_before_year y + 365 + (if is_leap y then 1 else 0).
Proof.
  intros Hy. unfold days_before_year, is_leap. cbv zeta.
  replace (y + 1 - 1) with y by lia.
  repeat match goal with
         | |- context [?x mod ?k =? 0] =>
             let E := fresh in destruct (x mod k =? 0) eqn:E;
             [apply Z.eqb_eq in E | apply Z.eqb_neq in E]
         end; simpl; Z.div_mod_to_equations; lia.
Qed.

Lemma days_before_year_mono y y' :
  1 <= y → y <= y' → days_before_year y <= days_before_year y'.
Proof.
  intros Hy Hle. unfold days_before_year. cbv zeta.
  Z.div_mod_to_equations. lia.
Qed.

Lemma days_before_month_next y m :
  1 <= m <= 11 →
  days_before_month y (m + 1) = days_before_month y m + days_in_month y m.
Proof.
  intros Hm. assert (m = 1 ∨ m = 2 ∨ m = 3 ∨ m = 4 ∨ m = 5 ∨ m = 6 ∨ m = 7 ∨ m = 8
                     ∨ m = 9 ∨ m = 10 ∨ m = 11) as Hc by lia.
  unfold days_before_month, days_in_month.
  repeat (destruct Hc as [-> | Hc]; [by destruct (is_leap y)|]).
  subst. by destruct (is_leap y).
Qed.

Lemma days_before_month_mono y m m' :
  1 <= m → m < m' → m' <= 12 →
  days_before_month y m + days_in_month y m <= days_before_month y m'.
Proof.
  intros H1 Hlt H12.
  assert (Hpos : ∀ k, 1 <= k <= 12 → 28 <= days_in_month y k).
  { intros k Hk. unfold days_in_month.
    destruct (k =? 2); [by destruct (is_leap y)|]. by destruct (_ || _). }
  replace m' with (m + 1 + Z.of_nat (Z.to_nat (m' - m - 1))) by lia.
  assert (Hb : (Z.to_nat (m' - m - 1) <= 11 - Z.to_nat m)%nat) by lia.
  induction (Z.to_nat (m' - m - 1)) as [|k IH].
  - rewrite Z.add_0_r, days_before_month_next by lia. lia.
  - replace (m + 1 + Z.of_nat (S k)) with ((m + 1 + Z.of_nat k) + 1) by lia.
    rewrite days_before_month_next by lia.
    specialize (IH ltac:(lia)). specialize (Hpos (m + 1 + Z.of_nat k) ltac:(lia)). lia.
Qed.

Lemma days_before_month_year y m :
  1 <= m <= 12 →
  0 <= days_before_month y m
  ∧ days_before_month y m + days_in_month y m <= 365 + (if is_leap y then 1 else 0).
Proof.
  intros Hm. assert (m = 1 ∨ m = 2 ∨ m = 3 ∨ m = 4 ∨ m = 5 ∨ m = 6 ∨ m = 7 ∨ m = 8
                     ∨ m = 9 ∨ m = 10 ∨ m = 11 ∨ m = 12) as Hc by lia.
  unfold days_before_month, days_in_month.
  repeat (destruct Hc as [-> | Hc]; [by destruct (is_leap y)|]).
  subst. by destruct (is_leap y).
Qed.

Lemma ymd2ord_bounds y m d :
  valid_date y m d →
  days_before_year y < ymd2ord y m d <= days_before_year (y + 1).
Proof.
  intros (Hy & Hm & Hd). unfold ymd2ord.
  rewrite days_before_year_succ by done.
  pose proof (days_before_month_year y m Hm). lia.
Qed.

Lemma ymd2ord_inj y m d y' m' d' :
  valid_date y m d → valid_date y' m' d' →
  ymd2ord y m d = ymd2ord y' m' d' → y = y' ∧ m = m' ∧ d = d'.
Proof.
  intros V V' E.
  pose proof (ymd2ord_bounds _ _ _ V) as B.
  pose proof (ymd2ord_bounds _ _ _ V') as B'.
  destruct V as (Hy & Hm & Hd), V' as (Hy' & Hm' & Hd').
  assert (y = y') as <-.
  { destruct (Z.lt_trichotomy y y') as [Hlt | [-> | Hlt]]; [|done|].
    - pose proof (days_before_year_mono (y + 1) y' ltac:(lia) ltac:(lia)). lia.
    - pose proof (days_before_year_mono (y' + 1) y ltac:(lia) ltac:(lia)). lia. }
  unfold ymd2ord in E.
  assert (m = m') as <-.
  { destruct (Z.lt_trichotomy m m') as [Hlt | [-> | Hlt]]; [|done|].
    - pose proof (days_before_month_mono y m m' ltac:(lia) Hlt ltac:(lia)). lia.
    - pose proof (days_before_month_mono y m' m ltac:(lia) Hlt ltac:(lia)). lia. }
  repeat split. lia.
Qed.

Lemma ord2ymd_ymd2ord y m d :
  valid_date y m d → ord2ymd (ymd2ord y m d) = (y, m, d).
Proof.
  intros V. destruct (ord2ymd (ymd2ord y m d)) as [[y' m'] d'] eqn:E.
  pose proof (ymd2ord_bounds _ _ _ V) as B.
  assert (0 <= days_before_year y).
  { destruct V as (Hy & _). pose proof (days_before_year_mono 1 y ltac:(lia) Hy) as H.
    by vm_compute (days_before_year 1) in H. }
  apply ord2ymd_spec in E as (Hy' & Hm' & Hd' & E); [|lia].
  destruct (ymd2ord_inj y' m' d' y m d) as (-> & -> & ->); done.
Qed.

Lemma days_before_year_nonneg y : 1 <= y → 0 <= days_before_year y.
Proof.
  intros Hy. pose proof (days_before_year_mono 1 y ltac:(lia) Hy) as H.
  by vm_compute (days_before_year 1) in H.
Qed.

Lemma wall_us_split dt :
  0 <= hour dt < 24 → 0 <= minute dt < 60 → 0 <= second dt < 60 →
  0 <= microsecond dt < US_PER_SECOND →
  wall_us dt / US_PER_DAY = ymd2ord (year dt) (month dt) (day dt)
  ∧ wall_us dt mod US_PER_DAY
    = ((hour dt * 60 + minute dt) * 60 + second dt) * US_PER_SECOND + microsecond dt.
Proof.
  intros Hh Hm Hs Hu. unfold wall_us, US_PER_DAY, US_PER_SECOND in *.
  Z.div_mod_to_equations. lia.
Qed.

(** What [datetime.__add__] returns: the sum as a valid datetime with the
    same [tzinfo]. *)
Lemma datetime_add_Return dt td r :
  datetime_add dt td = Return r →
  wall_us r = wall_us dt + td ∧ tzinfo r = tzinfo dt ∧ valid_datetime r.
Proof.
  unfold datetime_add. cbv zeta.
  destruct ((0 <? _) && _) eqn:Hrange; [|done].
  apply andb_true_iff in Hrange as [Hlo Hhi].
  apply Z.ltb_lt in Hlo. apply Z.leb_le in Hhi.
  destruct (ord2ymd _) as [[y m] d] eqn:Hymd.
  intros [= <-].
  apply ord2ymd_spec in Hymd as (Hy & Hm & Hd & Hord); [|lia].
  assert (Hy9999 : y <= 9999).
  { destruct (Z.le_gt_cases y 9999) as [|Hgt]; [done|exfalso].
    pose proof (days_before_year_mono 10000 y ltac:(lia) ltac:(lia)) as Hmono.
    vm_compute (days_before_year 10000) in Hmono.
    pose proof (ymd2ord_bounds y m d ltac:(done)) as [Hb _].
    unfold MAXORDINAL in Hhi. lia. }
  set (total := wall_us dt + td) in *.
  pose proof (Z.div_mod total US_PER_DAY ltac:(done)) as Hdm.
  pose proof (Z.mod_pos_bound total US_PER_DAY ltac:(done)) as Hmb.
  set (days := total / US_PER_DAY) in *. set (rest := total mod US_PER_DAY) in *.
  clearbody days rest.
  unfold valid_datetime, valid_date, wall_us. simpl.
  rewrite Hord. unfold US_PER_DAY, US_PER_SECOND in *.
  repeat split; try done; try (Z.div_mod_to_equations; lia).
Qed.

(** Adding nothing to a valid datetime returns it. *)
Lemma datetime_add_0 dt : valid_datetime dt → datetime_add dt 0 = Return dt.
Proof.
  intros (Hd & Hy & Hh & Hm & Hs & Hu).
  destruct (wall_us_split dt Hh Hm Hs Hu) as [Hdays Hrest].
  unfold datetime_add. cbv zeta. rewrite Z.add_0_r, Hdays, Hrest.
  pose proof (ymd2ord_bounds _ _ _ Hd) as [Hlo Hhi].
  pose proof (days_before_year_nonneg (year dt) ltac:(destruct Hd; lia)).
  pose proof (days_before_year_mono (year dt + 1) 10000 ltac:(destruct Hd; lia) ltac:(lia))
    as Hmono.
  vm_compute (days_before_year 10000) in Hmono.
  rewrite (proj2 (Z.ltb_lt 0 _)) by lia.
  rewrite (proj2 (Z.leb_le _ MAXORDINAL)) by (unfold MAXORDINAL; lia).
  simpl andb. cbv iota. rewrite (ord2ymd_ymd2ord _ _ _ Hd).
  destruct dt as [y m d h mi s us tz]. simpl in *. f_equal. f_equal;
    unfold US_PER_SECOND in *; Z.div_mod_to_equations; lia.
Qed.

(** The result of [datetime.__add__] depends on the sum only. *)
Lemma datetime_add_same_sum dt td dt' td' :
  wall_us dt + td = wall_us dt' + td' → tzinfo dt = tzinfo dt' →
  datetime_add dt td = datetime_add dt' td'.
Proof. intros E T. unfold datetime_add. by rewrite E, T. Qed.

End Calendar.


(** ** Time zone helpers *)

Section TimeZone.

Lemma wall_us_replace_tzinfo_utc dt : wall_us (replace_tzinfo_utc dt) = wall_us dt.
Proof. reflexivity. Qed.

Lemma valid_replace_tzinfo_utc dt : valid_datetime dt → valid_datetime (replace_tzinfo_utc dt).
Proof. by destruct dt. Qed.

Lemma replace_tzinfo_utc_id dt : tzinfo dt = Some 0 → replace_tzinfo_utc dt = dt.
Proof. destruct dt as [? ? ? ? ? ? ? tz]. cbn [tzinfo]. by intros ->. Qed.

Lemma normalize_to_utc_Raise dt e : normalize_to_utc dt = Raise e → e = OverflowError.
Proof.
  unfold normalize_to_utc, astimezone_utc, datetime_add.
  destruct (tzinfo dt); [|done]. cbv zeta.
  destruct (_ && _); [by destruct (ord2ymd _) as [[? ?] ?]|]. by intros [= <-].
Qed.

Lemma normalize_to_utc_Return dt u :
  normalize_to_utc dt = Return u →
  tzinfo u = Some 0 ∧ wall_us u = utc_us dt ∧ (valid_datetime dt → valid_datetime u).
Proof.
  unfold normalize_to_utc, astimezone_utc, utc_us.
  destruct (tzinfo dt) as [off|] eqn:Htz.
  - intros (r & Hadd & [= <-])%bind_Return.
    apply datetime_add_Return in Hadd as (Hw & _ & Hv).
    rewrite wall_us_replace_tzinfo_utc, Hw.
    split; [done|]. split; [simpl; lia|]. intros _. by apply valid_replace_tzinfo_utc.
  - intros [= <-]. split; [done|].
    split; [rewrite wall_us_replace_tzinfo_utc; simpl; lia|].
    apply valid_replace_tzinfo_utc.
Qed.

(** X1.  [normalize_to_utc] keeps the instant: the result is in UTC and denotes
    the same microsecond as the argument (a naive argument being read as
    UTC); from a valid datetime it is a valid datetime. *)
Theorem normalize_to_utc_keeps_instant dt u :
  normalize_to_utc dt = Return u →
  tzinfo u = Some 0 ∧ utc_us u = utc_us dt ∧ (valid_datetime dt → valid_datetime u).
Proof.
  intros (Htz & Hw & Hv)%normalize_to_utc_Return.
  split; [done|]. split; [|done]. unfold utc_us at 1. rewrite Htz, Hw. simpl. lia.
Qed.

(** X2.  [normalize_to_utc] is idempotent on datetime objects. *)
Theorem normalize_to_utc_idempotent dt u :
  valid_datetime dt →
  normalize_to_utc dt = Return u → normalize_to_utc u = Return u.
Proof.
  intros Hv (Htz & _ & Hvu)%normalize_to_utc_Return.
  specialize (Hvu Hv).
  unfold normalize_to_utc, astimezone_utc. rewrite Htz, Z.opp_0.
  rewrite (datetime_add_0 _ Hvu), bind_Return_l.
  by rewrite (replace_tzinfo_utc_id _ Htz).
Qed.

Lemma length_fmt w n : String.length (fmt w n) = w.
Proof.
  revert n. induction w as [|w IH]; intros n; simpl; [done|].
  rewrite StrFacts.length_app, IH. simpl. lia.
Qed.

(** X3.  [format_iso_datetime] without [preserve_timezone] prints the normalized
    datetime, and the text always ends in the UTC offset: 19 characters of
    date and time, 7 more when there are microseconds, then +00:00. *)
Theorem format_iso_datetime_utc_suffix dt s :
  format_iso_datetime dt false = Return s →
  ∃ u prefix,
    normalize_to_utc dt = Return u ∧ s = isoformat u
    ∧ s = prefix +:+ "+00:00"
    ∧ String.length prefix = if microsecond u =? 0 then 19%nat else 26%nat.
Proof.
  unfold format_iso_datetime. intros (u & Hn & [= <-])%bind_Return.
  destruct (normalize_to_utc_Return _ _ Hn) as (Htz & _ & _).
  exists u, (date_isoformat (year u) (month u) (day u)
             +:+ "T" +:+ fmt 2 (hour u) +:+ ":" +:+ fmt 2 (minute u) +:+ ":"
             +:+ fmt 2 (second u)
             +:+ (if microsecond u =? 0 then "" else "." +:+ fmt 6 (microsecond u))).
  split; [done|]. split; [done|]. split.
  - unfold isoformat. rewrite Htz. change (format_offset 0) with "+00:00".
    by rewrite !StrFacts.app_assoc'.
  - unfold date_isoformat.
    destruct (microsecond u =? 0);
      rewrite !StrFacts.length_app, !length_fmt; reflexivity.
Qed.

(** X4.  [compare_datetimes] does not depend on the order of its two datetimes,
    whether it returns or raises. *)
Theorem compare_datetimes_symmetric seconds_lt dt1 dt2 tolerance_seconds :
  compare_datetimes seconds_lt dt1 dt2 tolerance_seconds
  = compare_datetimes seconds_lt dt2 dt1 tolerance_seconds.
Proof.
  unfold compare_datetimes.
  destruct (normalize_to_utc dt1) as [u1|e1] eqn:H1,
           (normalize_to_utc dt2) as [u2|e2] eqn:H2; simpl; try done.
  - unfold datetime_sub. do 2 f_equal. lia.
  - apply normalize_to_utc_Raise in H1, H2. by subst.
Qed.

(** X5.  [get_date_range] returns two datetimes with the [tzinfo] of [now] that
    lie [days_back + days_forward] whole days apart, [now] being
    [days_back] days after the first. *)
Theorem get_date_range_span now days_back days_forward start_date end_date :
  get_date_range now days_back days_forward = Return (start_date, end_date) →
  wall_us now - wall_us start_date = days_back * US_PER_DAY
  ∧ wall_us end_date - wall_us now = days_forward * US_PER_DAY
  ∧ tzinfo start_date = tzinfo now ∧ tzinfo end_date = tzinfo now
  ∧ valid_datetime start_date ∧ valid_datetime end_date.
Proof.
  unfold get_date_range.
  intros (s & Hs & H)%bind_Return. apply bind_Return in H as (e & He & [= <- <-]).
  apply datetime_add_Return in Hs as (Hs1 & Hs2 & Hs3).
  apply datetime_add_Return in He as (He1 & He2 & He3).
  split; [lia|]. split; [lia|]. done.
Qed.

End TimeZone.

(** ** Parsing *)

Section Parsing.
Variable fromisoformat : string -> option datetime.

Lemma endswith_app_char c s : Str.endswith c (s +:+ String c "") = true.
Proof.
  induction s as [|a s IH]; rewrite ?StrFacts.app_nil_l, ?StrFacts.app_cons.
  - simpl. apply Ascii.eqb_refl.
  - simpl. rewrite IH. by destruct (s +:+ String c "").
Qed.

Lemma endswith_app_nonempty c s t :
  t ≠ "" → Str.endswith c (s +:+ t) = Str.endswith c t.
Proof.
  intros Ht. induction s as [|a s IH]; rewrite ?StrFacts.app_nil_l, ?StrFacts.app_cons; [done|].
  simpl. rewrite IH. destruct (s +:+ t) eqn:E; [|done].
  destruct s; [|done]. by rewrite StrFacts.app_nil_l in E.
Qed.

Lemma replace_app c r s t :
  Str.replace c r (s +:+ t) = Str.replace c r s +:+ Str.replace c r t.
Proof.
  induction s as [|a s IH]; rewrite ?StrFacts.app_nil_l, ?StrFacts.app_cons; simpl; [done|].
  rewrite IH. destruct (Ascii.eqb a c); [by rewrite StrFacts.app_assoc'|done].
Qed.

Lemma replace_absent c r s : Str.contains c s = false → Str.replace c r s = s.
Proof.
  induction s as [|a s IH]; simpl; [done|].
  intros [Ha Hs]%orb_false_iff. by rewrite Ha, IH.
Qed.

(** X6.  A parsed datetime is always aware, and it denotes the instant of what
    [fromisoformat] read: a text without an offset is taken as UTC. *)
Theorem parse_iso_datetime_aware iso_str dt :
  parse_iso_datetime fromisoformat iso_str = Some dt →
  ∃ s dt0,
    iso_str = VStr s ∧ s ≠ ""
    ∧ fromisoformat (if Str.endswith "Z" s then Str.replace "Z" "+00:00" s else s) = Some dt0
    ∧ tzinfo dt = Some (default 0 (tzinfo dt0))
    ∧ wall_us dt = wall_us dt0 ∧ utc_us dt = utc_us dt0.
Proof.
  unfold parse_iso_datetime.
  destruct (truthy iso_str) eqn:Ht; simpl; [|done].
  destruct iso_str as [|s|z|b]; try done.
  destruct (fromisoformat _) as [dt0|] eqn:Hf; [|done].
  intros [= <-]. exists s, dt0.
  split; [done|]. split; [intros ->; done|]. split; [done|].
  unfold utc_us. destruct (tzinfo dt0) as [off|] eqn:Htz; [by rewrite Htz|].
  by cbn [tzinfo replace_tzinfo_utc default from_option].
Qed.

(** X7.  A trailing Z means +00:00: for a text without any other Z, both
    spellings parse to the same result. *)
Theorem parse_iso_datetime_Z_suffix s :
  Str.contains "Z" s = false →
  parse_iso_datetime fromisoformat (VStr (s +:+ "Z"))
  = parse_iso_datetime fromisoformat (VStr (s +:+ "+00:00")).
Proof.
  intros Hs. unfold parse_iso_datetime.
  assert (Hne : ∀ t, t ≠ "" → truthy (VStr (s +:+ t)) = true).
  { intros t Ht. simpl. destruct s; [|done]. rewrite StrFacts.app_nil_l.
    by destruct t. }
  rewrite !Hne by done. simpl negb. cbv iota.
  rewrite endswith_app_char.
  rewrite (endswith_app_nonempty _ _ "+00:00") by done.
  change (Str.endswith "Z" "+00:00") with false. cbv iota.
  rewrite replace_app, (replace_absent _ _ _ Hs). reflexivity.
Qed.

End Parsing.


(** ** More on the duplicate finder and the merge-write engine *)

Section Batches.
Variable fromisoformat : string -> option datetime.

Lemma organizer_matches_true organizer_email cell :
  organizer_matches organizer_email cell = true →
  py_or organizer_email (VStr "") = VStr (default "" cell).
Proof.
  unfold organizer_matches, py_or. destruct (truthy organizer_email).
  - destruct organizer_email; try done. by intros ->%String.eqb_eq.
  - by intros <-%String.eqb_eq.
Qed.

(** X8.  Soundness of the finder: the id it returns belongs to a stored row that
    is not the excluded one, has the subject and the source searched for and
    the same organizer (nothing and the empty string being the same), and
    whose start time parses to an instant less than 60 seconds away from the
    instant searched for. *)
Theorem find_duplicate_sound rows subject start_time organizer_email source exclude_id d :
  find_duplicate fromisoformat rows subject start_time organizer_email source exclude_id
    = Some d →
  ∃ r start_dt row_start_dt,
    In r rows ∧ row_id r = d ∧ VStr d ≠ exclude_id
    ∧ bind_text subject = Return (row_subject r) ∧ row_subject r ≠ None
    ∧ bind_text source = Return (row_source r) ∧ row_source r ≠ None
    ∧ py_or organizer_email (VStr "") = VStr (default "" (row_organizer_email r))
    ∧ parse_iso_datetime fromisoformat start_time = Some start_dt
    ∧ parse_iso_datetime fromisoformat (of_text (row_start_time r)) = Some row_start_dt
    ∧ Z.abs (utc_us start_dt - utc_us row_start_dt) < 60 * US_PER_SECOND.
Proof.
  unfold find_duplicate.
  destruct (find_duplicate_try _ _ _ _ _ _ _) as [res|e] eqn:Htry; [|done].
  intros ->. unfold find_duplicate_try in Htry.
  destruct (parse_iso_datetime _ start_time) as [start_dt|] eqn:Hparse; [|done].
  apply bind_Return in Htry as (start_utc & Hn & Htry).
  apply bind_Return in Htry as (lo & _ & Htry).
  apply bind_Return in Htry as (hi & _ & Htry).
  apply bind_Return in Htry as (p_subject & Hsub & Htry).
  apply bind_Return in Htry as (p_source & Hsrc & Htry).
  apply bind_Return in Htry as (excl & _ & Htry).
  apply scan_rows_Some in Htry
    as (r & row_dt & row_utc & Hin & Hid & Hex & Hrp & Hrn & Hdiff & Hom).
  apply In_order_by_start_time, filter_In in Hin as [Hin Hw].
  unfold in_window in Hw. repeat (apply andb_true_iff in Hw as [Hw ?]).
  apply sql_eq_true in Hw as [Hs1 [s1 Hs1']].
  match goal with H : sql_eq (row_source r) _ = true |- _ =>
    apply sql_eq_true in H as [Hs2 [s2 Hs2']] end.
  apply normalize_to_utc_Return in Hn as (Htz1 & Hw1 & _).
  apply normalize_to_utc_Return in Hrn as (Htz2 & Hw2 & _).
  exists r, start_dt, row_dt.
  split; [done|]. split; [done|]. split; [subst d; by apply id_equals_false|].
  split; [by rewrite Hs1|]. split; [by rewrite Hs1'|].
  split; [by rewrite Hs2|]. split; [by rewrite Hs2'|].
  split; [by apply organizer_matches_true|]. split; [done|]. split; [done|].
  unfold datetime_sub in Hdiff. rewrite Htz1, Htz2, Hw1, Hw2 in Hdiff.
  change (default 0 (Some 0)) with 0 in Hdiff. by rewrite !Z.sub_0_r in Hdiff.
Qed.

Lemma process_event_no_id committed rules now st event_data :
  truthy (get event_data "id" VNone) = false →
  process_event fromisoformat committed rules now st event_data = Return st.
Proof.
  intros Hid. destruct st as [[rows s] u]. unfold process_event.
  case_bool_decide; [done|]. by rewrite Hid.
Qed.

Lemma save_loop_filter_id committed rules now st evs :
  save_loop fromisoformat committed rules now st
    (List.filter (λ ev, truthy (get ev "id" VNone)) evs)
  = save_loop fromisoformat committed rules now st evs.
Proof.
  revert st. induction evs as [|ev evs IH]; intros st; [done|].
  cbn [List.filter save_loop].
  destruct (truthy (get ev "id" VNone)) eqn:Hid.
  - cbn [save_loop]. destruct (process_event _ _ _ _ _ _); [|done].
    rewrite !bind_Return_l. apply IH.
  - rewrite (process_event_no_id _ _ _ _ _ Hid), bind_Return_l. apply IH.
Qed.

Lemma save_loop_no_id committed rules now st evs :
  Forall (λ ev, truthy (get ev "id" VNone) = false) evs →
  save_loop fromisoformat committed rules now st evs = Return st.
Proof.
  induction 1 as [|ev evs Hid _ IH]; [done|].
  cbn [save_loop]. by rewrite (process_event_no_id _ _ _ _ _ Hid), bind_Return_l.
Qed.

(** X9.  Events without an id (no key, [None], the empty string, 0) and empty
    mappings are skipped silently: dropping them from a batch changes
    neither the store that results nor the counts nor an exception. *)
Theorem save_appointments_ignores_events_without_id db evs rules now :
  save_appointments fromisoformat db
    (List.filter (λ ev, truthy (get ev "id" VNone)) evs) rules now
  = save_appointments fromisoformat db evs rules now.
Proof.
  unfold save_appointments.
  destruct (List.filter _ evs) as [|ev' evs'] eqn:Hf.
  - destruct evs as [|ev evs]; [done|].
    rewrite save_loop_no_id; [by rewrite database_eta|].
    apply List.Forall_forall. intros x Hx.
    destruct (truthy (get x "id" VNone)) eqn:Hid; [|done].
    assert (In x (List.filter (λ ev, truthy (get ev "id" VNone)) (ev :: evs)))
      as Hin by (apply filter_In; done).
    by rewrite Hf in Hin.
  - rewrite <- Hf, save_loop_filter_id.
    destruct evs as [|ev evs]; [done|]. done.
Qed.

Lemma sql_update_ids rows c now key :
  List.map row_id (sql_update rows c now key) = List.map row_id rows.
Proof.
  unfold sql_update. rewrite List.map_map. apply List.map_ext.
  intros r. by destruct (sql_eq _ key).
Qed.

Lemma select_by_id_None_not_In rows k :
  select_by_id rows (Some k) = None → ¬ In k (List.map row_id rows).
Proof.
  intros Hsel (r & Hr & Hin)%in_map_iff.
  by apply (select_by_id_None _ _ Hsel r Hin).
Qed.

(** What a batch that returns leaves behind it. *)
Lemma save_loop_counts committed rules now evs rows s u rows' s' u' :
  save_loop fromisoformat committed rules now (rows, s, u) evs = Return (rows', s', u') →
  s <= s' ∧ u <= u' ∧ (s' - s) + (u' - u) <= Z.of_nat (length evs)
  ∧ Z.of_nat (length rows') = Z.of_nat (length rows) + (s' - s)
  ∧ (NoDup (List.map row_id rows) → NoDup (List.map row_id rows')).
Proof.
  revert rows s u. induction evs as [|ev evs IH]; intros rows s u Hloop.
  { injection Hloop as <- <- <-. simpl. repeat split; try lia. done. }
  cbn [save_loop] in Hloop.
  apply bind_Return in Hloop as ([[rows1 s1] u1] & Hstep & Hloop).
  apply IH in Hloop as (Hs & Hu & Hsum & Hlen & Hnd). clear IH.
  apply process_event_cases in Hstep
    as [[= -> -> ->] | [(key & c & _ & [= -> -> ->]) | (k & c & _ & _ & Hsel & [= -> -> ->])]].
  - simpl length. repeat split; try lia. done.
  - unfold sql_update in Hlen. rewrite List.length_map in Hlen.
    rewrite sql_update_ids in Hnd. simpl length. repeat split; try lia. done.
  - rewrite List.length_app in Hlen. simpl length in *.
    repeat split; try lia. intros Hnd0. apply Hnd.
    rewrite List.map_app. simpl. apply NoDup_app. repeat split; [done| |].
    + intros x Hx [->|[]]%list_elem_of_In. apply list_elem_of_In in Hx.
      by apply (select_by_id_None_not_In _ _ Hsel).
    + apply NoDup_singleton.
Qed.

(** X10.  The counts of a batch that returns: they are not negative, together
    they do not exceed the number of events, the table grows by exactly the
    number of inserts (no row is ever deleted), the suppression tables are
    not touched, and ids that were unique stay unique. *)
Theorem save_appointments_counts db evs rules now db' saved_count updated_count :
  save_appointments fromisoformat db evs rules now
    = (db', Return (saved_count, updated_count)) →
  0 <= saved_count ∧ 0 <= updated_count
  ∧ saved_count + updated_count <= Z.of_nat (length evs)
  ∧ Z.of_nat (length (appointments db')) = Z.of_nat (length (appointments db)) + saved_count
  ∧ ignored_base_ids db' = ignored_base_ids db
  ∧ ignored_event_ids db' = ignored_event_ids db
  ∧ (NoDup (List.map row_id (appointments db)) → NoDup (List.map row_id (appointments db'))).
Proof.
  unfold save_appointments. destruct evs as [|ev evs].
  { intros [= <- <- <-]. simpl. repeat split; try lia; done. }
  destruct (save_loop _ _ _ _ _ _) as [[[rows s] u]|e] eqn:Hloop; [|done].
  intros [= <- <- <-].
  apply save_loop_counts in Hloop as (Hs & Hu & Hsum & Hlen & Hnd).
  cbn [appointments ignored_base_ids ignored_event_ids].
  repeat split; try lia; done.
Qed.

(** A failing or returning batch never breaks the uniqueness of ids, and a
    failing one leaves the store as it was. *)
Lemma save_appointments_Raise db evs rules now db' e :
  save_appointments fromisoformat db evs rules now = (db', Raise e) → db' = db.
Proof.
  unfold save_appointments. destruct evs as [|ev evs]; [done|].
  destruct (save_loop _ _ _ _ _ _) as [[[rows s] u]|e']; [done|]. by intros [= <- _].
Qed.

End Batches.


(** ** Saving again, and batches of lower precedence *)

Section Resaving.
Variable fromisoformat : string -> option datetime.

Lemma select_by_id_app rows1 rows2 key :
  select_by_id (rows1 ++ rows2) key
  = match select_by_id rows1 key with
    | Some r => Some r
    | None => select_by_id rows2 key
    end.
Proof.
  unfold select_by_id. induction rows1 as [|r rows1 IH]; cbn [List.find app]; [done|].
  by destruct (sql_eq (Some (row_id r)) key).
Qed.

Lemma select_by_id_In rows r :
  In r rows → ∃ r', select_by_id rows (Some (row_id r)) = Some r'.
Proof.
  intros Hin. destruct (select_by_id rows (Some (row_id r))) as [r'|] eqn:Hsel;
    [by exists r'|].
  by destruct (select_by_id_None _ _ Hsel r Hin).
Qed.

Lemma sql_update_absent rows c now k :
  select_by_id rows (Some k) = None → sql_update rows c now (Some k) = rows.
Proof.
  intros Hsel. unfold sql_update.
  rewrite <- (List.map_id rows) at 2. apply List.map_ext_in.
  intros r Hin. simpl.
  destruct (String.eqb_spec (row_id r) k) as [E|]; [|done].
  by destruct (select_by_id_None _ _ Hsel r Hin).
Qed.

Lemma sql_update_app rows1 rows2 c now key :
  sql_update (rows1 ++ rows2) c now key
  = (sql_update rows1 c now key ++ sql_update rows2 c now key)%list.
Proof. apply List.map_app. Qed.

(** An event whose id is stored. *)
Lemma process_event_existing committed rules now rows s u event_data k existing :
  truthy (get event_data "id" VNone) = true →
  bind_text (get event_data "id" VNone) = Return (Some k) →
  select_by_id rows (Some k) = Some existing →
  process_event fromisoformat committed rules now (rows, s, u) event_data
  = if (if truthy (VStr (rules_source rules)) && truthy (of_text (row_source existing))
        then
          if precedence_get rules (rules_source rules)
             <? precedence_get rules (default "" (row_source existing))
          then true
          else if precedence_get rules (default "" (row_source existing))
                  <? precedence_get rules (rules_source rules)
          then false
          else skip_same_source rules
               && bool_decide (Some (rules_source rules) = row_source existing)
        else false)
    then Return (rows, s, u)
    else c ← bind_columns event_data;
         Return (sql_update rows c now (Some k), s, u + 1).
Proof.
  intros Hid Hk Hsel. unfold process_event.
  rewrite bool_decide_eq_false_2 by by apply truthy_id_nonempty.
  rewrite Hid, Hk. simpl negb. cbv iota. rewrite bind_Return_l, Hsel. reflexivity.
Qed.

(** X11.  Saving an event that was just inserted, again: with no rules, or with
    rules that do not skip the same source and do not rank the batch below
    the event's own source, the second call counts one update and no
    insert; the row keeps its place, its id and its [created_at] and gets
    the new [updated_at]; no second row appears. *)
Theorem saving_twice_updates db db1 event_data rules k c t1 t2 :
  bind_text (get event_data "id" VNone) = Return (Some k) →
  bind_columns event_data = Return c →
  skip_same_source (default no_rules rules) = false →
  precedence_get (default no_rules rules) (default "" (c_source c))
    <= precedence_get (default no_rules rules) (rules_source (default no_rules rules)) →
  save_appointments fromisoformat db [event_data] rules t1 = (db1, Return (1, 0)) →
  appointments db1 = (appointments db ++ [inserted_row k c t1])%list
  ∧ save_appointments fromisoformat db1 [event_data] rules t2
    = (mk_database
         (appointments db
          ++ [mk_row k (c_subject c) (c_start_time c) (c_end_time c) (c_location c)
                (c_organizer_email c) (c_organizer_name c) (c_attendees c)
                (c_body_preview c) (c_is_all_day c) (c_source c) (Some t1) (Some t2)])%list
         (ignored_base_ids db) (ignored_event_ids db),
       Return (0, 1)).
Proof.
  intros Hk Hc Hskip Hprec Hfirst.
  rewrite save_appointments_single in Hfirst.
  destruct (process_event _ _ _ _ _ _) as [[[rows1 s1] u1]|e] eqn:Hstep; [|done].
  injection Hfirst as <- -> ->.
  assert (Hid : truthy (get event_data "id" VNone) = true).
  { destruct (truthy (get event_data "id" VNone)) eqn:Hid; [done|].
    by rewrite (process_event_no_id _ _ _ _ _ _ Hid) in Hstep. }
  apply process_event_cases in Hstep
    as [[= _ ?] | [(key & c' & _ & [= _ ?]) | (k' & c' & Hc' & Hk' & Hsel & [= ->])]];
    try lia.
  rewrite Hk in Hk'. injection Hk' as <-. rewrite Hc in Hc'. injection Hc' as <-.
  cbn [appointments]. split; [done|].
  rewrite save_appointments_single. cbn [appointments ignored_base_ids ignored_event_ids].
  assert (Hsel1 : select_by_id (appointments db ++ [inserted_row k c t1]) (Some k)
                  = Some (inserted_row k c t1)).
  { rewrite select_by_id_app_None by done. simpl. by rewrite String.eqb_refl. }
  rewrite (process_event_existing _ _ _ _ _ _ _ k _ Hid Hk Hsel1).
  cbn [row_source inserted_row].
  match goal with
  | |- context [if ?cond then Return _ else _] => assert (cond = false) as ->
  end.
  { rewrite Hskip, (proj2 (Z.ltb_ge _ _) Hprec).
    by repeat match goal with |- context [if ?b then _ else _] => destruct b end. }
  rewrite Hc, bind_Return_l.
  rewrite sql_update_app, (sql_update_absent _ _ _ _ Hsel).
  unfold sql_update. simpl. by rewrite String.eqb_refl.
Qed.

Lemma process_event_unbindable_id committed rules now st event_data e :
  truthy (get event_data "id" VNone) = true →
  bind_text (get event_data "id" VNone) = Raise e →
  process_event fromisoformat committed rules now st event_data = Raise e.
Proof.
  intros Hid Hk. destruct st as [[rows s] u]. unfold process_event.
  rewrite bool_decide_eq_false_2 by by apply truthy_id_nonempty.
  by rewrite Hid, Hk.
Qed.

(** An event whose id is new and for which the finder returns nothing, or
    the empty id. *)
Lemma process_event_no_duplicate committed rules now rows s u event_data k :
  truthy (get event_data "id" VNone) = true →
  bind_text (get event_data "id" VNone) = Return (Some k) →
  select_by_id rows (Some k) = None →
  truthy (of_text (find_duplicate fromisoformat committed
    (get event_data "subject" (VStr "")) (get event_data "start_time" (VStr ""))
    (get event_data "organizer_email" (VStr "")) (get event_data "source" (VStr ""))
    (get event_data "id" VNone))) = false →
  process_event fromisoformat committed rules now (rows, s, u) event_data
  = c ← bind_columns event_data;
    Return ((rows ++ [inserted_row k c now])%list, s + 1, u).
Proof.
  intros Hid Hk Hsel Hdup. unfold process_event.
  rewrite bool_decide_eq_false_2 by by apply truthy_id_nonempty.
  rewrite Hid, Hk. simpl negb. cbv iota. rewrite bind_Return_l, Hsel. cbv zeta.
  by rewrite Hdup.
Qed.

Lemma step_keeps_outranking_rows original rules now added s u event_data st' :
  rules_source rules ≠ "" →
  (∀ r, In r original →
        ∃ src, row_source r = Some src ∧ src ≠ ""
               ∧ precedence_get rules (rules_source rules) < precedence_get rules src) →
  process_event fromisoformat original rules now ((original ++ added)%list, s, u) event_data
    = Return st' →
  ∃ added', st'.1.1 = (original ++ added')%list.
Proof.
  intros Hcur Hout Hstep.
  destruct (truthy (get event_data "id" VNone)) eqn:Hid; cycle 1.
  { rewrite (process_event_no_id _ _ _ _ _ _ Hid) in Hstep. injection Hstep as <-.
    by exists added. }
  destruct (bind_text (get event_data "id" VNone)) as [key|e] eqn:Hk; cycle 1.
  { by rewrite (process_event_unbindable_id _ _ _ _ _ _ Hid Hk) in Hstep. }
  destruct (truthy_binds_to_text _ _ Hid Hk) as [k ->].
  assert (Hskip : ∀ r, In r original →
            truthy (VStr (rules_source rules)) && truthy (of_text (row_source r)) = true
            ∧ (precedence_get rules (rules_source rules)
               <? precedence_get rules (default "" (row_source r))) = true).
  { intros r (src & -> & Hsrc & Hlt)%Hout. simpl of_text. simpl default.
    rewrite !truthy_VStr by done. split; [done|]. by apply Z.ltb_lt. }
  destruct (select_by_id (original ++ added) (Some k)) as [existing|] eqn:Hsel.
  - rewrite (process_event_existing _ _ _ _ _ _ _ _ _ Hid Hk Hsel) in Hstep.
    rewrite select_by_id_app in Hsel.
    destruct (select_by_id original (Some k)) as [e0|] eqn:Hsel0.
    + injection Hsel as <-. apply select_by_id_Some in Hsel0 as [Hin _].
      destruct (Hskip _ Hin) as [Ha Hb]. rewrite Ha, Hb in Hstep.
      injection Hstep as <-. by exists added.
    + match type of Hstep with (if ?b then _ else _) = _ => destruct b end.
      * injection Hstep as <-. by exists added.
      * apply bind_Return in Hstep as (c & _ & [= <-]).
        exists (sql_update added c now (Some k)). simpl.
        by rewrite sql_update_app, (sql_update_absent _ _ _ _ Hsel0).
  - destruct (truthy (of_text (find_duplicate fromisoformat original
      (get event_data "subject" (VStr "")) (get event_data "start_time" (VStr ""))
      (get event_data "organizer_email" (VStr "")) (get event_data "source" (VStr ""))
      (get event_data "id" VNone)))) eqn:Hdup.
    + destruct (find_duplicate _ _ _ _ _ _ _) as [d|] eqn:Hd; [|done].
      assert (d ≠ "") as Hne by (intros ->; done).
      rewrite (process_event_duplicate _ _ _ _ _ _ _ _ k d Hid Hk Hsel Hd Hne) in Hstep.
      apply find_duplicate_Some in Hd as (r & _ & _ & Hin & Hrid & _).
      destruct (select_by_id_In _ _ Hin) as [r' Hsel'].
      rewrite Hrid in Hsel'. cbv zeta in Hstep.
      rewrite select_by_id_app, Hsel' in Hstep.
      apply select_by_id_Some in Hsel' as [Hin' _].
      destruct (Hskip _ Hin') as [Ha Hb]. rewrite Ha, Hb in Hstep.
      injection Hstep as <-. by exists added.
    + rewrite (process_event_no_duplicate _ _ _ _ _ _ _ _ Hid Hk Hsel Hdup) in Hstep.
      apply bind_Return in Hstep as (c & _ & [= <-]).
      exists (added ++ [inserted_row k c now])%list. simpl. by rewrite app_assoc.
Qed.

(** X12.  A batch never touches a stored row that outranks it: when the batch has
    a source and every stored row has a source of strictly higher priority,
    a batch that returns leaves all stored rows exactly as they were, in
    place; whatever it wrote is in rows after them. *)
Theorem lower_precedence_batch_keeps_stored_rows db evs rules now db' counts :
  rules_source rules ≠ "" →
  (∀ r, In r (appointments db) →
        ∃ src, row_source r = Some src ∧ src ≠ ""
               ∧ precedence_get rules (rules_source rules) < precedence_get rules src) →
  save_appointments fromisoformat db evs (Some rules) now = (db', Return counts) →
  ∃ added, appointments db' = (appointments db ++ added)%list.
Proof.
  intros Hcur Hout. unfold save_appointments. destruct evs as [|ev evs].
  { intros [= <- _]. exists []. by rewrite app_nil_r. }
  destruct (save_loop _ _ _ _ _ _) as [[[rows s] u]|e] eqn:Hloop; [|done].
  intros [= <- _]. cbn [appointments]. simpl default in Hloop.
  assert (Hgen : ∀ evs added s0 u0 rows' s' u',
    save_loop fromisoformat (appointments db) rules now
      ((appointments db ++ added)%list, s0, u0) evs = Return (rows', s', u') →
    ∃ added', rows' = (appointments db ++ added')%list).
  { clear Hloop. intros evs0.
    induction evs0 as [|ev0 evs0 IH]; intros added s0 u0 rows' s' u' Hloop.
    - injection Hloop as <- _ _. by exists added.
    - cbn [save_loop] in Hloop.
      apply bind_Return in Hloop as ([[rows1 s1] u1] & Hstep & Hloop).
      apply step_keeps_outranking_rows in Hstep as [added1 Hadded]; [|done..].
      simpl in Hadded. subst rows1. by apply IH in Hloop. }
  apply (Hgen (ev :: evs) [] 0 0 rows s u). by rewrite app_nil_r.
Qed.

End Resaving.


(** ** Order of strings and sorting *)

Section Sorting.

Lemma leb_refl s : Str.leb s s = true.
Proof. induction s as [|a s IH]; simpl; [done|]. by rewrite Z.ltb_irrefl. Qed.

Lemma leb_total s t : Str.leb s t = false → Str.leb t s = true.
Proof.
  revert t. induction s as [|a s IH]; intros [|b t]; simpl; try done.
  destruct (Z.ltb_spec (Str.code a) (Str.code b)); [done|].
  destruct (Z.ltb_spec (Str.code b) (Str.code a)); [done|]. apply IH.
Qed.

Lemma leb_trans s t u : Str.leb s t = true → Str.leb t u = true → Str.leb s u = true.
Proof.
  revert t u. induction s as [|a s IH]; intros [|b t] [|c u]; simpl; try done.
  destruct (Z.ltb_spec (Str.code a) (Str.code b)),
           (Z.ltb_spec (Str.code b) (Str.code a)),
           (Z.ltb_spec (Str.code b) (Str.code c)),
           (Z.ltb_spec (Str.code c) (Str.code b)),
           (Z.ltb_spec (Str.code a) (Str.code c)),
           (Z.ltb_spec (Str.code c) (Str.code a)); try done; try lia.
  apply IH.
Qed.

Lemma code_inj a b : Str.code a = Str.code b → a = b.
Proof.
  unfold Str.code. intros H. apply N2Z.inj in H.
  rewrite <- (ascii_N_embedding a), <- (ascii_N_embedding b). by rewrite H.
Qed.

Lemma leb_antisym s t : Str.leb s t = true → Str.leb t s = true → s = t.
Proof.
  revert t. induction s as [|a s IH]; intros [|b t]; simpl; try done.
  destruct (Z.ltb_spec (Str.code a) (Str.code b)),
           (Z.ltb_spec (Str.code b) (Str.code a)); try done; try lia.
  intros H1 H2. f_equal; [apply code_inj; lia|by apply IH].
Qed.

Context {A : Type} (le : A → A → bool).
Hypothesis le_total : ∀ x y, le x y = false → le y x = true.
Hypothesis le_trans : ∀ x y z, le x y = true → le y z = true → le x z = true.

Lemma insert_by_In x y l : In y (insert_by le x l) ↔ y = x ∨ In y l.
Proof.
  induction l as [|z l IH]; simpl; [intuition congruence|].
  destruct (le x z); simpl; [intuition congruence|]. rewrite IH. intuition congruence.
Qed.

Lemma insert_by_Permutation x l : Permutation (insert_by le x l) (x :: l).
Proof.
  induction l as [|z l IH]; simpl; [done|].
  destruct (le x z); [done|]. rewrite IH. apply perm_swap.
Qed.

Lemma sort_by_Permutation l : Permutation (sort_by le l) l.
Proof.
  unfold sort_by. induction l as [|x l IH]; simpl; [done|].
  by rewrite insert_by_Permutation, IH.
Qed.

Lemma insert_by_sorted x l :
  StronglySorted (λ a b, le a b = true) l →
  StronglySorted (λ a b, le a b = true) (insert_by le x l).
Proof.
  induction 1 as [|z l Hs IH Hz]; simpl; [by repeat constructor|].
  destruct (le x z) eqn:Hxz.
  - constructor; [by constructor|]. constructor; [done|].
    eapply List.Forall_impl; [|exact Hz]. intros w Hw. by eapply le_trans.
  - constructor; [done|]. apply List.Forall_forall. intros w Hw.
    apply insert_by_In in Hw as [->|Hw]; [by apply le_total|].
    by apply (proj1 (List.Forall_forall _ _) Hz).
Qed.

Lemma sort_by_sorted l : StronglySorted (λ a b, le a b = true) (sort_by le l).
Proof.
  unfold sort_by. induction l as [|x l IH]; simpl; [constructor|].
  by apply insert_by_sorted.
Qed.

End Sorting.

Lemma StronglySorted_filter {A} (R : A → A → Prop) (p : A → bool) l :
  StronglySorted R l → StronglySorted R (List.filter p l).
Proof.
  induction 1 as [|x l Hs IH Hx]; simpl; [constructor|].
  destruct (p x); [|done]. constructor; [done|].
  apply List.Forall_forall. intros y [Hy _]%filter_In.
  by apply (proj1 (List.Forall_forall _ _) Hx).
Qed.

Lemma StronglySorted_map {A B} (R : B → B → Prop) (f : A → B) l :
  StronglySorted (λ a b, R (f a) (f b)) l → StronglySorted R (List.map f l).
Proof.
  induction 1 as [|x l Hs IH Hx]; simpl; constructor; [done|].
  apply List.Forall_forall. intros y (z & <- & Hz)%in_map_iff.
  by apply (proj1 (List.Forall_forall _ _) Hx).
Qed.

Lemma StronglySorted_weaken {A} (R1 R2 : A → A → Prop) l :
  (∀ a b, R1 a b → R2 a b) → StronglySorted R1 l → StronglySorted R2 l.
Proof.
  intros HR. induction 1 as [|x l Hs IH Hx]; constructor; [done|].
  eapply List.Forall_impl; [|exact Hx]. intros y. apply HR.
Qed.

Lemma filter_map_comm {A B} (p : B → bool) (f : A → B) l :
  List.filter p (List.map f l) = List.map f (List.filter (λ x, p (f x)) l).
Proof.
  induction l as [|x l IH]; simpl; [done|]. destruct (p (f x)); simpl; by rewrite IH.
Qed.

Lemma filter_filter_and {A} (p q : A → bool) l :
  List.filter p (List.filter q l) = List.filter (λ x, q x && p x) l.
Proof.
  induction l as [|x l IH]; simpl; [done|].
  destruct (q x); simpl; [destruct (p x)|]; by rewrite IH.
Qed.

Lemma filter_Permutation' {A} (p : A → bool) l l' :
  Permutation l l' → Permutation (List.filter p l) (List.filter p l').
Proof.
  induction 1 as [|x l l' _ IH|x y l|l l' l'' _ IH1 _ IH2]; simpl; [done| | |].
  - destruct (p x); [by constructor|done].
  - destruct (p x), (p y); try done. apply perm_swap.
  - by etransitivity.
Qed.

(** ** More on the event query *)

Section Listing.

Lemma order_by_start_time_sort_by rows :
  order_by_start_time rows
  = sort_by (λ r x, Str.leb (default "" (row_start_time r)) (default "" (row_start_time x)))
      rows.
Proof.
  unfold order_by_start_time, sort_by.
  induction rows as [|r rows IH]; simpl; [done|]. rewrite IH.
  generalize (fold_right
    (insert_by (λ r x, Str.leb (default "" (row_start_time r))
                         (default "" (row_start_time x)))) [] rows).
  intros l. induction l as [|y l IHl]; simpl; [done|]. by rewrite IHl.
Qed.

Lemma text_of_of_text c : text_of (of_text c) = default "" c.
Proof. by destruct c. Qed.

(** What [query_events] returns, as a function of the store. *)
Lemma query_events_Return db now days_back days_ahead source evs :
  query_events db now days_back days_ahead source = Return evs →
  ∃ lo hi sp,
    date_window now days_back days_ahead = Return (lo, hi)
    ∧ source_filter source = Return sp
    ∧ evs = List.map appointment_of_row
              (List.filter (visible (get_ignored_base_ids db) (get_ignored_event_ids db))
                 (order_by_start_time
                    (List.filter (selected lo hi sp) (appointments db)))).
Proof.
  unfold query_events. intros H.
  apply bind_Return in H as ([lo hi] & Hw & H).
  apply bind_Return in H as (sp & Hsp & [= <-]).
  by exists lo, hi, sp.
Qed.

(** X13.  The result is in the ascending order of the start time strings, the
    order of SQLite's BINARY collation. *)
Theorem query_events_sorted db now days_back days_ahead source evs :
  query_events db now days_back days_ahead source = Return evs →
  StronglySorted
    (λ a b, Str.leb (text_of (a_start_time a)) (text_of (a_start_time b)) = true) evs.
Proof.
  intros (lo & hi & sp & _ & _ & ->)%query_events_Return.
  apply StronglySorted_map, StronglySorted_filter.
  rewrite order_by_start_time_sort_by.
  eapply StronglySorted_weaken; [|apply sort_by_sorted].
  - intros a b Hab. cbn [a_start_time appointment_of_row]. by rewrite !text_of_of_text.
  - intros x y. apply leb_total.
  - intros x y z. apply leb_trans.
Qed.

(** X14.  With a source given, every appointment returned has that source. *)
Theorem query_events_source_filter db now days_back days_ahead s evs a :
  s ≠ "" →
  query_events db now days_back days_ahead (VStr s) = Return evs →
  In a evs → a_source a = VStr s.
Proof.
  intros Hs Hq Hin.
  apply (query_events_In _ _ _ _ _ _ _ Hq) in Hin
    as (lo & hi & sp & r & _ & Hsp & _ & Hsel & _ & ->).
  unfold source_filter in Hsp. rewrite (truthy_VStr _ Hs) in Hsp.
  injection Hsp as <-.
  unfold selected in Hsel. apply andb_true_iff in Hsel as [_ Hsrc].
  apply sql_eq_true in Hsrc as [Hsrc _].
  cbn [a_source appointment_of_row]. rewrite Hsrc. unfold py_or.
  change (of_text (Some s)) with (VStr s). by rewrite (truthy_VStr _ Hs).
Qed.

(** X15.  Every stored row that the date window and the source filter select and
    that is not suppressed is returned exactly once, and nothing else is:
    the result is a rearrangement of those rows. *)
Theorem query_events_exactly_once db now days_back days_ahead source evs :
  query_events db now days_back days_ahead source = Return evs →
  ∃ lo hi sp,
    date_window now days_back days_ahead = Return (lo, hi)
    ∧ source_filter source = Return sp
    ∧ Permutation evs
        (List.map appointment_of_row
           (List.filter
              (λ r, selected lo hi sp r
                    && visible (get_ignored_base_ids db) (get_ignored_event_ids db) r)
              (appointments db))).
Proof.
  intros (lo & hi & sp & Hw & Hsp & ->)%query_events_Return.
  exists lo, hi, sp. split; [done|]. split; [done|].
  apply Permutation_map. rewrite <- filter_filter_and.
  apply filter_Permutation'. rewrite order_by_start_time_sort_by.
  apply sort_by_Permutation.
Qed.

Lemma visible_add_ignored_event_id db key subject start_time reason t r :
  visible (get_ignored_base_ids (add_ignored_event_id db key subject start_time reason t))
    (get_ignored_event_ids (add_ignored_event_id db key subject start_time reason t)) r
  = visible (get_ignored_base_ids db) (get_ignored_event_ids db) r
    && negb (String.eqb (row_id r) key).
Proof.
  unfold visible, get_ignored_base_ids, get_ignored_event_ids, add_ignored_event_id.
  cbn [ignored_base_ids ignored_event_ids]. rewrite dom_insert_L.
  destruct (String.eqb_spec (row_id r) key) as [->|Hne].
  - rewrite bool_decide_eq_true_2 by set_solver. simpl. by rewrite andb_false_r.
  - rewrite andb_true_r. do 2 f_equal. apply bool_decide_ext.
    rewrite elem_of_union, elem_of_singleton. tauto.
Qed.

Lemma visible_add_ignored_base_id db key subject reason t r :
  visible (get_ignored_base_ids (add_ignored_base_id db key subject reason t))
    (get_ignored_event_ids (add_ignored_base_id db key subject reason t)) r
  = visible (get_ignored_base_ids db) (get_ignored_event_ids db) r
    && negb (String.eqb (get_base_id_from_event_id (row_id r)) key).
Proof.
  unfold visible, get_ignored_base_ids, get_ignored_event_ids, add_ignored_base_id.
  cbn [ignored_base_ids ignored_event_ids]. rewrite dom_insert_L.
  destruct (String.eqb_spec (get_base_id_from_event_id (row_id r)) key) as [->|Hne].
  - rewrite (bool_decide_eq_true_2 (_ ∈ {[_]} ∪ _)) by set_solver.
    simpl. by rewrite !andb_false_r.
  - rewrite andb_true_r. do 2 f_equal. apply bool_decide_ext.
    rewrite elem_of_union, elem_of_singleton. tauto.
Qed.

(** X16.  Suppressing one occurrence removes the appointments with that id from
    the result of every query and changes nothing else, the order
    included; suppressing a series removes exactly the appointments whose
    base id it is. *)
Theorem suppression_filters_results db now days_back days_ahead source evs
    key subject start_time reason t :
  query_events db now days_back days_ahead source = Return evs →
  query_events (add_ignored_event_id db key subject start_time reason t)
    now days_back days_ahead source
  = Return (List.filter (λ a, negb (String.eqb (text_of (a_id a)) key)) evs)
  ∧ query_events (add_ignored_base_id db key subject reason t)
      now days_back days_ahead source
    = Return (List.filter
                (λ a, negb (String.eqb (get_base_id_from_event_id (text_of (a_id a))) key))
                evs).
Proof.
  intros (lo & hi & sp & Hw & Hsp & ->)%query_events_Return.
  unfold query_events. rewrite Hw, !bind_Return_l, Hsp, !bind_Return_l.
  split; f_equal; rewrite filter_map_comm, filter_filter_and; f_equal;
    apply List.filter_ext; intros r.
  - apply visible_add_ignored_event_id.
  - apply visible_add_ignored_base_id.
Qed.

End Listing.


(** ** The date window of the query *)

Section Window.

Lemma code_digit_char n : Str.code (digit_char n) = 48 + n mod 10.
Proof.
  unfold Str.code, digit_char.
  pose proof (Z.mod_pos_bound n 10 ltac:(lia)) as Hb.
  rewrite N_ascii_embedding by lia. lia.
Qed.

Lemma leb_cons_same c s t : Str.leb (String c s) (String c t) = Str.leb s t.
Proof. simpl. by rewrite Z.ltb_irrefl. Qed.

(** Zero-padded numbers of the same width compare as the numbers do. *)
Lemma leb_fmt w a b s t :
  0 <= a < 10 ^ Z.of_nat w → 0 <= b < 10 ^ Z.of_nat w →
  Str.leb (fmt w a +:+ s) (fmt w b +:+ t)
  = if a <? b then true else if b <? a then false else Str.leb s t.
Proof.
  revert a b s t. induction w as [|w IH]; intros a b s t Ha Hb.
  - simpl in Ha, Hb. assert (a = 0) as -> by lia. assert (b = 0) as -> by lia. done.
  - rewrite Nat2Z.inj_succ, Z.pow_succ_r in Ha, Hb by lia.
    cbn [fmt]. rewrite !StrFacts.app_assoc'. rewrite !StrFacts.app_cons, !StrFacts.app_nil_l.
    rewrite IH by (Z.div_mod_to_equations; lia).
    cbn [Str.leb]. rewrite !code_digit_char.
    repeat match goal with
           | |- context [?x <? ?y] => destruct (Z.ltb_spec x y)
           end; try done; exfalso; Z.div_mod_to_equations; lia.
Qed.

Lemma ymd2ord_lt y m d y' m' d' :
  valid_date y m d → valid_date y' m' d' →
  (ymd2ord y m d < ymd2ord y' m' d'
   ↔ y < y' ∨ (y = y' ∧ (m < m' ∨ (m = m' ∧ d < d')))).
Proof.
  intros V V'.
  pose proof (ymd2ord_bounds _ _ _ V) as B.
  pose proof (ymd2ord_bounds _ _ _ V') as B'.
  destruct V as (Hy & Hm & Hd), V' as (Hy' & Hm' & Hd').
  destruct (Z.lt_trichotomy y y') as [Hlt | [-> | Hlt]].
  - pose proof (days_before_year_mono (y + 1) y' ltac:(lia) ltac:(lia)). lia.
  - unfold ymd2ord.
    destruct (Z.lt_trichotomy m m') as [Hmlt | [-> | Hmlt]].
    + pose proof (days_before_month_mono y' m m' ltac:(lia) Hmlt ltac:(lia)). lia.
    + lia.
    + pose proof (days_before_month_mono y' m' m ltac:(lia) Hmlt ltac:(lia)). lia.
  - pose proof (days_before_year_mono (y' + 1) y ltac:(lia) ltac:(lia)). lia.
Qed.

(** ISO dates compare as text the way the days they name follow each other. *)
Lemma leb_date_isoformat y m d y' m' d' :
  valid_date y m d → y <= 9999 → valid_date y' m' d' → y' <= 9999 →
  Str.leb (date_isoformat y m d) (date_isoformat y' m' d')
  = (ymd2ord y m d <=? ymd2ord y' m' d').
Proof.
  intros V Hy V' Hy'.
  pose proof (ymd2ord_lt _ _ _ _ _ _ V' V) as Hlt.
  assert (Hdim : ∀ yy mm, days_in_month yy mm <= 31).
  { intros yy mm. unfold days_in_month.
    destruct (mm =? 2); [by destruct (is_leap yy)|]. by destruct (_ || _). }
  pose proof (Hdim y m). pose proof (Hdim y' m').
  destruct V as (Hy1 & Hm & Hd), V' as (Hy1' & Hm' & Hd').
  unfold date_isoformat.
  rewrite leb_fmt by (simpl; lia).
  change ("-" +:+ ?x) with (String "-" x). rewrite leb_cons_same.
  rewrite leb_fmt by (simpl; lia).
  change ("-" +:+ ?x) with (String "-" x). rewrite leb_cons_same.
  rewrite <- (StrFacts.app_nil_r' (fmt 2 d)), <- (StrFacts.app_nil_r' (fmt 2 d')).
  rewrite leb_fmt by (simpl; lia).
  change (Str.leb "" "") with true.
  destruct (Z.leb_spec (ymd2ord y m d) (ymd2ord y' m' d'));
    repeat match goal with
           | |- context [?x <? ?z] => destruct (Z.ltb_spec x z)
           end; try done; exfalso; lia.
Qed.

Lemma length_date_isoformat y m d : String.length (date_isoformat y m d) = 10%nat.
Proof. unfold date_isoformat. by rewrite !StrFacts.length_app, !length_fmt. Qed.

Lemma ord2ymd_valid n :
  1 <= n <= MAXORDINAL →
  ∃ y m d, ord2ymd n = (y, m, d) ∧ valid_date y m d ∧ y <= 9999 ∧ ymd2ord y m d = n.
Proof.
  intros Hn. destruct (ord2ymd n) as [[y m] d] eqn:E.
  apply ord2ymd_spec in E as (Hy & Hm & Hd & Hord); [|lia].
  exists y, m, d. split; [done|]. split; [done|]. split; [|done].
  destruct (Z.le_gt_cases y 9999) as [|Hgt]; [done|exfalso].
  pose proof (days_before_year_mono 10000 y ltac:(lia) ltac:(lia)) as Hmono.
  vm_compute (days_before_year 10000) in Hmono.
  pose proof (ymd2ord_bounds y m d ltac:(done)) as [Hb _].
  unfold MAXORDINAL in Hn. lia.
Qed.

(** [(now + timedelta(days=n)).date()] is [n] days after today, or the sum
    overflows. *)
Lemma datetime_add_cases dt td :
  (∃ r, datetime_add dt td = Return r
        ∧ 0 < (wall_us dt + td) / US_PER_DAY <= MAXORDINAL)
  ∨ (datetime_add dt td = Raise OverflowError
     ∧ ¬ 0 < (wall_us dt + td) / US_PER_DAY <= MAXORDINAL).
Proof.
  unfold datetime_add. cbv zeta.
  destruct (Z.ltb_spec 0 ((wall_us dt + td) / US_PER_DAY)),
           (Z.leb_spec ((wall_us dt + td) / US_PER_DAY) MAXORDINAL);
    cbn [andb]; [left|right; split; [done|lia]..].
  destruct (ord2ymd _) as [[y m] d]. eexists. split; [reflexivity|lia].
Qed.

Lemma date_after_spec now n :
  valid_datetime now →
  date_after now n
  = let today := ymd2ord (year now) (month now) (day now) in
    if (0 <? today + n) && (today + n <=? MAXORDINAL)
    then Return (today + n) else Raise OverflowError.
Proof.
  intros (Hd & Hy & Hh & Hm & Hs & Hu). cbv zeta.
  destruct (wall_us_split now Hh Hm Hs Hu) as [Hdays _].
  unfold date_after.
  assert (Hdiv : (wall_us now + n * US_PER_DAY) / US_PER_DAY
                 = ymd2ord (year now) (month now) (day now) + n).
  { rewrite Z.div_add by done. by rewrite Hdays. }
  destruct (datetime_add_cases now (n * US_PER_DAY)) as [(r & Hadd & Hr) | [Hadd Hr]];
    rewrite Hadd; rewrite Hdiv in Hr.
  - rewrite bind_Return_l.
    rewrite (proj2 (Z.ltb_lt _ _)), (proj2 (Z.leb_le _ _)) by lia. cbn [andb].
    apply datetime_add_Return in Hadd as (Hw & _ & Hv).
    destruct Hv as (_ & _ & Hh' & Hm' & Hs' & Hu').
    destruct (wall_us_split r Hh' Hm' Hs' Hu') as [Hdays' _].
    unfold mret, result_ret. f_equal. rewrite <- Hdays', Hw. exact Hdiv.
  - destruct (Z.ltb_spec 0 (ymd2ord (year now) (month now) (day now) + n)),
             (Z.leb_spec (ymd2ord (year now) (month now) (day now) + n) MAXORDINAL);
      cbn [andb]; try done. lia.
Qed.

(** The window of a query, from the ordinal of today: its first day is
    [days_back] days before today, and the day it excludes is the one after
    today plus [days_ahead]; when one of these days, or today plus
    [days_ahead], is not in years 1 to 9999, OverflowError. *)
Lemma date_window_spec now days_back days_ahead :
  valid_datetime now →
  date_window now days_back days_ahead
  = let today := ymd2ord (year now) (month now) (day now) in
    if (0 <? today - days_back) && (today - days_back <=? MAXORDINAL)
       && (0 <? today + days_ahead) && (today + days_ahead + 1 <=? MAXORDINAL)
    then Return (ordinal_isoformat (today - days_back),
                 ordinal_isoformat (today + days_ahead + 1))
    else Raise OverflowError.
Proof.
  intros Hv. unfold date_window. rewrite !date_after_spec by done. cbv zeta.
  replace (ymd2ord (year now) (month now) (day now) + - days_back)
    with (ymd2ord (year now) (month now) (day now) - days_back) by lia.
  set (today := ymd2ord (year now) (month now) (day now)).
  unfold date_add.
  destruct (Z.ltb_spec 0 (today - days_back)),
           (Z.leb_spec (today - days_back) MAXORDINAL); simpl; try done;
  destruct (Z.ltb_spec 0 (today + days_ahead)),
           (Z.leb_spec (today + days_ahead) MAXORDINAL); simpl; try done;
  destruct (Z.ltb_spec 0 (today + days_ahead + 1)),
           (Z.leb_spec (today + days_ahead + 1) MAXORDINAL); simpl; try done; lia.
Qed.

(** X17.  The query window, day by day: a row whose start time begins with the
    ISO date of a day passes the date test of the query exactly when that
    day is not more than [days_back] days before today and not more than
    [days_ahead] days after it. *)
Theorem query_window_by_date now days_back days_ahead lo hi r y m d rest :
  valid_datetime now →
  date_window now days_back days_ahead = Return (lo, hi) →
  valid_date y m d → y <= 9999 →
  row_start_time r = Some (date_isoformat y m d +:+ rest) →
  selected lo hi None r = true
  ↔ ymd2ord (year now) (month now) (day now) - days_back <= ymd2ord y m d
    ∧ ymd2ord y m d <= ymd2ord (year now) (month now) (day now) + days_ahead.
Proof.
  intros Hv Hw Hd Hy Hstart.
  rewrite date_window_spec in Hw by done. cbv zeta in Hw.
  set (today := ymd2ord (year now) (month now) (day now)) in *.
  destruct (_ && _) eqn:Hrange; [|done]. injection Hw as <- <-.
  repeat (apply andb_true_iff in Hrange as [Hrange ?]).
  repeat match goal with
         | H : (_ <? _) = true |- _ => apply Z.ltb_lt in H
         | H : (_ <=? _) = true |- _ => apply Z.leb_le in H
         end.
  destruct (ord2ymd_valid (today - days_back) ltac:(lia))
    as (y1 & m1 & d1 & E1 & V1 & Y1 & O1).
  destruct (ord2ymd_valid (today + days_ahead + 1) ltac:(lia))
    as (y2 & m2 & d2 & E2 & V2 & Y2 & O2).
  unfold selected, substr_1_10, ordinal_isoformat. rewrite Hstart, E1, E2.
  cbn [fmap option_fmap option_map sql_ge sql_lt].
  rewrite <- (length_date_isoformat y m d), StrFacts.take_app.
  unfold Str.ltb. rewrite !leb_date_isoformat by done.
  rewrite O1, O2, andb_true_r.
  destruct (Z.leb_spec (today - days_back) (ymd2ord y m d)),
           (Z.leb_spec (today + days_ahead + 1) (ymd2ord y m d)); simpl; split;
    try done; try lia; intros [? ?]; lia.
Qed.

(** X18.  A query returns exactly when its window stays in years 1 to 9999 (and
    the source, when given, can be bound); otherwise it raises, whatever
    the store holds. *)
Theorem query_events_returns_iff db now days_back days_ahead source :
  valid_datetime now →
  source ≠ VObj true →
  (∃ evs, query_events db now days_back days_ahead source = Return evs)
  ↔ 1 <= ymd2ord (year now) (month now) (day now) - days_back <= MAXORDINAL
    ∧ 1 <= ymd2ord (year now) (month now) (day now) + days_ahead
    ∧ ymd2ord (year now) (month now) (day now) + days_ahead + 1 <= MAXORDINAL.
Proof.
  intros Hv Hsrc. unfold query_events. rewrite date_window_spec by done. cbv zeta.
  set (today := ymd2ord (year now) (month now) (day now)).
  destruct (_ && _) eqn:Hrange.
  - repeat (apply andb_true_iff in Hrange as [Hrange ?]).
    repeat match goal with
           | H : (_ <? _) = true |- _ => apply Z.ltb_lt in H
           | H : (_ <=? _) = true |- _ => apply Z.leb_le in H
           end.
    split; [intros _; lia|intros _].
    rewrite bind_Return_l.
    assert (∃ sp, source_filter source = Return sp) as [sp ->].
    { unfold source_filter.
      destruct source as [|s|z|[|]]; [| | |by destruct Hsrc|]; cbn [truthy];
        try destruct (negb _); cbn [bind_text]; rewrite ?bind_Return_l; by eexists. }
    rewrite bind_Return_l. by eexists.
  - split; [by intros [evs ?]|]. intros Hin. exfalso.
    repeat (apply andb_false_iff in Hrange as [Hrange|Hrange]);
    repeat match goal with
           | H : (_ <? _) = false |- _ => apply Z.ltb_ge in H
           | H : (_ <=? _) = false |- _ => apply Z.leb_gt in H
           end; lia.
Qed.

End Window.


(** ** The suppression lists *)

Section Lists.

Lemma In_map_to_list_fmap {V B} (f : string * V → B) (m : gmap string V) (x : B) :
  In x (f <$> map_to_list m) ↔ ∃ k v, m !! k = Some v ∧ x = f (k, v).
Proof.
  rewrite <- list_elem_of_In, list_elem_of_fmap. split.
  - intros ([k v] & -> & Hkv%elem_of_map_to_list). by exists k, v.
  - intros (k & v & Hkv & ->). exists (k, v). split; [done|].
    by apply elem_of_map_to_list.
Qed.

(** X19.  [get_ignored_base_ids_list] lists every suppressed series once, with the
    subject and the time stored for it, most recently suppressed first; its
    ids are those of [get_ignored_base_ids]. *)
Theorem get_ignored_base_ids_list_spec db :
  StronglySorted (λ a b, Str.leb (ibe_ignored_at b) (ibe_ignored_at a) = true)
    (get_ignored_base_ids_list db)
  ∧ NoDup (List.map ibe_base_id (get_ignored_base_ids_list db))
  ∧ (∀ base_id subject ignored_at,
       In (mk_ignored_base_entry base_id subject ignored_at) (get_ignored_base_ids_list db)
       ↔ ∃ reason, ignored_base_ids db !! base_id
                   = Some (mk_ignored_base subject ignored_at reason))
  ∧ (∀ base_id,
       In base_id (List.map ibe_base_id (get_ignored_base_ids_list db))
       ↔ base_id ∈ get_ignored_base_ids db).
Proof.
  unfold get_ignored_base_ids_list.
  set (f := λ kv : string * ignored_base,
              mk_ignored_base_entry kv.1 (ib_subject kv.2) (ib_ignored_at kv.2)).
  set (le := λ a b, Str.leb (ibe_ignored_at b) (ibe_ignored_at a)).
  pose proof (sort_by_Permutation le (f <$> map_to_list (ignored_base_ids db))) as Hperm.
  assert (Hin : ∀ x, In x (sort_by le (f <$> map_to_list (ignored_base_ids db)))
                     ↔ ∃ k v, ignored_base_ids db !! k = Some v ∧ x = f (k, v)).
  { intros x. rewrite <- In_map_to_list_fmap. split; apply Permutation_in; [done|].
    by symmetry. }
  split; [|split; [|split]].
  - apply sort_by_sorted.
    + intros x y. apply leb_total.
    + intros x y z H1 H2. by apply (leb_trans _ _ _ H2 H1).
  - rewrite Hperm. change (List.map ibe_base_id (f <$> ?l)) with (ibe_base_id <$> (f <$> l)).
    rewrite <- list_fmap_compose.
    rewrite (list_fmap_ext (ibe_base_id ∘ f) fst _) by done.
    apply NoDup_fst_map_to_list.
  - intros b s t. rewrite Hin. split.
    + intros (k & [s' t' reason] & Hkv & [= -> -> ->]). by exists reason.
    + intros (reason & Hb). by exists b, (mk_ignored_base s t reason).
  - intros b. rewrite in_map_iff. unfold get_ignored_base_ids.
    rewrite elem_of_dom. split.
    + intros (x & <- & (k & v & Hkv & ->)%Hin). by exists v.
    + intros [v Hv]. exists (f (b, v)). split; [done|]. apply Hin. by exists b, v.
Qed.

(** X20.  [get_ignored_event_ids_list] lists every suppressed occurrence once,
    with the subject, the start time and the time stored for it, most
    recently suppressed first; its ids are those of [get_ignored_event_ids]. *)
Theorem get_ignored_event_ids_list_spec db :
  StronglySorted (λ a b, Str.leb (iee_ignored_at b) (iee_ignored_at a) = true)
    (get_ignored_event_ids_list db)
  ∧ NoDup (List.map iee_event_id (get_ignored_event_ids_list db))
  ∧ (∀ event_id subject start_time ignored_at,
       In (mk_ignored_event_entry event_id subject start_time ignored_at)
          (get_ignored_event_ids_list db)
       ↔ ∃ reason, ignored_event_ids db !! event_id
                   = Some (mk_ignored_event subject start_time ignored_at reason))
  ∧ (∀ event_id,
       In event_id (List.map iee_event_id (get_ignored_event_ids_list db))
       ↔ event_id ∈ get_ignored_event_ids db).
Proof.
  unfold get_ignored_event_ids_list.
  set (f := λ kv : string * ignored_event,
              mk_ignored_event_entry kv.1 (ie_subject kv.2) (ie_start_time kv.2)
                (ie_ignored_at kv.2)).
  set (le := λ a b, Str.leb (iee_ignored_at b) (iee_ignored_at a)).
  pose proof (sort_by_Permutation le (f <$> map_to_list (ignored_event_ids db))) as Hperm.
  assert (Hin : ∀ x, In x (sort_by le (f <$> map_to_list (ignored_event_ids db)))
                     ↔ ∃ k v, ignored_event_ids db !! k = Some v ∧ x = f (k, v)).
  { intros x. rewrite <- In_map_to_list_fmap. split; apply Permutation_in; [done|].
    by symmetry. }
  split; [|split; [|split]].
  - apply sort_by_sorted.
    + intros x y. apply leb_total.
    + intros x y z H1 H2. by apply (leb_trans _ _ _ H2 H1).
  - rewrite Hperm. change (List.map iee_event_id (f <$> ?l)) with (iee_event_id <$> (f <$> l)).
    rewrite <- list_fmap_compose.
    rewrite (list_fmap_ext (iee_event_id ∘ f) fst _) by done.
    apply NoDup_fst_map_to_list.
  - intros b s st t. rewrite Hin. split.
    + intros (k & [s' st' t' reason] & Hkv & [= -> -> -> ->]). by exists reason.
    + intros (reason & Hb). by exists b, (mk_ignored_event s st t reason).
  - intros b. rewrite in_map_iff. unfold get_ignored_event_ids.
    rewrite elem_of_dom. split.
    + intros (x & <- & (k & v & Hkv & ->)%Hin). by exists v.
    + intros [v Hv]. exists (f (b, v)). split; [done|]. apply Hin. by exists b, v.
Qed.

End Lists.

(** ** The clean-up of duplicates *)

Section CleanupFacts.
Variable fromisoformat : string -> option datetime.

Lemma filter_all {A} (p : A → bool) l : (∀ x, In x l → p x = true) → List.filter p l = l.
Proof.
  induction l as [|x l IH]; simpl; [done|]. intros H.
  rewrite (H x) by auto. f_equal. apply IH. auto.
Qed.

Lemma filter_none {A} (p : A → bool) l : (∀ x, In x l → p x = false) → List.filter p l = [].
Proof.
  induction l as [|x l IH]; simpl; [done|]. intros H.
  rewrite (H x) by auto. apply IH. auto.
Qed.

Lemma filter_sublist {A} (p : A → bool) l : List.filter p l `sublist_of` l.
Proof.
  induction l as [|x l IH]; simpl; [constructor|].
  destruct (p x); by constructor.
Qed.

Lemma map_sublist {A B} (f : A → B) l k :
  l `sublist_of` k → List.map f l `sublist_of` List.map f k.
Proof. induction 1; simpl; by constructor. Qed.

Lemma sublist_In {A} (l k : list A) x : l `sublist_of` k → In x l → In x k.
Proof. intros H. rewrite <- !list_elem_of_In. intros ?. by eapply elem_of_sublist. Qed.

Lemma omap_Permutation' {A B} (f : A → option B) l k :
  Permutation l k → Permutation (omap f l) (omap f k).
Proof.
  induction 1 as [|x l l' _ IH|x y l|l l' l'' _ IH1 _ IH2]; simpl; [done| | |].
  - destruct (f x); [by constructor|done].
  - destruct (f x), (f y); try done. apply perm_swap.
  - by etrans.
Qed.

Lemma omap_cons' {A B} (f : A → option B) x l :
  omap f (x :: l) = match f x with Some y => y :: omap f l | None => omap f l end.
Proof. reflexivity. Qed.

Lemma filter_length_split {A} (p : A → bool) l :
  (length (List.filter p l) + length (List.filter (λ x, negb (p x)) l) = length l)%nat.
Proof. induction l as [|x l IH]; simpl; [done|]. destruct (p x); simpl; lia. Qed.

(** *** Deleting *)

Lemma fold_left_sql_delete to_remove rows :
  List.fold_left sql_delete to_remove rows
  = List.filter (λ r, bool_decide (row_id r ∉ to_remove)) rows.
Proof.
  revert rows. induction to_remove as [|i rm IH]; intros rows; cbn [List.fold_left].
  - symmetry. apply filter_all. intros r _. apply bool_decide_eq_true_2, not_elem_of_nil.
  - rewrite IH. unfold sql_delete. rewrite filter_filter_and. apply List.filter_ext. intros r.
    destruct (String.eqb_spec (row_id r) i) as [->|Hne]; simpl.
    + symmetry. apply bool_decide_eq_false_2. intros H. apply H. left.
    + apply bool_decide_ext. rewrite not_elem_of_cons. tauto.
Qed.

Lemma key_of_Return r k : event_key fromisoformat r = Return k → key_of fromisoformat r = k.
Proof. unfold key_of. by intros ->. Qed.

Lemma event_key_Raise r e : event_key fromisoformat r = Raise e → e = OverflowError.
Proof.
  unfold event_key. destruct (parse_iso_datetime _ _) as [dt|]; [|done].
  destruct (normalize_to_utc dt) as [u|e'] eqn:Hn; simpl; [done|].
  intros [= <-]. by apply normalize_to_utc_Raise in Hn.
Qed.

(** *** The scan of one source *)

Lemma scan_duplicates_cons seen r rest to_remove :
  scan_duplicates fromisoformat seen (r :: rest) = Return to_remove →
  (event_key fromisoformat r = Return None
   ∧ scan_duplicates fromisoformat seen rest = Return to_remove)
  ∨ (∃ key i to_remove', event_key fromisoformat r = Return (Some key)
       ∧ seen !! key = Some i
       ∧ scan_duplicates fromisoformat seen rest = Return to_remove'
       ∧ to_remove = row_id r :: to_remove')
  ∨ (∃ key, event_key fromisoformat r = Return (Some key)
       ∧ seen !! key = None
       ∧ scan_duplicates fromisoformat (<[key := row_id r]> seen) rest = Return to_remove).
Proof.
  cbn [scan_duplicates]. intros ([key|] & Hk & Hscan)%bind_Return; [|by left].
  right. destruct (seen !! key) as [i|] eqn:Hseen.
  - left. apply bind_Return in Hscan as (rm & Hscan & [= <-]). by exists key, i, rm.
  - right. by exists key.
Qed.

Lemma scan_duplicates_ids seen events to_remove :
  scan_duplicates fromisoformat seen events = Return to_remove →
  to_remove `sublist_of` List.map row_id events.
Proof.
  revert seen to_remove. induction events as [|r rest IH]; intros seen rm Hscan.
  - injection Hscan as <-. constructor.
  - apply scan_duplicates_cons in Hscan
      as [[_ Hscan]|[(key & i & rm' & _ & _ & Hscan & ->)|(key & _ & _ & Hscan)]]; simpl.
    + constructor. by eapply IH.
    + constructor. by eapply IH.
    + constructor. by eapply IH.
Qed.

Lemma scan_duplicates_no_raise seen events to_remove r :
  scan_duplicates fromisoformat seen events = Return to_remove →
  In r events → ∃ k, event_key fromisoformat r = Return k.
Proof.
  revert seen to_remove. induction events as [|r1 rest IH]; intros seen rm Hscan; [done|].
  intros [<-|Hin].
  - apply scan_duplicates_cons in Hscan
      as [[Hk _]|[(key & i & rm' & Hk & _)|(key & Hk & _)]]; eauto.
  - apply scan_duplicates_cons in Hscan
      as [[_ Hscan]|[(key & i & rm' & _ & _ & Hscan & ->)|(key & _ & _ & Hscan)]]; eauto.
Qed.

Lemma scan_duplicates_keys seen events to_remove (p : row → bool) :
  scan_duplicates fromisoformat seen events = Return to_remove →
  (∀ r, In r events → p r = true → row_id r ∉ to_remove) →
  NoDup (omap (key_of fromisoformat) (List.filter p events))
  ∧ ∀ k, k ∈ omap (key_of fromisoformat) (List.filter p events) → seen !! k = None.
Proof.
  revert seen to_remove. induction events as [|r rest IH]; intros seen rm Hscan Hp.
  { simpl. split; [constructor|]. by intros k ?%elem_of_nil. }
  apply scan_duplicates_cons in Hscan
    as [[Hk Hscan]|[(key & i & rm' & Hk & Hseen & Hscan & ->)|(key & Hk & Hseen & Hscan)]].
  - destruct (IH _ _ Hscan) as [Hnd Hnone]; [intros r' ? ?; apply Hp; [by right|done]|].
    apply key_of_Return in Hk. cbn [List.filter].
    destruct (p r); cbv iota; [rewrite omap_cons', Hk|]; done.
  - assert (p r = false) as Hpr.
    { destruct (p r) eqn:Hpr; [|done]. destruct (Hp r) ; [by left|done|left]. }
    cbn [List.filter]. rewrite Hpr. apply (IH _ _ Hscan).
    intros r' Hin Hr'. by apply Hp, not_elem_of_cons in Hr' as [_ ?]; [|right].
  - destruct (IH _ _ Hscan) as [Hnd Hnone]; [intros r' ? ?; apply Hp; [by right|done]|].
    apply key_of_Return in Hk. cbn [List.filter].
    destruct (p r); cbv iota.
    + rewrite omap_cons', Hk. split.
      * apply NoDup_cons. split; [|done].
        intros Hin%Hnone. by rewrite lookup_insert_eq in Hin.
      * intros k [->|Hin%Hnone]%elem_of_cons; [done|].
        by apply lookup_insert_None in Hin as [? _].
    + split; [done|]. intros k Hin%Hnone. by apply lookup_insert_None in Hin as [? _].
Qed.

Lemma scan_duplicates_clean seen events :
  (∀ r, In r events → ∃ k, event_key fromisoformat r = Return k) →
  NoDup (omap (key_of fromisoformat) events) →
  (∀ k, k ∈ omap (key_of fromisoformat) events → seen !! k = None) →
  scan_duplicates fromisoformat seen events = Return [].
Proof.
  revert seen. induction events as [|r rest IH]; intros seen Hret Hnd Hseen; [done|].
  destruct (Hret r) as [k Hk]; [by left|].
  cbn [scan_duplicates]. rewrite Hk, bind_Return_l.
  rewrite omap_cons', (key_of_Return _ _ Hk) in Hnd, Hseen.
  destruct k as [key|].
  - apply NoDup_cons in Hnd as [Hkey Hnd].
    rewrite (Hseen key) by left. apply IH; [intros; apply Hret; by right|done|].
    intros k Hin. apply lookup_insert_None. split; [apply Hseen; by right|].
    intros ->. done.
  - apply IH; [intros; apply Hret; by right|done|done].
Qed.

Lemma scan_duplicates_Raise seen events e :
  scan_duplicates fromisoformat seen events = Raise e → e = OverflowError.
Proof.
  revert seen. induction events as [|r rest IH]; intros seen; [done|].
  cbn [scan_duplicates].
  destruct (event_key fromisoformat r) as [[key|]|e'] eqn:Hk; rewrite ?bind_Return_l.
  - destruct (seen !! key); [|apply IH].
    destruct (scan_duplicates fromisoformat seen rest) eqn:Hs; [done|].
    intros [= <-]. by eapply IH.
  - apply IH.
  - intros [= <-]. by eapply event_key_Raise.
Qed.

Lemma scan_duplicates_keeper seen events to_remove r :
  scan_duplicates fromisoformat seen events = Return to_remove →
  NoDup (List.map row_id events) →
  StronglySorted (λ a b, created_at_le a b = true) events →
  In r events → row_id r ∈ to_remove →
  ∃ k, key_of fromisoformat r = Some k
       ∧ (is_Some (seen !! k)
          ∨ ∃ r0, In r0 events ∧ key_of fromisoformat r0 = Some k
                  ∧ (row_id r0 ∉ to_remove) ∧ created_at_le r0 r = true).
Proof.
  revert seen to_remove. induction events as [|r1 rest IH]; intros seen rm Hscan Hnd Hs Hin Hrm;
    [done|].
  cbn [List.map] in Hnd. apply NoDup_cons in Hnd as [Hr1 Hnd].
  apply StronglySorted_inv in Hs as [Hs Hle].
  assert (Hfresh : ∀ rm', rm' `sublist_of` List.map row_id rest → row_id r1 ∉ rm').
  { intros rm' Hsub Hin'. apply Hr1. by eapply elem_of_sublist. }
  assert (Hne : ∀ r', In r' rest → row_id r' ≠ row_id r1).
  { intros r' Hr' Heq. apply Hr1. rewrite <- Heq, list_elem_of_In. by apply in_map. }
  apply scan_duplicates_cons in Hscan
    as [[Hk Hscan]|[(key & i & rm' & Hk & Hseen & Hscan & ->)|(key & Hk & Hseen & Hscan)]].
  - destruct Hin as [<-|Hin].
    { by destruct (Hfresh rm (scan_duplicates_ids _ _ _ Hscan)). }
    destruct (IH _ _ Hscan Hnd Hs Hin Hrm) as (k & Hkr & [Hsk|(r0 & Hr0 & Hk0 & Hid0 & Hle0)]).
    + exists k. auto.
    + exists k. split; [done|]. right. exists r0. split; [by right|done].
  - destruct Hin as [<-|Hin].
    { exists key. split; [by apply key_of_Return|]. left. by exists i. }
    apply elem_of_cons in Hrm as [Heq|Hrm]; [by destruct (Hne r Hin)|].
    destruct (IH _ _ Hscan Hnd Hs Hin Hrm) as (k & Hkr & [Hsk|(r0 & Hr0 & Hk0 & Hid0 & Hle0)]).
    + exists k. auto.
    + exists k. split; [done|]. right. exists r0. split; [by right|].
      split; [done|]. split; [|done].
      apply not_elem_of_cons. split; [by apply Hne|done].
  - destruct Hin as [<-|Hin].
    { by destruct (Hfresh rm (scan_duplicates_ids _ _ _ Hscan)). }
    destruct (IH _ _ Hscan Hnd Hs Hin Hrm) as (k & Hkr & [Hsk|(r0 & Hr0 & Hk0 & Hid0 & Hle0)]).
    + exists k. split; [done|].
      destruct (decide (key = k)) as [->|Hkk].
      * right. exists r1. split; [by left|]. split; [by apply key_of_Return|].
        split; [apply Hfresh; by eapply scan_duplicates_ids|].
        by apply (proj1 (List.Forall_forall _ _) Hle).
      * left. by rewrite lookup_insert_ne in Hsk.
    + exists k. split; [done|]. right. exists r0. split; [by right|done].
Qed.

(** *** The rewriting of NULL sources *)

Lemma null_sources_ids rows :
  List.map row_id (null_sources_to_ics rows) = List.map row_id rows.
Proof.
  unfold null_sources_to_ics. rewrite List.map_map. apply List.map_ext.
  intros r. by destruct (row_source r).
Qed.

Lemma null_sources_length rows : length (null_sources_to_ics rows) = length rows.
Proof. apply List.length_map. Qed.

Lemma null_sources_In r' rows :
  In r' (null_sources_to_ics rows) →
  ∃ r, In r rows
       ∧ (r' = r ∧ row_source r ≠ None
          ∨ r' = with_source r (Some "ics") ∧ row_source r = None).
Proof.
  unfold null_sources_to_ics. intros (r & <- & Hin)%in_map_iff. exists r. split; [done|].
  destruct (row_source r) eqn:Hsrc; [left|right]; by rewrite ?Hsrc.
Qed.

Lemma null_sources_In_2 r rows :
  In r rows →
  In (match row_source r with None => with_source r (Some "ics") | Some _ => r end)
     (null_sources_to_ics rows).
Proof.
  intros Hin.
  exact (in_map (λ r : row, match row_source r with
                            | None => with_source r (Some "ics")
                            | Some _ => r
                            end) rows r Hin).
Qed.

Lemma null_sources_not_None r' rows :
  In r' (null_sources_to_ics rows) → row_source r' ≠ None.
Proof. by intros (r & _ & [[-> ?]|[-> _]])%null_sources_In. Qed.

Lemma null_sources_none rows :
  (∀ r, In r rows → row_source r ≠ None) → null_sources_to_ics rows = rows.
Proof.
  intros H. unfold null_sources_to_ics. rewrite <- (List.map_id rows) at 2.
  apply List.map_ext_in. intros r Hr. specialize (H r Hr). by destruct (row_source r).
Qed.

Lemma null_sources_idem rows :
  null_sources_to_ics (null_sources_to_ics rows) = null_sources_to_ics rows.
Proof. apply null_sources_none. intros r. apply null_sources_not_None. Qed.

Lemma source_keys_null rows s :
  s ≠ "ics" →
  source_keys fromisoformat (null_sources_to_ics rows) s = source_keys fromisoformat rows s.
Proof.
  intros Hs. unfold source_keys. induction rows as [|r rows IH]; [done|].
  cbn [null_sources_to_ics List.map List.filter]. fold (null_sources_to_ics rows).
  destruct (row_source r) as [src|] eqn:Hsrc.
  - rewrite Hsrc. destruct (sql_eq _ _); [|done]. by rewrite !omap_cons', IH.
  - cbn [with_source row_source sql_eq].
    destruct (String.eqb_spec "ics" s) as [<-|_]; [done|]. done.
Qed.

Lemma source_keys_filter (p : row → bool) rows s :
  source_keys fromisoformat (List.filter p rows) s `sublist_of` source_keys fromisoformat rows s.
Proof.
  unfold source_keys. induction rows as [|r rows IH]; [constructor|].
  cbn [List.filter]. destruct (p r), (sql_eq _ _) eqn:Hsrc; cbn [List.filter];
    rewrite ?Hsrc, ?omap_cons'; try done;
    destruct (key_of fromisoformat r); try done; by constructor.
Qed.

Lemma filter_comm {A} (p q : A → bool) l :
  List.filter p (List.filter q l) = List.filter q (List.filter p l).
Proof.
  rewrite !filter_filter_and. apply List.filter_ext. intros x. apply andb_comm.
Qed.

(** *** One source *)

Lemma cleanup_source_Return rows source rows' removed :
  cleanup_source fromisoformat rows source = Return (rows', removed) →
  ∃ to_remove,
    scan_duplicates fromisoformat ∅
      (sort_by created_at_le
         (List.filter (λ r, sql_eq (row_source r) (Some (default "ics" source)))
            (match source with None => null_sources_to_ics rows | Some _ => rows end)))
    = Return to_remove
    ∧ rows' = List.filter (λ r, bool_decide (row_id r ∉ to_remove))
                (match source with None => null_sources_to_ics rows | Some _ => rows end)
    ∧ removed = Z.of_nat (length to_remove).
Proof.
  unfold cleanup_source. intros (rm & Hscan & [= <- <-])%bind_Return.
  exists rm. by rewrite fold_left_sql_delete.
Qed.

Lemma cleanup_source_Raise rows source e :
  cleanup_source fromisoformat rows source = Raise e → e = OverflowError.
Proof.
  unfold cleanup_source.
  destruct (scan_duplicates _ _ _) as [rm|e'] eqn:Hscan; [done|].
  intros [= <-]. by eapply scan_duplicates_Raise.
Qed.

Lemma cleanup_source_sublist rows source rows' removed :
  cleanup_source fromisoformat rows source = Return (rows', removed) →
  rows' `sublist_of` match source with None => null_sources_to_ics rows | Some _ => rows end.
Proof. intros (rm & _ & -> & _)%cleanup_source_Return. apply filter_sublist. Qed.

Lemma cleanup_source_keys rows source rows' removed s :
  cleanup_source fromisoformat rows source = Return (rows', removed) →
  NoDup (source_keys fromisoformat rows s) ∨ source = Some s →
  NoDup (source_keys fromisoformat rows' s).
Proof.
  intros (rm & Hscan & -> & _)%cleanup_source_Return Hs.
  set (rows0 := match source with None => null_sources_to_ics rows | Some _ => rows end) in *.
  destruct (decide (s = default "ics" source)) as [->|Hne].
  - unfold source_keys. rewrite filter_comm.
    rewrite <- (omap_Permutation' _ _ _
                  (filter_Permutation' _ _ _ (sort_by_Permutation created_at_le _))).
    apply (scan_duplicates_keys _ _ _ _ Hscan).
    by intros r _ ?%bool_decide_eq_true_1.
  - eapply sublist_NoDup; [|apply source_keys_filter].
    destruct Hs as [Hs| ->]; [|done]. subst rows0. destruct source; [done|].
    by rewrite source_keys_null.
Qed.

Lemma cleanup_source_scanned rows source rows' removed s :
  cleanup_source fromisoformat rows source = Return (rows', removed) →
  (∀ r, In r rows → row_source r = Some s → ∃ k, event_key fromisoformat r = Return k)
  ∨ source = Some s →
  ∀ r, In r rows' → row_source r = Some s → ∃ k, event_key fromisoformat r = Return k.
Proof.
  intros (rm & Hscan & -> & _)%cleanup_source_Return Hs r [Hr _]%filter_In Hsrc.
  destruct (decide (s = default "ics" source)) as [->|Hne].
  - apply (scan_duplicates_no_raise _ _ _ _ Hscan).
    eapply Permutation_in; [symmetry; apply sort_by_Permutation|].
    apply filter_In. split; [done|]. rewrite Hsrc. apply String.eqb_refl.
  - destruct Hs as [Hs| ->]; [|done]. destruct source; [by apply Hs|].
    apply null_sources_In in Hr as (r0 & Hr0 & [[-> _]|[-> _]]); [by apply Hs|].
    cbn in Hsrc, Hne. congruence.
Qed.

(** *** The loop over the sources *)

Lemma cleanup_loop_cons rows total source rest rows' n :
  cleanup_loop fromisoformat rows total (source :: rest) = (rows', Return n) →
  ∃ rows1 removed,
    cleanup_source fromisoformat rows source = Return (rows1, removed)
    ∧ cleanup_loop fromisoformat rows1 (total + removed) rest = (rows', Return n).
Proof.
  cbn [cleanup_loop].
  destruct (cleanup_source fromisoformat rows source) as [[rows1 removed]|e]; [eauto|done].
Qed.

Lemma cleanup_loop_keys sources rows total rows' n s :
  cleanup_loop fromisoformat rows total sources = (rows', Return n) →
  NoDup (source_keys fromisoformat rows s) ∨ In (Some s) sources →
  NoDup (source_keys fromisoformat rows' s).
Proof.
  revert rows total. induction sources as [|source rest IH]; intros rows total Hloop Hs.
  - injection Hloop as <- _. by destruct Hs.
  - apply cleanup_loop_cons in Hloop as (rows1 & removed & Hstep & Hloop).
    apply (IH _ _ Hloop).
    destruct Hs as [Hs|[->|Hs]]; [left|left|by right];
      apply (cleanup_source_keys _ _ _ _ _ Hstep); auto.
Qed.

Lemma cleanup_loop_scanned sources rows total rows' n s :
  cleanup_loop fromisoformat rows total sources = (rows', Return n) →
  (∀ r, In r rows → row_source r = Some s → ∃ k, event_key fromisoformat r = Return k)
  ∨ In (Some s) sources →
  ∀ r, In r rows' → row_source r = Some s → ∃ k, event_key fromisoformat r = Return k.
Proof.
  revert rows total. induction sources as [|source rest IH]; intros rows total Hloop Hs.
  - injection Hloop as <- _. by destruct Hs.
  - apply cleanup_loop_cons in Hloop as (rows1 & removed & Hstep & Hloop).
    apply (IH _ _ Hloop).
    destruct Hs as [Hs|[->|Hs]]; [left|left|by right];
      apply (cleanup_source_scanned _ _ _ _ _ Hstep); auto.
Qed.

(** *** The sources of the store *)

Lemma distinct_sources_elem rows s :
  s ∈ distinct_sources rows ↔ ∃ r, In r rows ∧ row_source r = Some s.
Proof.
  unfold distinct_sources.
  assert (s ∈ sort_by Str.leb (remove_dups (omap row_source rows))
          ↔ s ∈ remove_dups (omap row_source rows)) as ->.
  { rewrite !list_elem_of_In. split; apply Permutation_in; [|symmetry];
      apply sort_by_Permutation. }
  rewrite elem_of_remove_dups, list_elem_of_omap.
  split; intros (r & Hin & Hsrc); exists r; by rewrite list_elem_of_In in *.
Qed.

Lemma distinct_sources_In rows r s :
  In r rows → row_source r = Some s → s ∈ distinct_sources rows.
Proof. intros Hin Hsrc. apply distinct_sources_elem. by exists r. Qed.

Lemma distinct_sources_nil rows :
  distinct_sources rows = [] ↔ ∀ r, In r rows → row_source r = None.
Proof.
  split.
  - intros Hds r Hin. destruct (row_source r) as [s|] eqn:Hsrc; [|done].
    pose proof (distinct_sources_In _ _ _ Hin Hsrc) as Hs. rewrite Hds in Hs.
    by apply elem_of_nil in Hs.
  - intros Hall. apply elem_of_nil_inv. intros s.
    rewrite distinct_sources_elem.
    intros (r & Hin & Hsrc). rewrite (Hall r Hin) in Hsrc. done.
Qed.

Lemma source_keys_absent rows s :
  s ∉ distinct_sources rows → source_keys fromisoformat rows s = [].
Proof.
  intros Hs. unfold source_keys. rewrite filter_none; [done|].
  intros r Hin. destruct (sql_eq _ _) eqn:Heq; [|done].
  apply sql_eq_true in Heq as [Heq _]. destruct Hs. by eapply distinct_sources_In.
Qed.

Lemma cleanup_main_loop db db' res :
  cleanup_duplicates_main fromisoformat db = (db', res) →
  cleanup_loop fromisoformat (appointments db) 0
    (match distinct_sources (appointments db) with
     | [] => []
     | _ => (Some <$> distinct_sources (appointments db)) ++ [None]
     end) = (appointments db', res)
  ∧ ignored_base_ids db' = ignored_base_ids db
  ∧ ignored_event_ids db' = ignored_event_ids db.
Proof.
  unfold cleanup_duplicates_main.
  destruct (distinct_sources (appointments db)) as [|s ds]; cbn [fmap list_fmap].
  - intros [= <- <-]. done.
  - destruct (cleanup_loop _ _ _ _) as [rows total]. intros [= <- <-]. done.
Qed.

Lemma cleanup_main_sources db s :
  s ∈ distinct_sources (appointments db) →
  In (Some s) (match distinct_sources (appointments db) with
               | [] => []
               | _ => (Some <$> distinct_sources (appointments db)) ++ [None]
               end).
Proof.
  intros Hs. destruct (distinct_sources (appointments db)) as [|s0 ds] eqn:Hds.
  - by apply elem_of_nil in Hs.
  - apply in_or_app. left. rewrite <- list_elem_of_In. by apply list_elem_of_fmap_2.
Qed.

(** X21.  Rows whose sources are all NULL are left alone: no source is found, so
    the loop has nothing to do, not even the rewriting of NULL to 'ics'. *)
Theorem cleanup_with_only_null_sources db :
  (∀ r, In r (appointments db) → row_source r = None) →
  cleanup_duplicates_main fromisoformat db = (db, Return 0).
Proof.
  intros Hall%distinct_sources_nil. unfold cleanup_duplicates_main. rewrite Hall.
  cbn. by destruct db.
Qed.

(** X22.  After a run that ends normally, no two stored rows of one source have
    the same key (subject, UTC start time, organizer email). *)
Theorem cleanup_leaves_no_duplicates db db' total_removed source :
  cleanup_duplicates_main fromisoformat db = (db', Return total_removed) →
  NoDup (source_keys fromisoformat (appointments db') source).
Proof.
  intros [Hloop _]%cleanup_main_loop.
  apply (cleanup_loop_keys _ _ _ _ _ _ Hloop).
  destruct (decide (source ∈ distinct_sources (appointments db))) as [Hs|Hs].
  - right. by apply cleanup_main_sources.
  - left. rewrite source_keys_absent by done. constructor.
Qed.


(** *** What a run keeps *)

Lemma null_sources_sublist l k :
  l `sublist_of` k → null_sources_to_ics l `sublist_of` null_sources_to_ics k.
Proof. apply map_sublist. Qed.

Lemma cleanup_source_null_sublist rows source rows' removed :
  cleanup_source fromisoformat rows source = Return (rows', removed) →
  null_sources_to_ics rows' `sublist_of` null_sources_to_ics rows.
Proof.
  intros Hsub%cleanup_source_sublist%null_sources_sublist.
  destruct source; [exact Hsub|]. by rewrite null_sources_idem in Hsub.
Qed.

Lemma cleanup_loop_null_last sources rows total rows' n :
  cleanup_loop fromisoformat rows total (sources ++ [None]) = (rows', Return n) →
  rows' `sublist_of` null_sources_to_ics rows.
Proof.
  revert rows total. induction sources as [|src rest IH]; intros rows total Hloop.
  - apply cleanup_loop_cons in Hloop as (rows1 & removed & Hstep & Hloop).
    injection Hloop as <- _. by apply cleanup_source_sublist in Hstep.
  - rewrite <- app_comm_cons in Hloop.
    apply cleanup_loop_cons in Hloop as (rows1 & removed & Hstep & Hloop).
    etrans; [apply (IH _ _ Hloop)|]. by eapply cleanup_source_null_sublist.
Qed.

Lemma cleanup_loop_Raise sources rows total rows' e :
  cleanup_loop fromisoformat rows total ((Some <$> sources) ++ [None]) = (rows', Raise e) →
  rows' `sublist_of` rows ∧ e = OverflowError.
Proof.
  revert rows total. induction sources as [|s rest IH]; intros rows total.
  - cbn [fmap list_fmap app cleanup_loop].
    destruct (cleanup_source fromisoformat rows None) as [[rows1 removed]|e'] eqn:Hstep; [done|].
    intros [= <- <-]. split; [done|]. by eapply cleanup_source_Raise.
  - cbn [fmap list_fmap app cleanup_loop].
    destruct (cleanup_source fromisoformat rows (Some s)) as [[rows1 removed]|e'] eqn:Hstep.
    + intros [Hsub He]%IH. split; [|done]. etrans; [done|].
      by apply cleanup_source_sublist in Hstep.
    + intros [= <- <-]. split; [done|]. by eapply cleanup_source_Raise.
Qed.

(** X23.  When some row has a source, a run that ends normally has rewritten
    every NULL source to 'ics': the store holds a sublist of the rows it
    held, with that rewriting, in the same order; no source is NULL. *)
Theorem cleanup_rewrites_null_sources db db' total_removed r :
  cleanup_duplicates_main fromisoformat db = (db', Return total_removed) →
  In r (appointments db) → row_source r ≠ None →
  appointments db' `sublist_of` null_sources_to_ics (appointments db)
  ∧ ∀ r', In r' (appointments db') → row_source r' ≠ None.
Proof.
  intros [Hloop _]%cleanup_main_loop Hin Hsrc.
  assert (appointments db' `sublist_of` null_sources_to_ics (appointments db)) as Hsub.
  { destruct (distinct_sources (appointments db)) as [|s ds] eqn:Hds.
    - destruct Hsrc. by apply (proj1 (distinct_sources_nil _) Hds).
    - by apply cleanup_loop_null_last in Hloop. }
  split; [done|]. intros r' Hr'. eapply null_sources_not_None, sublist_In; done.
Qed.

(** X24.  A run that fails fails with the OverflowError of [normalize_to_utc]; the
    store then holds a sublist of the rows it held, none rewritten: the
    deletions of the sources done before stay, the rest is as it was. *)
Theorem cleanup_failure db db' e :
  cleanup_duplicates_main fromisoformat db = (db', Raise e) →
  e = OverflowError
  ∧ appointments db' `sublist_of` appointments db
  ∧ ignored_base_ids db' = ignored_base_ids db
  ∧ ignored_event_ids db' = ignored_event_ids db.
Proof.
  intros (Hloop & Hb & He)%cleanup_main_loop.
  destruct (distinct_sources (appointments db)) as [|s ds] eqn:Hds; [done|].
  apply cleanup_loop_Raise in Hloop as [Hsub ->]. done.
Qed.

(** *** Counting *)

Lemma delete_count rows rm :
  NoDup (List.map row_id rows) → NoDup rm →
  (∀ i, i ∈ rm → In i (List.map row_id rows)) →
  (length (List.filter (λ r, bool_decide (row_id r ∉ rm)) rows) + length rm = length rows)%nat.
Proof.
  intros Hnd Hrm Hsub.
  rewrite <- (filter_length_split (λ r, bool_decide (row_id r ∉ rm)) rows). f_equal.
  rewrite <- (List.length_map row_id (List.filter _ rows)).
  apply Permutation_length, NoDup_Permutation; [done| |].
  - eapply sublist_NoDup; [exact Hnd|]. apply map_sublist, filter_sublist.
  - intros i. rewrite (list_elem_of_In (List.map _ _)), in_map_iff. split.
    + intros Hi. pose proof Hi as (r & <- & Hr)%Hsub%in_map_iff.
      exists r. split; [done|]. apply filter_In. split; [done|].
      apply negb_true_iff, bool_decide_eq_false_2. tauto.
    + intros (r & <- & [_ Hneg]%filter_In).
      apply negb_true_iff, bool_decide_eq_false_1 in Hneg.
      by apply dec_stable.
Qed.

Lemma cleanup_source_events_ids rows s :
  NoDup (List.map row_id rows) →
  NoDup (List.map row_id
           (sort_by created_at_le (List.filter (λ r, sql_eq (row_source r) (Some s)) rows))).
Proof.
  intros Hnd. rewrite (Permutation_map row_id (sort_by_Permutation created_at_le _)).
  eapply sublist_NoDup; [exact Hnd|]. apply map_sublist, filter_sublist.
Qed.

Lemma cleanup_source_events_In rows s r :
  In r (sort_by created_at_le (List.filter (λ r, sql_eq (row_source r) (Some s)) rows))
  ↔ In r rows ∧ row_source r = Some s.
Proof.
  split.
  - intros Hin. eapply Permutation_in in Hin; [|apply sort_by_Permutation].
    apply filter_In in Hin as [Hin [Heq _]%sql_eq_true]. done.
  - intros [Hin Hsrc]. eapply Permutation_in; [symmetry; apply sort_by_Permutation|].
    apply filter_In. split; [done|]. rewrite Hsrc. apply String.eqb_refl.
Qed.

Lemma cleanup_source_count rows source rows' removed :
  NoDup (List.map row_id rows) →
  cleanup_source fromisoformat rows source = Return (rows', removed) →
  NoDup (List.map row_id rows')
  ∧ Z.of_nat (length rows') + removed = Z.of_nat (length rows)
  ∧ 0 <= removed.
Proof.
  intros Hnd (rm & Hscan & -> & ->)%cleanup_source_Return.
  set (rows0 := match source with None => null_sources_to_ics rows | Some _ => rows end) in *.
  assert (NoDup (List.map row_id rows0)) as Hnd0.
  { subst rows0. destruct source; [done|]. by rewrite null_sources_ids. }
  assert (length rows0 = length rows) as Hlen.
  { subst rows0. destruct source; [done|]. apply null_sources_length. }
  pose proof (scan_duplicates_ids _ _ _ Hscan) as Hsub.
  split; [eapply sublist_NoDup; [exact Hnd0|]; apply map_sublist, filter_sublist|].
  split; [|lia].
  pose proof (delete_count rows0 rm Hnd0) as Hcount.
  rewrite <- Hlen, <- Hcount; [lia| |].
  - eapply sublist_NoDup; [|exact Hsub]. by apply cleanup_source_events_ids.
  - intros i Hi. eapply elem_of_sublist in Hi; [|exact Hsub].
    apply list_elem_of_In, in_map_iff in Hi as (r & <- & [Hr _]%cleanup_source_events_In).
    by apply in_map.
Qed.

Lemma cleanup_loop_count sources rows total rows' n :
  NoDup (List.map row_id rows) →
  cleanup_loop fromisoformat rows total sources = (rows', Return n) →
  NoDup (List.map row_id rows')
  ∧ Z.of_nat (length rows') + n = Z.of_nat (length rows) + total
  ∧ total <= n.
Proof.
  revert rows total. induction sources as [|source rest IH]; intros rows total Hnd Hloop.
  - injection Hloop as <- <-. split; [done|]. lia.
  - apply cleanup_loop_cons in Hloop as (rows1 & removed & Hstep & Hloop).
    destruct (cleanup_source_count _ _ _ _ Hnd Hstep) as (Hnd1 & Hlen1 & Hpos).
    destruct (IH _ _ Hnd1 Hloop) as (Hnd' & Hlen' & Hle). split; [done|]. lia.
Qed.

(** X25.  With the ids of the store distinct (id is the primary key), the number
    that a normal run prints is the number of rows that are gone. *)
Theorem cleanup_counts_removed_rows db db' total_removed :
  NoDup (List.map row_id (appointments db)) →
  cleanup_duplicates_main fromisoformat db = (db', Return total_removed) →
  0 <= total_removed
  ∧ Z.of_nat (length (appointments db')) = Z.of_nat (length (appointments db)) - total_removed
  ∧ NoDup (List.map row_id (appointments db'))
  ∧ ignored_base_ids db' = ignored_base_ids db
  ∧ ignored_event_ids db' = ignored_event_ids db.
Proof.
  intros Hnd (Hloop & Hb & He)%cleanup_main_loop.
  apply cleanup_loop_count in Hloop as (Hnd' & Hlen & Hpos); [|done].
  split; [done|]. split; [lia|]. done.
Qed.

(** *** The first row of each key stays *)

Lemma created_at_le_refl r : created_at_le r r = true.
Proof. unfold created_at_le. destruct (row_created_at r); [apply leb_refl|done]. Qed.

Lemma created_at_le_total a b : created_at_le a b = false → created_at_le b a = true.
Proof.
  unfold created_at_le. destruct (row_created_at a), (row_created_at b); try done.
  apply leb_total.
Qed.

Lemma created_at_le_trans a b c :
  created_at_le a b = true → created_at_le b c = true → created_at_le a c = true.
Proof.
  unfold created_at_le.
  destruct (row_created_at a), (row_created_at b), (row_created_at c); try done.
  apply leb_trans.
Qed.

Lemma delete_keeper rows s to_remove r :
  NoDup (List.map row_id rows) →
  scan_duplicates fromisoformat ∅
    (sort_by created_at_le (List.filter (λ r, sql_eq (row_source r) (Some s)) rows))
  = Return to_remove →
  In r rows →
  ∃ r', In r' (List.filter (λ r, bool_decide (row_id r ∉ to_remove)) rows)
        ∧ key_of fromisoformat r' = key_of fromisoformat r
        ∧ row_source r' = row_source r
        ∧ created_at_le r' r = true
        ∧ (key_of fromisoformat r = None → r' = r).
Proof.
  intros Hnd Hscan Hin.
  destruct (decide (row_id r ∈ to_remove)) as [Hrm|Hrm].
  - pose proof Hrm as Hev. eapply elem_of_sublist in Hev; [|by eapply scan_duplicates_ids].
    apply list_elem_of_In, in_map_iff in Hev as (r1 & Hid & Hev).
    pose proof Hev as [Hr1 Hsrc1]%cleanup_source_events_In.
    assert (r1 = r) as -> by by eapply NoDup_map_inj_In.
    assert (StronglySorted (λ a b, created_at_le a b = true)
              (sort_by created_at_le
                 (List.filter (λ r, sql_eq (row_source r) (Some s)) rows))) as Hsorted.
    { apply sort_by_sorted; [apply created_at_le_total|apply created_at_le_trans]. }
    destruct (scan_duplicates_keeper _ _ _ r Hscan (cleanup_source_events_ids _ s Hnd)
                Hsorted Hev Hrm)
      as (k & Hk & [Hsome|(r0 & Hr0 & Hk0 & Hid0 & Hle0)]).
    + rewrite lookup_empty in Hsome. by destruct Hsome.
    + apply cleanup_source_events_In in Hr0 as [Hr0 Hsrc0].
      exists r0. split; [apply filter_In; split; [done|by apply bool_decide_eq_true_2]|].
      split; [congruence|]. split; [congruence|]. split; [done|]. congruence.
  - exists r. split; [apply filter_In; split; [done|by apply bool_decide_eq_true_2]|].
    split; [done|]. split; [done|]. split; [apply created_at_le_refl|done].
Qed.

Lemma cleanup_source_keeper rows source rows' removed r :
  NoDup (List.map row_id rows) →
  cleanup_source fromisoformat rows source = Return (rows', removed) →
  In r rows →
  ∃ r', In r' rows'
        ∧ key_of fromisoformat r' = key_of fromisoformat r
        ∧ (row_source r' = row_source r ∨ row_source r = None ∧ row_source r' = Some "ics")
        ∧ created_at_le r' r = true
        ∧ (key_of fromisoformat r = None →
           r' = r ∨ row_source r = None ∧ r' = with_source r (Some "ics")).
Proof.
  intros Hnd (rm & Hscan & -> & _)%cleanup_source_Return Hin.
  destruct source as [s|]; cbn [default] in Hscan.
  - destruct (delete_keeper _ _ _ _ Hnd Hscan Hin) as (r' & Hr' & Hk & Hsrc & Hle & Hsame).
    exists r'. repeat (split; [by auto|]). auto.
  - rewrite <- null_sources_ids in Hnd.
    pose proof (null_sources_In_2 _ _ Hin) as Hin0.
    destruct (delete_keeper _ _ _ _ Hnd Hscan Hin0) as (r' & Hr' & Hk & Hsrc & Hle & Hsame).
    exists r'. split; [done|].
    destruct (row_source r) eqn:Hsrc_r.
    + rewrite Hsrc_r in Hsrc. repeat (split; [by auto|]). auto.
    + split; [done|]. split; [by right|]. split; [done|].
      intros ->%Hsame. right. done.
Qed.

Lemma cleanup_loop_keeper sources rows total rows' n r :
  NoDup (List.map row_id rows) →
  cleanup_loop fromisoformat rows total sources = (rows', Return n) →
  In r rows →
  ∃ r', In r' rows'
        ∧ key_of fromisoformat r' = key_of fromisoformat r
        ∧ (row_source r' = row_source r ∨ row_source r = None ∧ row_source r' = Some "ics")
        ∧ created_at_le r' r = true
        ∧ (key_of fromisoformat r = None →
           r' = r ∨ row_source r = None ∧ r' = with_source r (Some "ics")).
Proof.
  revert rows total r. induction sources as [|source rest IH]; intros rows total r Hnd Hloop Hin.
  - injection Hloop as <- _. exists r. split; [done|]. split; [done|].
    split; [by left|]. split; [apply created_at_le_refl|by left].
  - apply cleanup_loop_cons in Hloop as (rows1 & removed & Hstep & Hloop).
    destruct (cleanup_source_keeper _ _ _ _ _ Hnd Hstep Hin)
      as (r1 & Hr1 & Hk1 & Hsrc1 & Hle1 & Hsame1).
    destruct (cleanup_source_count _ _ _ _ Hnd Hstep) as (Hnd1 & _).
    destruct (IH _ _ _ Hnd1 Hloop Hr1) as (r2 & Hr2 & Hk2 & Hsrc2 & Hle2 & Hsame2).
    exists r2. split; [done|]. split; [congruence|]. split; [|split].
    + destruct Hsrc1 as [Hsrc1|[Hn Hsrc1]], Hsrc2 as [Hsrc2|[Hn2 Hsrc2]];
        [left|right|right|]; try split; congruence.
    + by eapply created_at_le_trans.
    + intros Hnone. rewrite <- Hk1 in Hnone.
      destruct (Hsame1 ltac:(congruence)) as [->|[Hn ->]].
      * by apply Hsame2.
      * destruct (Hsame2 Hnone) as [->|[Hn2 _]]; [by right|done].
Qed.

(** X26.  With the ids of the store distinct, a normal run deletes no row without
    keeping one of the same source and key that was created no later; a row
    without a key (its start time does not parse) is never deleted.  The
    source counts as the same when NULL has become 'ics'. *)
Theorem cleanup_keeps_first_of_each_key db db' total_removed r :
  NoDup (List.map row_id (appointments db)) →
  cleanup_duplicates_main fromisoformat db = (db', Return total_removed) →
  In r (appointments db) →
  ∃ r', In r' (appointments db')
        ∧ key_of fromisoformat r' = key_of fromisoformat r
        ∧ (row_source r' = row_source r ∨ row_source r = None ∧ row_source r' = Some "ics")
        ∧ created_at_le r' r = true
        ∧ (key_of fromisoformat r = None →
           r' = r ∨ row_source r = None ∧ r' = with_source r (Some "ics")).
Proof.
  intros Hnd [Hloop _]%cleanup_main_loop Hin. by eapply cleanup_loop_keeper.
Qed.

(** *** Running again *)

Lemma cleanup_source_clean rows source :
  (source = None → ∀ r, In r rows → row_source r ≠ None) →
  NoDup (source_keys fromisoformat rows (default "ics" source)) →
  (∀ r, In r rows → row_source r = Some (default "ics" source) →
        ∃ k, event_key fromisoformat r = Return k) →
  cleanup_source fromisoformat rows source = Return (rows, 0).
Proof.
  intros Hnull Hnd Hret. unfold cleanup_source.
  assert (match source with None => null_sources_to_ics rows | Some _ => rows end = rows)
    as ->.
  { destruct source; [done|]. by apply null_sources_none, Hnull. }
  rewrite scan_duplicates_clean; [done| | |].
  - by intros r [Hr Hsrc]%cleanup_source_events_In; apply Hret.
  - by rewrite (omap_Permutation' _ _ _ (sort_by_Permutation created_at_le _)).
  - intros k _. apply lookup_empty.
Qed.

Lemma cleanup_loop_clean sources rows total :
  (∀ r, In r rows → row_source r ≠ None) →
  (∀ s, NoDup (source_keys fromisoformat rows s)) →
  (∀ r, In r rows → ∃ k, event_key fromisoformat r = Return k) →
  cleanup_loop fromisoformat rows total sources = (rows, Return total).
Proof.
  intros Hnull Hnd Hret. revert total. induction sources as [|source rest IH]; intros total.
  - done.
  - cbn [cleanup_loop]. rewrite cleanup_source_clean by auto. by rewrite Z.add_0_r.
Qed.

Lemma cleanup_main_no_sources db :
  distinct_sources (appointments db) = [] →
  cleanup_duplicates_main fromisoformat db = (db, Return 0).
Proof. intros Hds. unfold cleanup_duplicates_main. rewrite Hds. cbn. by rewrite database_eta. Qed.

(** X27.  A second run finds nothing to do: after a run that ended normally,
    another run removes nothing and leaves the store as it is. *)
Theorem cleanup_again_removes_nothing db db' total_removed :
  cleanup_duplicates_main fromisoformat db = (db', Return total_removed) →
  cleanup_duplicates_main fromisoformat db' = (db', Return 0).
Proof.
  intros Hmain.
  destruct (distinct_sources (appointments db)) as [|s0 ds] eqn:Hds.
  { rewrite (cleanup_main_no_sources _ Hds) in Hmain. injection Hmain as <- _.
    by apply cleanup_main_no_sources. }
  pose proof Hmain as (Hloop & Hb & He)%cleanup_main_loop. rewrite Hds in Hloop.
  assert (∀ r, In r (appointments db') → row_source r ≠ None) as Hnull.
  { intros r Hr. eapply null_sources_not_None, sublist_In; [|exact Hr].
    by eapply cleanup_loop_null_last. }
  assert (∀ s, s ∈ distinct_sources (appointments db) →
               In (Some s) ((Some <$> s0 :: ds) ++ [None])) as Hsrcs.
  { intros s Hs. apply cleanup_main_sources in Hs. by rewrite Hds in Hs. }
  unfold cleanup_duplicates_main. rewrite cleanup_loop_clean; [by rewrite database_eta|done| |].
  - intros s. apply (cleanup_loop_keys _ _ _ _ _ _ Hloop).
    destruct (decide (s ∈ distinct_sources (appointments db))) as [Hs|Hs]; [by auto|].
    left. rewrite source_keys_absent by done. constructor.
  - intros r Hr. destruct (row_source r) as [s|] eqn:Hsrc; [|by destruct (Hnull r Hr)].
    apply (cleanup_loop_scanned _ _ _ _ _ s Hloop); [|done|done].
    destruct (decide (s ∈ distinct_sources (appointments db))) as [Hs|Hs]; [by auto|].
    left. intros r1 Hr1 Hsrc1. destruct Hs. by eapply distinct_sources_In.
Qed.

End CleanupFacts.

(** ** The command line tools *)

Section Tools.

(** X28.  [manage_ignored_base_ids.py] ends with status 0 exactly for [list] and
    for [add] and [remove] with an id; with status 1 it prints one line and
    leaves the store as it is.  It never touches the appointments nor the
    suppressed occurrences, and of the suppressed series only the one named
    on the command line. *)
Theorem manage_ignored_base_ids_frame db argv now db' out status :
  manage_ignored_base_ids_main db argv now = (db', out, status) →
  (status = 0 ∨ status = 1)
  ∧ (status = 1 → db' = db ∧ ∃ line, out = Text line)
  ∧ (status = 0
     ↔ argv !! 1%nat = Some "list"
       ∨ (argv !! 1%nat = Some "add" ∨ argv !! 1%nat = Some "remove")
         ∧ is_Some (argv !! 2%nat))
  ∧ appointments db' = appointments db
  ∧ ignored_event_ids db' = ignored_event_ids db
  ∧ (∀ b, argv !! 2%nat ≠ Some b → ignored_base_ids db' !! b = ignored_base_ids db !! b).
Proof.
  unfold manage_ignored_base_ids_main.
  destruct (argv !! 1%nat) as [command|].
  2: { intros [= <- <- <-]. split_and!; try done; [by right|eauto|].
       split; [done|]. intros [?|[[?|?] _]]; done. }
  destruct (String.eqb_spec command "list") as [->|Hlist].
  { intros [= <- <- <-]. split_and!; try done; [by left|]. split; auto. }
  destruct (String.eqb_spec command "add") as [->|Hadd].
  { destruct (argv !! 2%nat) as [base_id|]; intros [= <- <- <-].
    - split_and!; try done; [by left|split; [eauto|done]|].
      intros b Hb. cbn. apply lookup_insert_ne. congruence.
    - split_and!; try done; [by right|eauto|].
      split; [done|]. intros [?|[_ [? ?]]]; done. }
  destruct (String.eqb_spec command "remove") as [->|Hremove].
  { destruct (argv !! 2%nat) as [base_id|]; intros [= <- <- <-].
    - split_and!; try done; [by left|split; [eauto|done]|].
      intros b Hb. cbn. apply lookup_delete_ne. congruence.
    - split_and!; try done; [by right|eauto|].
      split; [done|]. intros [?|[_ [? ?]]]; done. }
  intros [= <- <- <-]. split_and!; try done; [by right|eauto|].
  split; [done|]. intros [?|[[?|?] _]]; congruence.
Qed.

(** X29.  The same for [manage_ignored_event_ids.py]: status 0 exactly for [list]
    and for [add] and [remove] with an id; with status 1 one line and the
    store as it is; never the appointments nor the suppressed series, and of
    the suppressed occurrences only the one named on the command line. *)
Theorem manage_ignored_event_ids_frame db argv now db' out status :
  manage_ignored_event_ids_main db argv now = (db', out, status) →
  (status = 0 ∨ status = 1)
  ∧ (status = 1 → db' = db ∧ ∃ line, out = Text line)
  ∧ (status = 0
     ↔ argv !! 1%nat = Some "list"
       ∨ (argv !! 1%nat = Some "add" ∨ argv !! 1%nat = Some "remove")
         ∧ is_Some (argv !! 2%nat))
  ∧ appointments db' = appointments db
  ∧ ignored_base_ids db' = ignored_base_ids db
  ∧ (∀ i, argv !! 2%nat ≠ Some i → ignored_event_ids db' !! i = ignored_event_ids db !! i).
Proof.
  unfold manage_ignored_event_ids_main.
  destruct (argv !! 1%nat) as [command|].
  2: { intros [= <- <- <-]. split_and!; try done; [by right|eauto|].
       split; [done|]. intros [?|[[?|?] _]]; done. }
  destruct (String.eqb_spec command "list") as [->|Hlist].
  { intros [= <- <- <-]. split_and!; try done; [by left|]. split; auto. }
  destruct (String.eqb_spec command "add") as [->|Hadd].
  { destruct (argv !! 2%nat) as [event_id|]; intros [= <- <- <-].
    - split_and!; try done; [by left|split; [eauto|done]|].
      intros b Hb. cbn. apply lookup_insert_ne. congruence.
    - split_and!; try done; [by right|eauto|].
      split; [done|]. intros [?|[_ [? ?]]]; done. }
  destruct (String.eqb_spec command "remove") as [->|Hremove].
  { destruct (argv !! 2%nat) as [event_id|]; intros [= <- <- <-].
    - split_and!; try done; [by left|split; [eauto|done]|].
      intros b Hb. cbn. apply lookup_delete_ne. congruence.
    - split_and!; try done; [by right|eauto|].
      split; [done|]. intros [?|[_ [? ?]]]; done. }
  intros [= <- <- <-]. split_and!; try done; [by right|eauto|].
  split; [done|]. intros [?|[[?|?] _]]; congruence.
Qed.

End Tools.

Section ApiFacts.
Variable py_int : string -> option Z.

(** X30.  [query_db_api.py], with a clock that is a valid datetime at least 366
    days before the end of year 9999: the outcome is the result of
    [query_events] for today and the days asked for (30 when no argument is
    given), or one of the three errors of the arguments, which are checked
    in this order: the number does not parse, it is not in 0..365, the
    database file is missing.  'Database query failed' is never the
    outcome. *)
Theorem query_db_api_outcome db argv now :
  valid_datetime now →
  ymd2ord (year now) (month now) (day now) + 366 <= MAXORDINAL →
  match (match argv !! 1%nat with Some text => py_int text | None => Some 30 end) with
  | None => query_db_api_main py_int db argv now = Error InvalidDays
  | Some days_ahead =>
      if bool_decide (0 <= days_ahead <= 365) then
        match db with
        | None => query_db_api_main py_int db argv now = Error DatabaseNotFound
        | Some store =>
            ∃ events, query_events store now 0 days_ahead VNone = Return events
                      ∧ query_db_api_main py_int db argv now = Events events
        end
      else query_db_api_main py_int db argv now = Error DaysOutOfRange
  end.
Proof.
  intros Hv Hmax. unfold query_db_api_main.
  destruct (match argv !! 1%nat with Some _ => _ | None => _ end) as [days|]; [|done].
  case_bool_decide as Hdays.
  - rewrite (proj2 (Z.ltb_ge _ _)), (proj2 (Z.ltb_ge _ _)) by lia. cbn [orb].
    destruct db as [store|]; [|done].
    unfold query_events. rewrite date_window_spec by done. cbv zeta.
    destruct Hv as (Hd & Hy & _).
    pose proof (ymd2ord_bounds _ _ _ Hd) as Hb.
    pose proof (days_before_year_nonneg (year now) (proj1 Hd)) as Hnn.
    rewrite Z.sub_0_r.
    rewrite (proj2 (Z.ltb_lt 0 (ymd2ord _ _ _))), (proj2 (Z.leb_le (ymd2ord _ _ _) _)),
      (proj2 (Z.ltb_lt 0 (ymd2ord _ _ _ + days))), (proj2 (Z.leb_le (ymd2ord _ _ _ + days + 1) _))
      by (unfold MAXORDINAL in *; lia).
    cbn [andb]. rewrite bind_Return_l. cbn [source_filter truthy].
    rewrite bind_Return_l. by eexists.
  - destruct (Z.ltb_spec days 0); [done|]. destruct (Z.ltb_spec 365 days); [done|lia].
Qed.

End ApiFacts.

(** ** The further properties at concrete stores and events *)

Section Instances.
Import Sample.

Local Ltac evaluate := vm_compute; reflexivity.
Local Ltac valid := unfold valid_datetime, valid_date; vm_compute; repeat split; congruence.

(** The hypothesis of X1 at two o'clock at night at UTC-8. *)
Lemma normalize_to_utc_keeps_instant_witness :
  tzinfo ten_am_utc = Some 0 ∧ utc_us ten_am_utc = utc_us two_am_pacific
  ∧ (valid_datetime two_am_pacific → valid_datetime ten_am_utc).
Proof. apply (normalize_to_utc_keeps_instant two_am_pacific ten_am_utc). evaluate. Defined.

(** The hypotheses of X2 at the same datetime. *)
Lemma normalize_to_utc_idempotent_witness : normalize_to_utc ten_am_utc = Return ten_am_utc.
Proof.
  apply (normalize_to_utc_idempotent two_am_pacific ten_am_utc); [valid|evaluate].
Defined.

(** The hypothesis of X3 at the same datetime. *)
Lemma format_iso_datetime_utc_suffix_witness :
  ∃ u prefix,
    normalize_to_utc two_am_pacific = Return u
    ∧ "2025-01-01T10:00:00+00:00" = isoformat u
    ∧ "2025-01-01T10:00:00+00:00" = prefix +:+ "+00:00"
    ∧ String.length prefix = if microsecond u =? 0 then 19%nat else 26%nat.
Proof.
  apply (format_iso_datetime_utc_suffix two_am_pacific "2025-01-01T10:00:00+00:00"). evaluate.
Defined.

(** The hypothesis of X5 for the thirty days after 30 November. *)
Lemma get_date_range_span_witness :
  wall_us late_november - wall_us late_november = 0 * US_PER_DAY
  ∧ wall_us (mk_datetime 2025 12 30 7 30 0 0 (Some 0)) - wall_us late_november
    = 30 * US_PER_DAY
  ∧ tzinfo late_november = tzinfo late_november
  ∧ tzinfo (mk_datetime 2025 12 30 7 30 0 0 (Some 0)) = tzinfo late_november
  ∧ valid_datetime late_november
  ∧ valid_datetime (mk_datetime 2025 12 30 7 30 0 0 (Some 0)).
Proof.
  apply (get_date_range_span late_november 0 30 late_november
           (mk_datetime 2025 12 30 7 30 0 0 (Some 0))).
  evaluate.
Defined.

(** The hypothesis of X6 for a text with the Z suffix. *)
Lemma parse_iso_datetime_aware_witness :
  ∃ s dt0,
    VStr "2025-01-01T10:00:00Z" = VStr s ∧ s ≠ ""
    ∧ iso8601_fromisoformat
        (if Str.endswith "Z" s then Str.replace "Z" "+00:00" s else s) = Some dt0
    ∧ tzinfo ten_am_utc = Some (default 0 (tzinfo dt0))
    ∧ wall_us ten_am_utc = wall_us dt0 ∧ utc_us ten_am_utc = utc_us dt0.
Proof.
  apply (parse_iso_datetime_aware iso8601_fromisoformat (VStr "2025-01-01T10:00:00Z")
           ten_am_utc).
  evaluate.
Defined.

(** The hypothesis of X7 for a text without a Z. *)
Lemma parse_iso_datetime_Z_suffix_witness :
  parse_iso_datetime iso8601_fromisoformat (VStr ("2025-01-01T10:00:00" +:+ "Z"))
  = parse_iso_datetime iso8601_fromisoformat (VStr ("2025-01-01T10:00:00" +:+ "+00:00")).
Proof. apply (parse_iso_datetime_Z_suffix iso8601_fromisoformat "2025-01-01T10:00:00"). evaluate. Defined.

(** The hypothesis of X8: the cal1 meeting found for a start time thirty
    seconds later. *)
Lemma find_duplicate_sound_witness :
  ∃ r start_dt row_start_dt,
    In r [row_cal1] ∧ row_id r = "a1" ∧ VStr "a1" ≠ VStr "a2"
    ∧ bind_text (VStr "Standup") = Return (row_subject r) ∧ row_subject r ≠ None
    ∧ bind_text (VStr "cal1") = Return (row_source r) ∧ row_source r ≠ None
    ∧ py_or (VStr "boss@example.com") (VStr "")
      = VStr (default "" (row_organizer_email r))
    ∧ parse_iso_datetime iso8601_fromisoformat (VStr "2025-01-01T10:00:30Z") = Some start_dt
    ∧ parse_iso_datetime iso8601_fromisoformat (of_text (row_start_time r))
      = Some row_start_dt
    ∧ Z.abs (utc_us start_dt - utc_us row_start_dt) < 60 * US_PER_SECOND.
Proof.
  apply (find_duplicate_sound iso8601_fromisoformat [row_cal1] (VStr "Standup")
           (VStr "2025-01-01T10:00:30Z") (VStr "boss@example.com") (VStr "cal1") (VStr "a2")
           "a1").
  evaluate.
Defined.

(** The hypothesis of X10: one event saved into the empty store. *)
Lemma save_appointments_counts_witness :
  0 <= 1 ∧ 0 <= 0
  ∧ 1 + 0 <= Z.of_nat (length [ev_cal1])
  ∧ Z.of_nat (length (appointments (mk_database [inserted_row "a1" bound_cal1 t0] ∅ ∅)))
    = Z.of_nat (length (appointments empty_db)) + 1
  ∧ ignored_base_ids (mk_database [inserted_row "a1" bound_cal1 t0] ∅ ∅)
    = ignored_base_ids empty_db
  ∧ ignored_event_ids (mk_database [inserted_row "a1" bound_cal1 t0] ∅ ∅)
    = ignored_event_ids empty_db
  ∧ (NoDup (List.map row_id (appointments empty_db)) →
     NoDup (List.map row_id
              (appointments (mk_database [inserted_row "a1" bound_cal1 t0] ∅ ∅)))).
Proof.
  apply (save_appointments_counts iso8601_fromisoformat empty_db [ev_cal1] (Some rules_cal1) t0
           (mk_database [inserted_row "a1" bound_cal1 t0] ∅ ∅) 1 0).
  evaluate.
Defined.

(** The hypotheses of X11: the cal1 meeting saved twice, without rules. *)
Lemma saving_twice_updates_witness :
  appointments (mk_database [inserted_row "a1" bound_cal1 t0] ∅ ∅)
  = (appointments empty_db ++ [inserted_row "a1" bound_cal1 t0])%list
  ∧ save_appointments iso8601_fromisoformat (mk_database [inserted_row "a1" bound_cal1 t0] ∅ ∅)
      [ev_cal1] None t1
    = (mk_database
         (appointments empty_db
          ++ [mk_row "a1" (c_subject bound_cal1) (c_start_time bound_cal1)
                (c_end_time bound_cal1) (c_location bound_cal1)
                (c_organizer_email bound_cal1) (c_organizer_name bound_cal1)
                (c_attendees bound_cal1) (c_body_preview bound_cal1)
                (c_is_all_day bound_cal1) (c_source bound_cal1) (Some t0) (Some t1)])%list
         (ignored_base_ids empty_db) (ignored_event_ids empty_db),
       Return (0, 1)).
Proof.
  apply (saving_twice_updates iso8601_fromisoformat empty_db
           (mk_database [inserted_row "a1" bound_cal1 t0] ∅ ∅) ev_cal1 None "a1" bound_cal1
           t0 t1); try evaluate.
  vm_compute. discriminate.
Defined.

(** The hypotheses of X12: a batch written as cal1 into a store that holds
    the cal2 meeting, cal2 ranking above cal1. *)
Lemma lower_precedence_batch_keeps_stored_rows_witness :
  ∃ added,
    appointments (mk_database [inserted_row "b1" bound_cal2 t1; inserted_row "a1" bound_cal1 t0]
                    ∅ ∅)
    = (appointments (mk_database [inserted_row "b1" bound_cal2 t1] ∅ ∅) ++ added)%list.
Proof.
  apply (lower_precedence_batch_keeps_stored_rows iso8601_fromisoformat
           (mk_database [inserted_row "b1" bound_cal2 t1] ∅ ∅) [ev_cal1] rules_cal1_loses t0
           (mk_database [inserted_row "b1" bound_cal2 t1; inserted_row "a1" bound_cal1 t0] ∅ ∅)
           (1, 0)).
  - discriminate.
  - intros r [<-|[]]. exists "cal2". split; [reflexivity|]. split; [discriminate|]. evaluate.
  - evaluate.
Defined.

(** The hypothesis of X13: the query of 30 November. *)
Lemma query_events_sorted_witness :
  StronglySorted
    (λ a b, Str.leb (text_of (a_start_time a)) (text_of (a_start_time b)) = true)
    [appointment_of_row row_occurrence].
Proof.
  apply (query_events_sorted db_series late_november 0 30 VNone
           [appointment_of_row row_occurrence]).
  evaluate.
Defined.

(** The hypotheses of X14: the same query, for the source cal1. *)
Lemma query_events_source_filter_witness :
  a_source (appointment_of_row row_occurrence) = VStr "cal1".
Proof.
  apply (query_events_source_filter db_series late_november 0 30 "cal1"
           [appointment_of_row row_occurrence] (appointment_of_row row_occurrence)).
  - discriminate.
  - evaluate.
  - by left.
Defined.

(** The hypothesis of X15: the query of 30 November. *)
Lemma query_events_exactly_once_witness :
  ∃ lo hi sp,
    date_window late_november 0 30 = Return (lo, hi)
    ∧ source_filter VNone = Return sp
    ∧ Permutation [appointment_of_row row_occurrence]
        (List.map appointment_of_row
           (List.filter
              (λ r, selected lo hi sp r
                    && visible (get_ignored_base_ids db_series)
                         (get_ignored_event_ids db_series) r)
              (appointments db_series))).
Proof.
  apply (query_events_exactly_once db_series late_november 0 30 VNone
           [appointment_of_row row_occurrence]).
  evaluate.
Defined.

(** The hypothesis of X16: the same query, and the occurrence or its series
    suppressed. *)
Lemma suppression_filters_results_witness :
  query_events
    (add_ignored_event_id db_series "series1_20251201T150000" "Review" "" "User ignored" t1)
    late_november 0 30 VNone
  = Return (List.filter
              (λ a, negb (String.eqb (text_of (a_id a)) "series1_20251201T150000"))
              [appointment_of_row row_occurrence])
  ∧ query_events (add_ignored_base_id db_series "series1_20251201T150000" "Review" "User ignored" t1)
      late_november 0 30 VNone
    = Return (List.filter
                (λ a, negb (String.eqb (get_base_id_from_event_id (text_of (a_id a)))
                              "series1_20251201T150000"))
                [appointment_of_row row_occurrence]).
Proof.
  apply (suppression_filters_results db_series late_november 0 30 VNone
           [appointment_of_row row_occurrence] "series1_20251201T150000" "Review" ""
           "User ignored" t1).
  evaluate.
Defined.

(** The hypotheses of X17: the occurrence of 1 December in the window of
    30 November. *)
Lemma query_window_by_date_witness :
  selected "2025-11-30" "2025-12-31" None row_occurrence = true
  ↔ ymd2ord (year late_november) (month late_november) (day late_november) - 0
    <= ymd2ord 2025 12 1
    ∧ ymd2ord 2025 12 1
      <= ymd2ord (year late_november) (month late_november) (day late_november) + 30.
Proof.
  apply (query_window_by_date late_november 0 30 "2025-11-30" "2025-12-31" row_occurrence
           2025 12 1 "T15:00:00Z"); try evaluate; valid.
Defined.

(** The hypotheses of X18: the query of 30 November. *)
Lemma query_events_returns_iff_witness :
  (∃ evs, query_events db_series late_november 0 30 VNone = Return evs)
  ↔ 1 <= ymd2ord (year late_november) (month late_november) (day late_november) - 0
         <= MAXORDINAL
    ∧ 1 <= ymd2ord (year late_november) (month late_november) (day late_november) + 30
    ∧ ymd2ord (year late_november) (month late_november) (day late_november) + 30 + 1
      <= MAXORDINAL.
Proof.
  apply (query_events_returns_iff db_series late_november 0 30 VNone); [valid|discriminate].
Defined.

(** The hypothesis of X21: a store whose only row has no source. *)
Lemma cleanup_with_only_null_sources_witness :
  cleanup_duplicates_main iso8601_fromisoformat (mk_database [row_unsourced] ∅ ∅)
  = (mk_database [row_unsourced] ∅ ∅, Return 0).
Proof.
  apply (cleanup_with_only_null_sources iso8601_fromisoformat
           (mk_database [row_unsourced] ∅ ∅)).
  intros r [<-|[]]. reflexivity.
Defined.

(** The hypothesis of X22: the store with the cal1 meeting twice. *)
Lemma cleanup_leaves_no_duplicates_witness :
  NoDup (source_keys iso8601_fromisoformat
           (appointments
              (mk_database [row_cal1; with_source row_unsourced (Some "ics")] ∅ ∅))
           "cal1").
Proof.
  apply (cleanup_leaves_no_duplicates iso8601_fromisoformat db_duplicates
           (mk_database [row_cal1; with_source row_unsourced (Some "ics")] ∅ ∅) 1 "cal1").
  evaluate.
Defined.

(** The hypotheses of X23 at the same store. *)
Lemma cleanup_rewrites_null_sources_witness :
  appointments (mk_database [row_cal1; with_source row_unsourced (Some "ics")] ∅ ∅)
    `sublist_of` null_sources_to_ics (appointments db_duplicates)
  ∧ ∀ r', In r' (appointments
                   (mk_database [row_cal1; with_source row_unsourced (Some "ics")] ∅ ∅)) →
          row_source r' ≠ None.
Proof.
  apply (cleanup_rewrites_null_sources iso8601_fromisoformat db_duplicates
           (mk_database [row_cal1; with_source row_unsourced (Some "ics")] ∅ ∅) 1 row_cal1).
  - evaluate.
  - by left.
  - discriminate.
Defined.

(** The hypothesis of X24: a store whose row cannot be normalized to UTC. *)
Lemma cleanup_failure_witness :
  OverflowError = OverflowError
  ∧ appointments (mk_database [row_year_one] ∅ ∅)
      `sublist_of` appointments (mk_database [row_year_one] ∅ ∅)
  ∧ ignored_base_ids (mk_database [row_year_one] ∅ ∅)
    = ignored_base_ids (mk_database [row_year_one] ∅ ∅)
  ∧ ignored_event_ids (mk_database [row_year_one] ∅ ∅)
    = ignored_event_ids (mk_database [row_year_one] ∅ ∅).
Proof.
  apply (cleanup_failure iso8601_fromisoformat (mk_database [row_year_one] ∅ ∅)
           (mk_database [row_year_one] ∅ ∅) OverflowError).
  evaluate.
Defined.

(** The hypotheses of X25: the store with the cal1 meeting twice. *)
Lemma cleanup_counts_removed_rows_witness :
  0 <= 1
  ∧ Z.of_nat (length (appointments
                        (mk_database [row_cal1; with_source row_unsourced (Some "ics")] ∅ ∅)))
    = Z.of_nat (length (appointments db_duplicates)) - 1
  ∧ NoDup (List.map row_id
             (appointments
                (mk_database [row_cal1; with_source row_unsourced (Some "ics")] ∅ ∅)))
  ∧ ignored_base_ids (mk_database [row_cal1; with_source row_unsourced (Some "ics")] ∅ ∅)
    = ignored_base_ids db_duplicates
  ∧ ignored_event_ids (mk_database [row_cal1; with_source row_unsourced (Some "ics")] ∅ ∅)
    = ignored_event_ids db_duplicates.
Proof.
  apply (cleanup_counts_removed_rows iso8601_fromisoformat db_duplicates
           (mk_database [row_cal1; with_source row_unsourced (Some "ics")] ∅ ∅) 1).
  - apply (bool_decide_unpack _). evaluate.
  - evaluate.
Defined.

(** The hypotheses of X26 at the same store, for the row that is deleted. *)
Lemma cleanup_keeps_first_of_each_key_witness :
  ∃ r', In r' (appointments
                 (mk_database [row_cal1; with_source row_unsourced (Some "ics")] ∅ ∅))
        ∧ key_of iso8601_fromisoformat r' = key_of iso8601_fromisoformat row_pst
        ∧ (row_source r' = row_source row_pst
           ∨ row_source row_pst = None ∧ row_source r' = Some "ics")
        ∧ created_at_le r' row_pst = true
        ∧ (key_of iso8601_fromisoformat row_pst = None →
           r' = row_pst
           ∨ row_source row_pst = None ∧ r' = with_source row_pst (Some "ics")).
Proof.
  apply (cleanup_keeps_first_of_each_key iso8601_fromisoformat db_duplicates
           (mk_database [row_cal1; with_source row_unsourced (Some "ics")] ∅ ∅) 1 row_pst).
  - apply (bool_decide_unpack _). evaluate.
  - evaluate.
  - right. by left.
Defined.

(** The hypothesis of X27 at the same store. *)
Lemma cleanup_again_removes_nothing_witness :
  cleanup_duplicates_main iso8601_fromisoformat
    (mk_database [row_cal1; with_source row_unsourced (Some "ics")] ∅ ∅)
  = (mk_database [row_cal1; with_source row_unsourced (Some "ics")] ∅ ∅, Return 0).
Proof.
  apply (cleanup_again_removes_nothing iso8601_fromisoformat db_duplicates
           (mk_database [row_cal1; with_source row_unsourced (Some "ics")] ∅ ∅) 1).
  evaluate.
Defined.

(** The hypothesis of X28: a series added on the command line. *)
Lemma manage_ignored_base_ids_frame_witness :
  (0 = 0 ∨ 0 = 1)
  ∧ (0 = 1 → add_ignored_base_id empty_db "series1" "" "User ignored" t0 = empty_db
             ∧ ∃ line, Text "Added series1 to ignored list" = Text line)
  ∧ (0 = 0
     ↔ ["manage_ignored_base_ids.py"; "add"; "series1"] !! 1%nat = Some "list"
       ∨ (["manage_ignored_base_ids.py"; "add"; "series1"] !! 1%nat = Some "add"
          ∨ ["manage_ignored_base_ids.py"; "add"; "series1"] !! 1%nat = Some "remove")
         ∧ is_Some (["manage_ignored_base_ids.py"; "add"; "series1"] !! 2%nat))
  ∧ appointments (add_ignored_base_id empty_db "series1" "" "User ignored" t0)
    = appointments empty_db
  ∧ ignored_event_ids (add_ignored_base_id empty_db "series1" "" "User ignored" t0)
    = ignored_event_ids empty_db
  ∧ (∀ b, ["manage_ignored_base_ids.py"; "add"; "series1"] !! 2%nat ≠ Some b →
          ignored_base_ids (add_ignored_base_id empty_db "series1" "" "User ignored" t0) !! b
          = ignored_base_ids empty_db !! b).
Proof.
  apply (manage_ignored_base_ids_frame empty_db ["manage_ignored_base_ids.py"; "add"; "series1"]
           t0 (add_ignored_base_id empty_db "series1" "" "User ignored" t0)
           (Text "Added series1 to ignored list") 0).
  reflexivity.
Defined.

(** The hypothesis of X29: an occurrence removed on the command line. *)
Lemma manage_ignored_event_ids_frame_witness :
  (0 = 0 ∨ 0 = 1)
  ∧ (0 = 1 → remove_ignored_event_id empty_db "e1" = empty_db
             ∧ ∃ line, Text "Removed e1 from ignored list" = Text line)
  ∧ (0 = 0
     ↔ ["manage_ignored_event_ids.py"; "remove"; "e1"] !! 1%nat = Some "list"
       ∨ (["manage_ignored_event_ids.py"; "remove"; "e1"] !! 1%nat = Some "add"
          ∨ ["manage_ignored_event_ids.py"; "remove"; "e1"] !! 1%nat = Some "remove")
         ∧ is_Some (["manage_ignored_event_ids.py"; "remove"; "e1"] !! 2%nat))
  ∧ appointments (remove_ignored_event_id empty_db "e1") = appointments empty_db
  ∧ ignored_base_ids (remove_ignored_event_id empty_db "e1") = ignored_base_ids empty_db
  ∧ (∀ i, ["manage_ignored_event_ids.py"; "remove"; "e1"] !! 2%nat ≠ Some i →
          ignored_event_ids (remove_ignored_event_id empty_db "e1") !! i
          = ignored_event_ids empty_db !! i).
Proof.
  apply (manage_ignored_event_ids_frame empty_db ["manage_ignored_event_ids.py"; "remove"; "e1"]
           t0 (remove_ignored_event_id empty_db "e1")
           (Text "Removed e1 from ignored list") 0).
  reflexivity.
Defined.

(** The hypotheses of X30: seven days asked for on 30 November. *)
Lemma query_db_api_outcome_witness :
  ∃ events, query_events db_series late_november 0 7 VNone = Return events
            ∧ query_db_api_main decimal_int (Some db_series) ["query_db_api.py"; "7"]
                late_november
              = Events events.
Proof.
  apply (query_db_api_outcome decimal_int (Some db_series) ["query_db_api.py"; "7"]
           late_november); [valid|vm_compute; discriminate].
Defined.

End Instances.
